(** * MediConnect backend: a shallow embedding of the service layer

    The services of [packages/backend/src/services] (AuthService,
    ConsultationService, PrescriptionService) are sequences of SQL statements
    against one PostgreSQL database.  The embedding keeps that shape:

    - a table is the list of its rows, in insertion order, and a row is a
      record with the columns the services read or write; nullable columns
      are [option];
    - [SELECT ... WHERE] is [filter], [UPDATE ... WHERE] is a [map] that
      rewrites the matching rows, [INSERT] appends a row;
    - a service method is a function from the store and its arguments to the
      new store and a [result]: the value it resolves to, or the error it
      throws;
    - everything a method obtains from outside the database (the clock, fresh
      UUIDs, random bytes, the outcome of a WhatsApp or S3 call) is an
      explicit argument;
    - [db.transaction] commits the callback's writes when it returns and
      rolls all of them back when it throws. *)

From Stdlib Require Import ZArith List Ascii String Bool Lia Sorted.
Import ListNotations.

Local Open Scope Z_scope.
Local Open Scope list_scope.

(** ** Values *)

Definition uuid := string.

(** Instants, in milliseconds since the epoch ([Date.now()], [NOW()]). *)
Definition timestamp := Z.

(** [AppError(message, statusCode)] of [utils/errors]; a [TypeError] of the
    JavaScript runtime (a property read on [undefined]); an error raised by
    PostgreSQL for a statement; an error thrown by a collaborator. *)
Inductive error : Type :=
| AppError (message : string) (statusCode : Z)
| TypeError (message : string)
| DatabaseError (message : string)
| CollaboratorError (message : string).

Inductive result (A : Type) : Type :=
| Ok (value : A)
| Throw (e : error).
Arguments Ok {A} value.
Arguments Throw {A} e.

(** PostgreSQL [INTEGER] arithmetic: out of the 32-bit range the statement
    fails with "integer out of range"; [NULL + n] is [NULL]. *)
Definition int4_max : Z := 2147483647.
Definition int4_min : Z := -2147483648.

Definition int4_in_range (n : Z) : bool := (int4_min <=? n) && (n <=? int4_max).

Inductive int4_sum : Type :=
| SumNull
| SumValue (n : Z)
| SumOutOfRange.

Definition int4_add (a : option Z) (b : Z) : int4_sum :=
  match a with
  | None => SumNull
  | Some n => if int4_in_range (n + b) then SumValue (n + b) else SumOutOfRange
  end.

(** ** Enumerations of the schema (001_initial_schema.sql) *)

Inductive user_role : Type :=
| role_patient | role_gp | role_specialist | role_pharmacy_admin
| role_diagnostics_admin | role_ops_admin | role_support | role_super_admin.

Inductive consultation_status : Type :=
| requested | matched | active | extended | completed | cancelled.

(** [wa_auth_codes.status] *)
Inductive otp_status : Type :=
| otp_pending | otp_verified | otp_expired | otp_locked.

Definition otp_status_eqb (a b : otp_status) : bool :=
  match a, b with
  | otp_pending, otp_pending | otp_verified, otp_verified
  | otp_expired, otp_expired | otp_locked, otp_locked => true
  | _, _ => false
  end.

(** [prescriptions.status] *)
Inductive prescription_status : Type :=
| rx_active | rx_claimed | rx_fulfilled | rx_expired.

Definition prescription_status_eqb (a b : prescription_status) : bool :=
  match a, b with
  | rx_active, rx_active | rx_claimed, rx_claimed
  | rx_fulfilled, rx_fulfilled | rx_expired, rx_expired => true
  | _, _ => false
  end.

(** [pharmacy_claims.status] *)
Inductive claim_status : Type :=
| claim_ready | claim_dispensed | claim_disputed.

(** ** Rows *)

Record user : Type := {
  u_id : uuid;
  u_phone_number : string;
  u_phone_verified_at : option timestamp;
  u_full_name : option string;
  u_preferred_language : option string;
  u_role : user_role
}.

Record wa_auth_code : Type := {
  ac_id : uuid;
  ac_phone_number : string;
  ac_code_hash : string;
  ac_attempts : option Z;
  ac_status : otp_status;
  ac_wa_message_id : option string;
  ac_ttl_expires_at : timestamp;
  ac_verified_at : option timestamp
}.

Record provider : Type := {
  pr_id : uuid;
  pr_user_id : option uuid;
  pr_provider_type : string;
  pr_max_concurrent_sessions : option Z;
  pr_is_active : option bool
}.

Record consultation : Type := {
  c_id : uuid;
  c_patient_id : uuid;
  c_provider_id : option uuid;
  c_status : consultation_status;
  c_consultation_notes : option string;
  c_started_at : option timestamp;
  c_ended_at : option timestamp;
  c_duration_minutes : option Z;
  c_capacity_cap_minutes : option Z;
  c_referral_extension_applied : option bool;
  c_updated_at : option timestamp
}.

Record video_call_event : Type := {
  vc_consultation_id : uuid;
  vc_channel : string;
  vc_started_at : timestamp;
  vc_ended_at : option timestamp
}.

(** One element of [prescriptionData.medications]. *)
Record medication : Type := {
  med_name : string;
  med_strength : option string;
  med_form : option string;
  med_quantity : option string;
  med_instructions : option string;
  med_substitution_allowed : option bool
}.

Record prescription : Type := {
  rx_id : uuid;
  rx_consultation_id : uuid;
  rx_prescribing_provider_id : uuid;
  rx_patient_id : uuid;
  rx_prescription_data : list medication;
  rx_qr_code_data : string;
  rx_qr_enabled : option bool;
  rx_pdf_url : option string;
  rx_pdf_downloaded_at : option timestamp;
  rx_status : prescription_status;
  rx_fulfilled_at : option timestamp;
  rx_fulfilling_pharmacy_id : option uuid;
  rx_expires_at : timestamp;
  rx_created_at : timestamp
}.

Record prescription_item : Type := {
  pi_prescription_id : uuid;
  pi_drug_name : string;
  pi_strength : option string;
  pi_form : option string;
  pi_quantity : option string;
  pi_instructions : option string;
  pi_substitution_allowed : option bool
}.

Record partner : Type := {
  pt_id : uuid;
  pt_partner_type : string
}.

Record pharmacy_claim : Type := {
  pc_id : uuid;
  pc_prescription_id : uuid;
  pc_pharmacy_id : uuid;
  pc_status : claim_status;
  pc_dispensed_items : option (list string);
  pc_created_at : timestamp
}.

Record audit_event : Type := {
  ae_user_id : option uuid;
  ae_event_type : string;
  ae_resource_type : string;
  ae_resource_id : uuid;
  ae_event_data : list (string * string)
}.

(** ** The store *)

Record Store : Type := {
  users : list user;
  wa_auth_codes : list wa_auth_code;
  providers : list provider;
  consultations : list consultation;
  video_call_events : list video_call_event;
  prescriptions : list prescription;
  prescription_items : list prescription_item;
  partners : list partner;
  pharmacy_claims : list pharmacy_claim;
  audit_events : list audit_event
}.

Definition empty_store : Store :=
  {| users := []; wa_auth_codes := []; providers := []; consultations := [];
     video_call_events := []; prescriptions := []; prescription_items := [];
     partners := []; pharmacy_claims := []; audit_events := [] |}.

Definition set_users (t : list user) (st : Store) : Store :=
  {| users := t; wa_auth_codes := wa_auth_codes st; providers := providers st;
     consultations := consultations st;
     video_call_events := video_call_events st;
     prescriptions := prescriptions st;
     prescription_items := prescription_items st; partners := partners st;
     pharmacy_claims := pharmacy_claims st; audit_events := audit_events st |}.

Definition set_wa_auth_codes (t : list wa_auth_code) (st : Store) : Store :=
  {| users := users st; wa_auth_codes := t; providers := providers st;
     consultations := consultations st;
     video_call_events := video_call_events st;
     prescriptions := prescriptions st;
     prescription_items := prescription_items st; partners := partners st;
     pharmacy_claims := pharmacy_claims st; audit_events := audit_events st |}.

Definition set_consultations (t : list consultation) (st : Store) : Store :=
  {| users := users st; wa_auth_codes := wa_auth_codes st;
     providers := providers st; consultations := t;
     video_call_events := video_call_events st;
     prescriptions := prescriptions st;
     prescription_items := prescription_items st; partners := partners st;
     pharmacy_claims := pharmacy_claims st; audit_events := audit_events st |}.

Definition set_video_call_events (t : list video_call_event) (st : Store)
  : Store :=
  {| users := users st; wa_auth_codes := wa_auth_codes st;
     providers := providers st; consultations := consultations st;
     video_call_events := t; prescriptions := prescriptions st;
     prescription_items := prescription_items st; partners := partners st;
     pharmacy_claims := pharmacy_claims st; audit_events := audit_events st |}.

Definition set_prescriptions (t : list prescription) (st : Store) : Store :=
  {| users := users st; wa_auth_codes := wa_auth_codes st;
     providers := providers st; consultations := consultations st;
     video_call_events := video_call_events st; prescriptions := t;
     prescription_items := prescription_items st; partners := partners st;
     pharmacy_claims := pharmacy_claims st; audit_events := audit_events st |}.

Definition set_prescription_items (t : list prescription_item) (st : Store)
  : Store :=
  {| users := users st; wa_auth_codes := wa_auth_codes st;
     providers := providers st; consultations := consultations st;
     video_call_events := video_call_events st;
     prescriptions := prescriptions st; prescription_items := t;
     partners := partners st; pharmacy_claims := pharmacy_claims st;
     audit_events := audit_events st |}.

Definition set_pharmacy_claims (t : list pharmacy_claim) (st : Store) : Store :=
  {| users := users st; wa_auth_codes := wa_auth_codes st;
     providers := providers st; consultations := consultations st;
     video_call_events := video_call_events st;
     prescriptions := prescriptions st;
     prescription_items := prescription_items st; partners := partners st;
     pharmacy_claims := t; audit_events := audit_events st |}.

Definition set_audit_events (t : list audit_event) (st : Store) : Store :=
  {| users := users st; wa_auth_codes := wa_auth_codes st;
     providers := providers st; consultations := consultations st;
     video_call_events := video_call_events st;
     prescriptions := prescriptions st;
     prescription_items := prescription_items st; partners := partners st;
     pharmacy_claims := pharmacy_claims st; audit_events := t |}.

(** ** SQL statements over a table *)

(** [UPDATE t SET ... WHERE cond]: every matching row is rewritten. *)
Definition update_where {row : Type} (cond : row -> bool) (set : row -> row)
  (t : list row) : list row :=
  map (fun r => if cond r then set r else r) t.

(** [INSERT INTO t ... VALUES r] *)
Definition insert_row {row : Type} (r : row) (t : list row) : list row :=
  t ++ [r].

(** [INSERT INTO audit_events (user_id, event_type, resource_type,
    resource_id, event_data)] *)
Definition log_audit (user_id : option uuid) (event_type resource_type : string)
  (resource_id : uuid) (event_data : list (string * string)) (st : Store)
  : Store :=
  set_audit_events
    (insert_row
       {| ae_user_id := user_id; ae_event_type := event_type;
          ae_resource_type := resource_type; ae_resource_id := resource_id;
          ae_event_data := event_data |}
       (audit_events st))
    st.

(** ** Collaborators

    Library and environment functions the services call.  [bcrypt_hash] takes
    the salt bcrypt draws; [interval_minutes] is PostgreSQL's conversion of
    an interval (here in milliseconds) to the [INTEGER] minutes stored in
    [duration_minutes]. *)

Record AuthPayload : Type := {
  userId : uuid;
  role : user_role;
  sessionId : uuid
}.

Class Collaborators : Type := {
  bcrypt_hash : string -> string -> string;
  bcrypt_compare : string -> string -> bool;
  jwt_sign : AuthPayload -> string;
  encodeURIComponent : string -> string;
  GP_WHATSAPP_NUMBER : string;
  interval_minutes : Z -> Z
}.

(** ** WhatsAppService *)

(** [sendOTP]: the message id of the API response when there is one (and it
    is truthy); every failure is rethrown as a 503.  [response] is [None]
    when the HTTP call throws or the response carries no message id. *)
Definition sendOTP (response : option string) : result string :=
  match response with
  | Some id =>
      if String.eqb id "" then
        Throw (AppError "Failed to send OTP via WhatsApp" 503)
      else Ok id
  | None => Throw (AppError "Failed to send OTP via WhatsApp" 503)
  end.

Definition generateVideoCallLink {ext : Collaborators} (consultationId : uuid)
  : string :=
  let baseUrl := "https://wa.me"%string in
  let message := ("Starting consultation " ++ consultationId)%string in
  (baseUrl ++ "/" ++ GP_WHATSAPP_NUMBER ++ "?text="
     ++ encodeURIComponent message)%string.

(** ** AuthService *)

Section AuthService.
Context {ext : Collaborators}.

(** [WHERE phone_number = $1 AND status = 'pending'] *)
Definition is_pending_for (phoneNumber : string) (r : wa_auth_code) : bool :=
  String.eqb (ac_phone_number r) phoneNumber
  && otp_status_eqb (ac_status r) otp_pending.

(** [WHERE phone_number = $1 AND status = 'pending' AND ttl_expires_at > NOW()] *)
Definition is_live_pending_for (phoneNumber : string) (now : timestamp)
  (r : wa_auth_code) : bool :=
  is_pending_for phoneNumber r && (now <? ac_ttl_expires_at r).

(** JavaScript's [attempts >= 5]; a [null] counter compares as 0. *)
Definition attempts_ge_5 (r : wa_auth_code) : bool :=
  match ac_attempts r with
  | Some a => 5 <=? a
  | None => false
  end.

(** [DO UPDATE SET code_hash = $2, ttl_expires_at = $3, attempts = 0] *)
Definition supersede (codeHash : string) (expiresAt : timestamp)
  (r : wa_auth_code) : wa_auth_code :=
  {| ac_id := ac_id r; ac_phone_number := ac_phone_number r;
     ac_code_hash := codeHash; ac_attempts := Some 0;
     ac_status := ac_status r; ac_wa_message_id := ac_wa_message_id r;
     ac_ttl_expires_at := expiresAt; ac_verified_at := ac_verified_at r |}.

(** The row [INSERT INTO wa_auth_codes (phone_number, code_hash,
    ttl_expires_at, status) VALUES ($1, $2, $3, 'pending')] proposes; the
    other columns take their defaults. *)
Definition new_auth_code (new_id : uuid) (phoneNumber codeHash : string)
  (expiresAt : timestamp) : wa_auth_code :=
  {| ac_id := new_id; ac_phone_number := phoneNumber;
     ac_code_hash := codeHash; ac_attempts := Some 0;
     ac_status := otp_pending; ac_wa_message_id := None;
     ac_ttl_expires_at := expiresAt; ac_verified_at := None |}.

(** What [INSERT ... ON CONFLICT (phone_number) WHERE status = 'pending' DO
    UPDATE ...] does once PostgreSQL has found its arbiter, a partial unique
    index on [phone_number] over the pending rows: the row in conflict with
    the proposed one, a pending row of the same phone number, is updated in
    place; without one the proposed row is inserted. *)
Fixpoint upsert_pending (new_id : uuid) (phoneNumber codeHash : string)
  (expiresAt : timestamp) (t : list wa_auth_code) : list wa_auth_code :=
  match t with
  | [] => [new_auth_code new_id phoneNumber codeHash expiresAt]
  | r :: t' =>
      if is_pending_for phoneNumber r then supersede codeHash expiresAt r :: t'
      else r :: upsert_pending new_id phoneNumber codeHash expiresAt t'
  end.

(** The unique indexes 001_initial_schema.sql declares on [wa_auth_codes]:
    the primary key on [id] and no other.  No CREATE INDEX statement of the
    schema names the table, and no other file of the repository alters it. *)
Inductive unique_index : Type :=
| primary_key_on_id
| pending_phone_number.

Definition wa_auth_codes_unique_indexes : list unique_index :=
  [primary_key_on_id].

Definition is_arbiter (i : unique_index) : bool :=
  match i with
  | pending_phone_number => true
  | primary_key_on_id => false
  end.

(** The statement as PostgreSQL runs it.  The planner looks for a unique
    index matching [(phone_number) WHERE status = 'pending'] before any row is
    touched; with none it raises error 42P10 and the table is as it was. *)
Definition no_arbiter_index : string :=
  "there is no unique or exclusion constraint matching the ON CONFLICT specification".

Definition insert_on_conflict (new_id : uuid) (phoneNumber codeHash : string)
  (expiresAt : timestamp) (t : list wa_auth_code)
  : result (list wa_auth_code) :=
  if existsb is_arbiter wa_auth_codes_unique_indexes
  then Ok (upsert_pending new_id phoneNumber codeHash expiresAt t)
  else Throw (DatabaseError no_arbiter_index).

Definition set_wa_message_id (messageId : string) (r : wa_auth_code)
  : wa_auth_code :=
  {| ac_id := ac_id r; ac_phone_number := ac_phone_number r;
     ac_code_hash := ac_code_hash r; ac_attempts := ac_attempts r;
     ac_status := ac_status r; ac_wa_message_id := Some messageId;
     ac_ttl_expires_at := ac_ttl_expires_at r;
     ac_verified_at := ac_verified_at r |}.

(** [requestOTP(phoneNumber)].  [otp] is the generated 6-digit code, [salt]
    the bcrypt salt, [new_id] the UUID a new row would get, [response] what
    the WhatsApp API answers.  The method runs outside a transaction and
    rethrows what its statements throw.  Its first query, of the user of the
    phone number, is a read whose result is not used. *)
Definition requestOTP (st : Store) (phoneNumber : string)
  (otp salt : string) (now : timestamp) (new_id : uuid)
  (response : option string) : Store * result unit :=
  let otpHash := bcrypt_hash salt otp in
  let expiresAt := now + 5 * 60 * 1000 in
  let existingOTP :=
    filter (is_live_pending_for phoneNumber now) (wa_auth_codes st) in
  let blocked :=
    match existingOTP with
    | r :: _ => attempts_ge_5 r
    | [] => false
    end in
  if blocked then
    (st, Throw (AppError "Too many OTP attempts. Please try again later." 429))
  else
    match insert_on_conflict new_id phoneNumber otpHash expiresAt
            (wa_auth_codes st) with
    | Throw e => (st, Throw e)
    | Ok stored =>
        let st1 := set_wa_auth_codes stored st in
        match sendOTP response with
        | Throw e => (st1, Throw e)
        | Ok messageId =>
            (set_wa_auth_codes
               (update_where (is_pending_for phoneNumber)
                  (set_wa_message_id messageId) (wa_auth_codes st1)) st1,
             Ok tt)
        end
    end.

Definition set_otp_status (s : otp_status) (verified_at : option timestamp)
  (r : wa_auth_code) : wa_auth_code :=
  {| ac_id := ac_id r; ac_phone_number := ac_phone_number r;
     ac_code_hash := ac_code_hash r; ac_attempts := ac_attempts r;
     ac_status := s; ac_wa_message_id := ac_wa_message_id r;
     ac_ttl_expires_at := ac_ttl_expires_at r;
     ac_verified_at := verified_at |}.

Definition set_attempts (a : option Z) (r : wa_auth_code) : wa_auth_code :=
  {| ac_id := ac_id r; ac_phone_number := ac_phone_number r;
     ac_code_hash := ac_code_hash r; ac_attempts := a;
     ac_status := ac_status r; ac_wa_message_id := ac_wa_message_id r;
     ac_ttl_expires_at := ac_ttl_expires_at r;
     ac_verified_at := ac_verified_at r |}.

Definition has_auth_code_id (id : uuid) (r : wa_auth_code) : bool :=
  String.eqb (ac_id r) id.

(** [UPDATE wa_auth_codes SET attempts = attempts + 1 WHERE id = $1]: the
    statement fails as a whole when a sum leaves the [INTEGER] range. *)
Definition increment_attempts (id : uuid) (t : list wa_auth_code)
  : option (list wa_auth_code) :=
  if existsb
       (fun r =>
          has_auth_code_id id r
          && match int4_add (ac_attempts r) 1 with
             | SumOutOfRange => true
             | _ => false
             end) t
  then None
  else
    Some
      (update_where (has_auth_code_id id)
         (fun r =>
            match int4_add (ac_attempts r) 1 with
            | SumValue n => set_attempts (Some n) r
            | _ => r
            end) t).

Definition set_phone_verified_at (now : timestamp) (u : user) : user :=
  {| u_id := u_id u; u_phone_number := u_phone_number u;
     u_phone_verified_at := Some now; u_full_name := u_full_name u;
     u_preferred_language := u_preferred_language u; u_role := u_role u |}.

Record LoginResult : Type := {
  token : string;
  login_user : user
}.

(** [verifyOTP(phoneNumber, code)].  [new_user_id] is the UUID a created user
    gets, [session] the result of [crypto.randomUUID()]. *)
Definition verifyOTP (st : Store) (phoneNumber code : string)
  (now : timestamp) (new_user_id session : uuid) : Store * result LoginResult :=
  match filter (is_pending_for phoneNumber) (wa_auth_codes st) with
  | [] => (st, Throw (AppError "No pending OTP found" 404))
  | otpRecord :: _ =>
      if ac_ttl_expires_at otpRecord <? now then
        (set_wa_auth_codes
           (update_where (has_auth_code_id (ac_id otpRecord))
              (fun r => set_otp_status otp_expired (ac_verified_at r) r)
              (wa_auth_codes st)) st,
         Throw (AppError "OTP has expired" 401))
      else if negb (bcrypt_compare code (ac_code_hash otpRecord)) then
        match increment_attempts (ac_id otpRecord) (wa_auth_codes st) with
        | None => (st, Throw (DatabaseError "integer out of range"))
        | Some t => (set_wa_auth_codes t st, Throw (AppError "Invalid OTP" 401))
        end
      else
        let st1 :=
          set_wa_auth_codes
            (update_where (has_auth_code_id (ac_id otpRecord))
               (set_otp_status otp_verified (Some now))
               (wa_auth_codes st)) st in
        let userQuery :=
          filter (fun u => String.eqb (u_phone_number u) phoneNumber)
            (users st1) in
        let '(st2, user) :=
          match userQuery with
          | [] =>
              let newUser :=
                {| u_id := new_user_id; u_phone_number := phoneNumber;
                   u_phone_verified_at := Some now; u_full_name := None;
                   u_preferred_language := Some "en"%string;
                   u_role := role_patient |} in
              (set_users (insert_row newUser (users st1)) st1, newUser)
          | u :: _ =>
              (set_users
                 (update_where (fun x => String.eqb (u_id x) (u_id u))
                    (set_phone_verified_at now) (users st1)) st1, u)
          end in
        let payload :=
          {| userId := u_id user; role := u_role user; sessionId := session |} in
        let st3 :=
          log_audit (Some (u_id user)) "auth.login" "user" (u_id user)
            [("method", "whatsapp_otp")]%string st2 in
        (st3, Ok {| token := jwt_sign payload; login_user := user |})
  end.

(** [logout(userId)]: an audit record, nothing else.  [timestamp] is
    [new Date()] as JSON renders it in [event_data]. *)
Definition logout (st : Store) (user_id : uuid) (timestamp : string) : Store :=
  log_audit (Some user_id) "auth.logout" "user" user_id
    [("timestamp", timestamp)]%string st.

(** A run of the verifier: calls arrive one after another. *)
Inductive auth_call : Type :=
| RequestOTP (phoneNumber otp salt : string) (now : timestamp) (new_id : uuid)
    (response : option string)
| VerifyOTP (phoneNumber code : string) (now : timestamp)
    (new_user_id session : uuid).

Definition auth_step (st : Store) (c : auth_call) : Store :=
  match c with
  | RequestOTP phoneNumber otp salt now new_id response =>
      fst (requestOTP st phoneNumber otp salt now new_id response)
  | VerifyOTP phoneNumber code now new_user_id session =>
      fst (verifyOTP st phoneNumber code now new_user_id session)
  end.

(** The stores a run goes through, the initial one included. *)
Fixpoint auth_trace (st : Store) (calls : list auth_call) : list Store :=
  match calls with
  | [] => [st]
  | c :: calls' => st :: auth_trace (auth_step st c) calls'
  end.

End AuthService.

(** ** ConsultationService *)

Section ConsultationService.
Context {ext : Collaborators}.

(** [status IN ('matched', 'active', 'extended')] *)
Definition holds_session (s : consultation_status) : bool :=
  match s with
  | matched | active | extended => true
  | requested | completed | cancelled => false
  end.

Definition assigned_to (provider_id : uuid) (c : consultation) : bool :=
  match c_provider_id c with
  | Some p => String.eqb p provider_id
  | None => false
  end.

(** The number of consultations of a provider in a session-holding state. *)
Definition session_count (st : Store) (provider_id : uuid) : Z :=
  Z.of_nat
    (List.length
       (filter (fun c => holds_session (c_status c) && assigned_to provider_id c)
          (consultations st))).

(** [c.active_count] after the [LEFT JOIN] with the grouped subquery: the
    subquery has a row for a provider only when [COUNT] is at least 1, so
    a provider without such a consultation is joined with [NULL]. *)
Definition active_count (st : Store) (provider_id : uuid) : option Z :=
  let n := session_count st provider_id in
  if n =? 0 then None else Some n.

(** [WHERE p.provider_type = 'gp' AND p.is_active = true AND
    (c.active_count IS NULL OR c.active_count < p.max_concurrent_sessions)] *)
Definition is_available_gp (st : Store) (p : provider) : bool :=
  String.eqb (pr_provider_type p) "gp"
  && match pr_is_active p with
     | Some true => true
     | _ => false
     end
  && match active_count st (pr_id p) with
     | None => true
     | Some n =>
         match pr_max_concurrent_sessions p with
         | Some m => n <? m
         | None => false
         end
     end.

(** [ORDER BY c.active_count ASC NULLS FIRST] *)
Definition count_leb (a b : option Z) : bool :=
  match a, b with
  | None, _ => true
  | Some _, None => false
  | Some x, Some y => x <=? y
  end.

(** [LIMIT 1] of the ordered rows: a row with the least key.  PostgreSQL
    leaves the order of rows with equal keys open; the embedding takes the
    first of them in table order. *)
Fixpoint first_by_count (st : Store) (rows : list provider) : option provider :=
  match rows with
  | [] => None
  | p :: rows' =>
      match first_by_count st rows' with
      | None => Some p
      | Some q =>
          if count_leb (active_count st (pr_id p)) (active_count st (pr_id q))
          then Some p else Some q
      end
  end.

Definition availableGP (st : Store) : option provider :=
  first_by_count st (filter (is_available_gp st) (providers st)).

Definition has_consultation_id (id : uuid) (c : consultation) : bool :=
  String.eqb (c_id c) id.

(** [SET provider_id = $1, status = 'matched', updated_at = NOW()] *)
Definition set_matched (provider_id : uuid) (now : timestamp) (c : consultation)
  : consultation :=
  {| c_id := c_id c; c_patient_id := c_patient_id c;
     c_provider_id := Some provider_id; c_status := matched;
     c_consultation_notes := c_consultation_notes c;
     c_started_at := c_started_at c; c_ended_at := c_ended_at c;
     c_duration_minutes := c_duration_minutes c;
     c_capacity_cap_minutes := c_capacity_cap_minutes c;
     c_referral_extension_applied := c_referral_extension_applied c;
     c_updated_at := Some now |}.

(** [assignGP(consultationId)].  The method returns nothing: the provider it
    chose is the one it records in the consultation, returned here with the
    store.  [notification] is the outcome of [notifyUser]. *)
Definition assignGP (st : Store) (consultationId : uuid) (now : timestamp)
  (notification : result unit) : Store * result provider :=
  match availableGP st with
  | None => (st, Throw (AppError "No GP available at the moment" 503))
  | Some gp =>
      let st1 :=
        set_consultations
          (update_where (has_consultation_id consultationId)
             (set_matched (pr_id gp) now) (consultations st)) st in
      match filter (fun p => String.eqb (pr_id p) (pr_id gp)) (providers st1) with
      | [] => (st1, Throw (TypeError "Cannot read properties of undefined"))
      | _ :: _ =>
          match notification with
          | Throw e => (st1, Throw e)
          | Ok _ => (st1, Ok gp)
          end
      end
  end.

(** [SET status = 'active', started_at = NOW()] *)
Definition set_active (now : timestamp) (c : consultation) : consultation :=
  {| c_id := c_id c; c_patient_id := c_patient_id c;
     c_provider_id := c_provider_id c; c_status := active;
     c_consultation_notes := c_consultation_notes c;
     c_started_at := Some now; c_ended_at := c_ended_at c;
     c_duration_minutes := c_duration_minutes c;
     c_capacity_cap_minutes := c_capacity_cap_minutes c;
     c_referral_extension_applied := c_referral_extension_applied c;
     c_updated_at := c_updated_at c |}.

Record StartedConsultation : Type := {
  started_consultation : consultation;
  started_phone_number : string;
  started_full_name : option string;
  videoCallLink : string
}.

(** [SELECT c.*, u.phone_number, u.full_name FROM consultations c JOIN users u
    ON c.patient_id = u.id WHERE c.id = $1] *)
Definition consultation_with_patient (st : Store) (consultationId : uuid)
  : list (consultation * user) :=
  flat_map
    (fun c =>
       map (fun u => (c, u))
         (filter (fun u => String.eqb (u_id u) (c_patient_id c)) (users st)))
    (filter (has_consultation_id consultationId) (consultations st)).

(** [startConsultation(consultationId, providerId)].  [sendNotification]
    swallows its errors, so the WhatsApp call leaves no trace here. *)
Definition startConsultation (st : Store) (consultationId providerId : uuid)
  (now : timestamp) : Store * result StartedConsultation :=
  let st1 :=
    set_consultations
      (update_where
         (fun c => has_consultation_id consultationId c && assigned_to providerId c)
         (set_active now) (consultations st)) st in
  match consultation_with_patient st1 consultationId with
  | [] => (st1, Throw (TypeError "Cannot read properties of undefined"))
  | (c, u) :: _ =>
      let link := generateVideoCallLink consultationId in
      let st2 :=
        set_video_call_events
          (insert_row
             {| vc_consultation_id := consultationId;
                vc_channel := "whatsapp"; vc_started_at := now;
                vc_ended_at := None |}
             (video_call_events st1)) st1 in
      (st2,
       Ok {| started_consultation := c;
             started_phone_number := u_phone_number u;
             started_full_name := u_full_name u;
             videoCallLink := link |})
  end.

(** [SET status = 'completed', ended_at = NOW(), consultation_notes = $2,
    duration_minutes = EXTRACT(EPOCH FROM (NOW() - started_at)) / 60] *)
Definition set_completed (notes : string) (now : timestamp) (c : consultation)
  : consultation :=
  {| c_id := c_id c; c_patient_id := c_patient_id c;
     c_provider_id := c_provider_id c; c_status := completed;
     c_consultation_notes := Some notes;
     c_started_at := c_started_at c; c_ended_at := Some now;
     c_duration_minutes :=
       option_map (fun started => interval_minutes (now - started))
         (c_started_at c);
     c_capacity_cap_minutes := c_capacity_cap_minutes c;
     c_referral_extension_applied := c_referral_extension_applied c;
     c_updated_at := c_updated_at c |}.

Definition set_call_ended (now : timestamp) (e : video_call_event)
  : video_call_event :=
  {| vc_consultation_id := vc_consultation_id e; vc_channel := vc_channel e;
     vc_started_at := vc_started_at e; vc_ended_at := Some now |}.

(** [endConsultation(consultationId, notes)]; it resolves to nothing, the
    duration it logs is returned here.  Without a row of that id the read of
    [result.rows[0].duration_minutes] throws. *)
Definition endConsultation (st : Store) (consultationId : uuid) (notes : string)
  (now : timestamp) : Store * result (option Z) :=
  let returning :=
    map (set_completed notes now)
      (filter (has_consultation_id consultationId) (consultations st)) in
  let st1 :=
    set_consultations
      (update_where (has_consultation_id consultationId)
         (set_completed notes now) (consultations st)) st in
  let st2 :=
    set_video_call_events
      (update_where
         (fun e =>
            String.eqb (vc_consultation_id e) consultationId
            && match vc_ended_at e with None => true | Some _ => false end)
         (set_call_ended now) (video_call_events st1)) st1 in
  match returning with
  | [] => (st2, Throw (TypeError "Cannot read properties of undefined"))
  | c :: _ => (st2, Ok (c_duration_minutes c))
  end.

(** [SET capacity_cap_minutes = capacity_cap_minutes + 10,
    referral_extension_applied = true, status = 'extended'] *)
Definition set_extended (c : consultation) : consultation :=
  {| c_id := c_id c; c_patient_id := c_patient_id c;
     c_provider_id := c_provider_id c; c_status := extended;
     c_consultation_notes := c_consultation_notes c;
     c_started_at := c_started_at c; c_ended_at := c_ended_at c;
     c_duration_minutes := c_duration_minutes c;
     c_capacity_cap_minutes :=
       match int4_add (c_capacity_cap_minutes c) 10 with
       | SumValue n => Some n
       | _ => None
       end;
     c_referral_extension_applied := Some true;
     c_updated_at := c_updated_at c |}.

(** [extendConsultation(consultationId, reason)]: one unconditional [UPDATE];
    it fails as a whole when the new cap leaves the [INTEGER] range. *)
Definition extendConsultation (st : Store) (consultationId : uuid)
  (reason : string) : Store * result unit :=
  if existsb
       (fun c =>
          has_consultation_id consultationId c
          && match int4_add (c_capacity_cap_minutes c) 10 with
             | SumOutOfRange => true
             | _ => false
             end) (consultations st)
  then (st, Throw (DatabaseError "integer out of range"))
  else
    (set_consultations
       (update_where (has_consultation_id consultationId) set_extended
          (consultations st)) st,
     Ok tt).

End ConsultationService.

(** ** PrescriptionService *)

Section PrescriptionService.

Record CreatedPrescription : Type := {
  created_row : prescription;
  qr_code_image : string
}.

(** The [prescription_items] row of one medication;
    [item.substitution_allowed ?? true]. *)
Definition item_of_medication (prescription_id : uuid) (item : medication)
  : prescription_item :=
  {| pi_prescription_id := prescription_id;
     pi_drug_name := med_name item;
     pi_strength := med_strength item;
     pi_form := med_form item;
     pi_quantity := med_quantity item;
     pi_instructions := med_instructions item;
     pi_substitution_allowed :=
       match med_substitution_allowed item with
       | Some b => Some b
       | None => Some true
       end |}.

Definition thirty_days : Z := 30 * 24 * 60 * 60 * 1000.

(** [createPrescription(consultationId, providerId, prescriptionData)], one
    transaction.  [qrCodeData] is the hex of [crypto.randomBytes(32)],
    [new_id] the UUID of the new row, [qrImage] the data URL that
    [QRCode.toDataURL] returns, [None] when it throws.  The [INSERT] into [prescriptions] is checked against
    the foreign key on [prescribing_provider_id] and the uniqueness of
    [qr_code_data].  The only read of the consultation is of its
    [patient_id]. *)
Definition createPrescription (st : Store) (consultationId providerId : uuid)
  (medications : list medication) (qrCodeData : string) (now : timestamp)
  (new_id : uuid) (qrImage : option string)
  : Store * result CreatedPrescription :=
  match filter (fun c => String.eqb (c_id c) consultationId) (consultations st) with
  | [] => (st, Throw (AppError "Consultation not found" 404))
  | c :: _ =>
      let expiresAt := now + thirty_days in
      if negb (existsb (fun p => String.eqb (pr_id p) providerId) (providers st))
      then (st, Throw (DatabaseError "violates foreign key constraint"))
      else if existsb (fun p => String.eqb (rx_qr_code_data p) qrCodeData)
                (prescriptions st)
      then (st, Throw (DatabaseError "violates unique constraint"))
      else
        let row :=
          {| rx_id := new_id; rx_consultation_id := consultationId;
             rx_prescribing_provider_id := providerId;
             rx_patient_id := c_patient_id c;
             rx_prescription_data := medications;
             rx_qr_code_data := qrCodeData; rx_qr_enabled := Some true;
             rx_pdf_url := None; rx_pdf_downloaded_at := None;
             rx_status := rx_active; rx_fulfilled_at := None;
             rx_fulfilling_pharmacy_id := None; rx_expires_at := expiresAt;
             rx_created_at := now |} in
        let st1 := set_prescriptions (insert_row row (prescriptions st)) st in
        let st2 :=
          set_prescription_items
            (prescription_items st1
               ++ map (item_of_medication new_id) medications) st1 in
        match qrImage with
        | None => (st, Throw (CollaboratorError "QRCode.toDataURL"))
        | Some image =>
            let st3 :=
              log_audit (Some (c_patient_id c)) "prescription.created"
                "prescription" new_id [("provider_id", providerId)]%string st2 in
            (st3, Ok {| created_row := row; qr_code_image := image |})
        end
  end.

(** A row of [SELECT drug_name, strength, form, quantity, instructions FROM
    prescription_items]. *)
Record item_view : Type := {
  iv_drug_name : string;
  iv_strength : option string;
  iv_form : option string;
  iv_quantity : option string;
  iv_instructions : option string
}.

Definition view_of_item (i : prescription_item) : item_view :=
  {| iv_drug_name := pi_drug_name i; iv_strength := pi_strength i;
     iv_form := pi_form i; iv_quantity := pi_quantity i;
     iv_instructions := pi_instructions i |}.

(** The [prescription] object returned to the pharmacy. *)
Record pharmacy_view : Type := {
  pv_id : uuid;
  pv_medications : list item_view;
  pv_prescribing_doctor : string;
  pv_issue_date : timestamp
}.

(** [{ valid: false, reason }] or [{ valid: true, prescription }] *)
Inductive qr_verdict : Type :=
| Invalid (reason : string)
| Valid (prescription : pharmacy_view).

(** [SELECT p.*, u.full_name as patient_name FROM prescriptions p JOIN users u
    ON p.patient_id = u.id WHERE p.qr_code_data = $1] *)
Definition prescription_by_qr (st : Store) (qrCodeData : string)
  : list (prescription * option string) :=
  flat_map
    (fun p =>
       map (fun u => (p, u_full_name u))
         (filter (fun u => String.eqb (u_id u) (rx_patient_id p)) (users st)))
    (filter (fun p => String.eqb (rx_qr_code_data p) qrCodeData)
       (prescriptions st)).

(** JavaScript's [!prescriptionData.qr_enabled]: [false] and [null] alike. *)
Definition qr_disabled (p : prescription) : bool :=
  match rx_qr_enabled p with
  | Some true => false
  | _ => true
  end.

Definition items_of (st : Store) (prescription_id : uuid) : list item_view :=
  map view_of_item
    (filter (fun i => String.eqb (pi_prescription_id i) prescription_id)
       (prescription_items st)).

Definition masked_view (st : Store) (p : prescription) : pharmacy_view :=
  {| pv_id := rx_id p;
     pv_medications := items_of st (rx_id p);
     pv_prescribing_doctor :=
       ("Dr. " ++ substring 0 8 (rx_prescribing_provider_id p))%string;
     pv_issue_date := rx_created_at p |}.

(** [verifyPrescriptionQR(qrCodeData, pharmacyId)], outside a transaction.
    [new_id] is the UUID of the claim row; its [INSERT] is checked against
    the foreign key on [pharmacy_id]. *)
Definition verifyPrescriptionQR (st : Store) (qrCodeData : string)
  (pharmacyId : uuid) (now : timestamp) (new_id : uuid)
  : Store * result qr_verdict :=
  match prescription_by_qr st qrCodeData with
  | [] => (st, Ok (Invalid "invalid_code"))
  | (prescriptionData, _) :: _ =>
      if qr_disabled prescriptionData then
        (st, Ok (Invalid "pdf_downloaded"))
      else if rx_expires_at prescriptionData <? now then
        (st, Ok (Invalid "expired"))
      else if prescription_status_eqb (rx_status prescriptionData) rx_fulfilled
      then (st, Ok (Invalid "already_used"))
      else if negb (existsb (fun p => String.eqb (pt_id p) pharmacyId)
                      (partners st))
      then (st, Throw (DatabaseError "violates foreign key constraint"))
      else
        let claim :=
          {| pc_id := new_id; pc_prescription_id := rx_id prescriptionData;
             pc_pharmacy_id := pharmacyId; pc_status := claim_ready;
             pc_dispensed_items := None; pc_created_at := now |} in
        (set_pharmacy_claims (insert_row claim (pharmacy_claims st)) st,
         Ok (Valid (masked_view st prescriptionData)))
  end.

(** [SET qr_enabled = false, pdf_url = $1, pdf_downloaded_at = NOW()] *)
Definition set_pdf_downloaded (pdfUrl : string) (now : timestamp)
  (p : prescription) : prescription :=
  {| rx_id := rx_id p; rx_consultation_id := rx_consultation_id p;
     rx_prescribing_provider_id := rx_prescribing_provider_id p;
     rx_patient_id := rx_patient_id p;
     rx_prescription_data := rx_prescription_data p;
     rx_qr_code_data := rx_qr_code_data p; rx_qr_enabled := Some false;
     rx_pdf_url := Some pdfUrl; rx_pdf_downloaded_at := Some now;
     rx_status := rx_status p; rx_fulfilled_at := rx_fulfilled_at p;
     rx_fulfilling_pharmacy_id := rx_fulfilling_pharmacy_id p;
     rx_expires_at := rx_expires_at p; rx_created_at := rx_created_at p |}.

Definition has_prescription_id (id : uuid) (p : prescription) : bool :=
  String.eqb (rx_id p) id.

(** [SELECT ... FROM prescriptions p JOIN users u ON p.patient_id = u.id JOIN
    providers pr ON p.prescribing_provider_id = pr.id WHERE p.id = $1 AND
    p.patient_id = $2] *)
Definition prescription_of_patient (st : Store) (prescriptionId userId : uuid)
  : list prescription :=
  filter
    (fun p =>
       has_prescription_id prescriptionId p
       && String.eqb (rx_patient_id p) userId
       && existsb (fun u => String.eqb (u_id u) (rx_patient_id p)) (users st)
       && existsb
            (fun pr => String.eqb (pr_id pr) (rx_prescribing_provider_id p))
            (providers st))
    (prescriptions st).

Record DownloadedPDF : Type := {
  url : string;
  buffer : string
}.

(** [downloadPrescriptionPDF(prescriptionId, userId)], one transaction.
    [pdf] is the outcome of [generatePrescriptionPDF], [upload] that of the
    S3 upload. *)
Definition downloadPrescriptionPDF (st : Store) (prescriptionId userId : uuid)
  (now : timestamp) (pdf upload : result string)
  : Store * result DownloadedPDF :=
  match prescription_of_patient st prescriptionId userId with
  | [] => (st, Throw (AppError "Prescription not found" 404))
  | _ :: _ =>
      match pdf with
      | Throw e => (st, Throw e)
      | Ok pdfBuffer =>
          match upload with
          | Throw e => (st, Throw e)
          | Ok pdfUrl =>
              let st1 :=
                set_prescriptions
                  (update_where (has_prescription_id prescriptionId)
                     (set_pdf_downloaded pdfUrl now) (prescriptions st)) st in
              let st2 :=
                log_audit (Some userId) "prescription.pdf_downloaded"
                  "prescription" prescriptionId
                  [("qr_disabled", "true")]%string st1 in
              (st2, Ok {| url := pdfUrl; buffer := pdfBuffer |})
          end
      end
  end.

(** [SET status = 'dispensed', dispensed_items = $1, created_at = NOW()] *)
Definition set_dispensed (dispensedItems : list string) (now : timestamp)
  (c : pharmacy_claim) : pharmacy_claim :=
  {| pc_id := pc_id c; pc_prescription_id := pc_prescription_id c;
     pc_pharmacy_id := pc_pharmacy_id c; pc_status := claim_dispensed;
     pc_dispensed_items := Some dispensedItems; pc_created_at := now |}.

(** [SET status = 'fulfilled', fulfilled_at = NOW(),
    fulfilling_pharmacy_id = $1] *)
Definition set_fulfilled (pharmacyId : uuid) (now : timestamp)
  (p : prescription) : prescription :=
  {| rx_id := rx_id p; rx_consultation_id := rx_consultation_id p;
     rx_prescribing_provider_id := rx_prescribing_provider_id p;
     rx_patient_id := rx_patient_id p;
     rx_prescription_data := rx_prescription_data p;
     rx_qr_code_data := rx_qr_code_data p; rx_qr_enabled := rx_qr_enabled p;
     rx_pdf_url := rx_pdf_url p;
     rx_pdf_downloaded_at := rx_pdf_downloaded_at p;
     rx_status := rx_fulfilled; rx_fulfilled_at := Some now;
     rx_fulfilling_pharmacy_id := Some pharmacyId;
     rx_expires_at := rx_expires_at p; rx_created_at := rx_created_at p |}.

Definition claim_of (prescriptionId pharmacyId : uuid) (c : pharmacy_claim)
  : bool :=
  String.eqb (pc_prescription_id c) prescriptionId
  && String.eqb (pc_pharmacy_id c) pharmacyId.

(** [fulfillPrescription(prescriptionId, pharmacyId, dispensedItems)], one
    transaction of two [UPDATE]s and an audit record; no statement of it
    reads the current status. *)
Definition fulfillPrescription (st : Store) (prescriptionId pharmacyId : uuid)
  (dispensedItems : list string) (now : timestamp) : Store * result unit :=
  let st1 :=
    set_pharmacy_claims
      (update_where (claim_of prescriptionId pharmacyId)
         (set_dispensed dispensedItems now) (pharmacy_claims st)) st in
  let st2 :=
    set_prescriptions
      (update_where (has_prescription_id prescriptionId)
         (set_fulfilled pharmacyId now) (prescriptions st1)) st1 in
  let st3 :=
    log_audit None "prescription.fulfilled" "prescription" prescriptionId
      [("pharmacy_id", pharmacyId)]%string st2 in
  (st3, Ok tt).

End PrescriptionService.

(** ** ConsultationService: intake and messages

    [createConsultation], [sendMessage] and [getMessages] also use the
    tables [ai_intake] and [messages]; each is passed and returned beside
    the store. *)

(** What [processIntake] returns: an opaque summary and, perhaps, red flags. *)
Record ai_summary : Type := {
  summary_text : string;
  redFlags : option (list string)
}.

Record intake_data : Type := {
  intake_symptoms : list string;
  intake_duration : option string;
  intake_severity : option Z
}.

Record ai_intake_row : Type := {
  ai_consultation_id : uuid;
  ai_summary_json : ai_summary;
  ai_symptoms : list string;
  ai_duration : option string;
  ai_severity : option Z;
  ai_red_flags : list string
}.

(** [CHECK (severity >= 1 AND severity <= 10)]; a [NULL] passes. *)
Definition severity_allowed (severity : option Z) : bool :=
  match severity with
  | Some n => (1 <=? n) && (n <=? 10)
  | None => true
  end.

(** The row of [INSERT INTO consultations (patient_id, consultation_type,
    status, ai_intake_summary) VALUES ($1, 'gp_primary', 'requested', $2)],
    the other columns at their defaults; the summary is kept in the
    [ai_intake] row. *)
Definition requested_consultation (new_id patientId : uuid) (now : timestamp)
  : consultation :=
  {| c_id := new_id; c_patient_id := patientId; c_provider_id := None;
     c_status := requested; c_consultation_notes := None;
     c_started_at := None; c_ended_at := None; c_duration_minutes := None;
     c_capacity_cap_minutes := Some 15;
     c_referral_extension_applied := Some false;
     c_updated_at := Some now |}.

(** How node-postgres sends a JavaScript array as a query parameter: as a
    PostgreSQL array literal, the two braces alone for the empty array and
    the quoted elements between braces otherwise.  A [JSONB] column reads
    the text as JSON: the two braces are the empty object, any other array
    literal is refused with error 22P02. *)
Definition jsonb_accepts_array (values : list string) : bool :=
  match values with
  | [] => true
  | _ :: _ => false
  end.

(** The characters of a UTF-8 text: its bytes other than continuation
    bytes. *)
Fixpoint char_length (s : string) : nat :=
  match s with
  | EmptyString => 0%nat
  | String c s' =>
      let b := Ascii.nat_of_ascii c in
      if ((128 <=? b) && (b <=? 191))%nat then char_length s'
      else S (char_length s')
  end.

(** [duration VARCHAR(100)]; a [NULL] passes. *)
Definition duration_fits (duration : option string) : bool :=
  match duration with
  | Some d => (char_length d <=? 100)%nat
  | None => true
  end.

(** [aiSummary.redFlags || []] *)
Definition red_flags_of (aiSummary : ai_summary) : list string :=
  match redFlags aiSummary with
  | Some flags => flags
  | None => []
  end.

(** What the database answers to [INSERT INTO ai_intake (consultation_id,
    summary_json, symptoms, duration, severity, red_flags) VALUES ($1, $2,
    $3, $4, $5, $6)] with the parameters [aiSummary], [intakeData.symptoms],
    [intakeData.duration], [intakeData.severity] and [aiSummary.redFlags ||
    []]: the parameters are read in their order, each by the type of its
    column, then the row is built and the check on [severity] is applied.
    [None] when the row is accepted. *)
Definition ai_intake_refusal (aiSummary : ai_summary) (intakeData : intake_data)
  : option error :=
  if negb (jsonb_accepts_array (intake_symptoms intakeData))
  then Some (DatabaseError "invalid input syntax for type json")
  else if match intake_severity intakeData with
          | Some n => negb (int4_in_range n)
          | None => false
          end
  then Some (DatabaseError "integer out of range")
  else if negb (jsonb_accepts_array (red_flags_of aiSummary))
  then Some (DatabaseError "invalid input syntax for type json")
  else if negb (duration_fits (intake_duration intakeData))
  then Some (DatabaseError "value too long for type character varying(100)")
  else if negb (severity_allowed (intake_severity intakeData))
  then Some (DatabaseError "violates check constraint")
  else None.

(** [createConsultation(patientId, intakeData)], outside a transaction.
    [processed] is the outcome of [processIntake], [new_id] the UUID the
    database gives the consultation, [gp_notification] the outcome of the
    notification inside [assignGP] and [patient_notification] that of the
    final one.  The first [INSERT] is checked against the foreign key on
    [patient_id]; the second is refused as [ai_intake_refusal] says, after
    the first has stored its row and before [assignGP] runs.  The value
    returned is the row as the first [INSERT] returned it. *)
Definition createConsultation (st : Store) (ai_intake : list ai_intake_row)
  (patientId : uuid) (intakeData : intake_data) (processed : result ai_summary)
  (new_id : uuid) (now : timestamp)
  (gp_notification patient_notification : result unit)
  : (Store * list ai_intake_row) * result consultation :=
  match processed with
  | Throw e => ((st, ai_intake), Throw e)
  | Ok aiSummary =>
      if negb (existsb (fun u => String.eqb (u_id u) patientId) (users st))
      then ((st, ai_intake),
            Throw (DatabaseError "violates foreign key constraint"))
      else
        let row := requested_consultation new_id patientId now in
        let st1 := set_consultations (insert_row row (consultations st)) st in
        match ai_intake_refusal aiSummary intakeData with
        | Some e => ((st1, ai_intake), Throw e)
        | None =>
            let ai_intake1 :=
              insert_row
                {| ai_consultation_id := new_id; ai_summary_json := aiSummary;
                   ai_symptoms := intake_symptoms intakeData;
                   ai_duration := intake_duration intakeData;
                   ai_severity := intake_severity intakeData;
                   ai_red_flags := red_flags_of aiSummary |}
                ai_intake in
            match assignGP st1 new_id now gp_notification with
            | (st2, Throw e) => ((st2, ai_intake1), Throw e)
            | (st2, Ok _) =>
                match patient_notification with
                | Throw e => ((st2, ai_intake1), Throw e)
                | Ok _ => ((st2, ai_intake1), Ok row)
                end
            end
        end
  end.

Record message : Type := {
  m_id : uuid;
  m_consultation_id : uuid;
  m_sender_id : option uuid;
  m_sender_role : user_role;
  m_message_type : string;
  m_content : option string;
  m_created_at : timestamp
}.

(** The labels of the enum [user_role]; any other text is refused by the
    database. *)
Definition user_role_of_string (s : string) : option user_role :=
  if String.eqb s "patient" then Some role_patient
  else if String.eqb s "gp" then Some role_gp
  else if String.eqb s "specialist" then Some role_specialist
  else if String.eqb s "pharmacy_admin" then Some role_pharmacy_admin
  else if String.eqb s "diagnostics_admin" then Some role_diagnostics_admin
  else if String.eqb s "ops_admin" then Some role_ops_admin
  else if String.eqb s "support" then Some role_support
  else if String.eqb s "super_admin" then Some role_super_admin
  else None.

(** [sendMessage(consultationId, senderId, content, senderRole)]: one
    [INSERT ... RETURNING *] of a message of type [text], checked against
    the enum of [sender_role] and the foreign keys on [consultation_id] and
    [sender_id]. *)
Definition sendMessage (st : Store) (messages : list message)
  (consultationId senderId : uuid) (content senderRole : string)
  (new_id : uuid) (now : timestamp) : list message * result message :=
  match user_role_of_string senderRole with
  | None =>
      (messages, Throw (DatabaseError "invalid input value for enum user_role"))
  | Some sender_role =>
      if negb (existsb (fun c => String.eqb (c_id c) consultationId)
                 (consultations st))
         || negb (existsb (fun u => String.eqb (u_id u) senderId) (users st))
      then (messages, Throw (DatabaseError "violates foreign key constraint"))
      else
        let row :=
          {| m_id := new_id; m_consultation_id := consultationId;
             m_sender_id := Some senderId; m_sender_role := sender_role;
             m_message_type := "text"; m_content := Some content;
             m_created_at := now |} in
        (insert_row row messages, Ok row)
  end.

(** [FROM messages m LEFT JOIN users u ON m.sender_id = u.id WHERE
    m.consultation_id = $1]: each message with the name of its sender, or
    with [NULL] where no user matches. *)
Definition with_sender_name (st : Store) (m : message)
  : list (message * option string) :=
  match
    filter
      (fun u =>
         match m_sender_id m with
         | Some id => String.eqb (u_id u) id
         | None => false
         end) (users st)
  with
  | [] => [(m, None)]
  | senders => map (fun u => (m, u_full_name u)) senders
  end.

(** [ORDER BY m.created_at DESC]: a row goes before the first row that is
    not more recent.  PostgreSQL leaves the order of rows of one instant
    open; the embedding keeps them in table order. *)
Fixpoint insert_by_recency (x : message * option string)
  (sorted : list (message * option string)) : list (message * option string) :=
  match sorted with
  | [] => [x]
  | y :: sorted' =>
      if m_created_at (fst y) <=? m_created_at (fst x) then x :: y :: sorted'
      else y :: insert_by_recency x sorted'
  end.

Definition most_recent_first (rows : list (message * option string))
  : list (message * option string) :=
  fold_right insert_by_recency [] rows.

(** [getMessages(consultationId, limit = 50)]; PostgreSQL refuses a negative
    [LIMIT]. *)
Definition getMessages (st : Store) (messages : list message)
  (consultationId : uuid) (limit : option Z)
  : result (list (message * option string)) :=
  let limit := match limit with Some n => n | None => 50 end in
  if limit <? 0 then Throw (DatabaseError "LIMIT must not be negative")
  else
    Ok (firstn (Z.to_nat limit)
          (most_recent_first
             (flat_map (with_sender_name st)
                (filter
                   (fun m => String.eqb (m_consultation_id m) consultationId)
                   messages)))).

(** ** The authentication routes (routes/auth.routes.ts) *)








Section AuthRoutes.
Context {ext : Collaborators}.



End AuthRoutes.

(** * Properties of the services *)

(** ** Predicates *)

(** The number of pending challenges of a phone number. *)
Definition pending_count (st : Store) (phoneNumber : string) : nat :=
  List.length (filter (is_pending_for phoneNumber) (wa_auth_codes st)).

(** No phone number has two pending challenges. *)
Definition at_most_one_pending (st : Store) : Prop :=
  forall phoneNumber, (pending_count st phoneNumber <= 1)%nat.

(** The rows of one consultation id whose cap can take [n] more minutes
    within the [INTEGER] range. *)
Definition cap_has_room (n : Z) (consultationId : uuid) (st : Store) : bool :=
  forallb
    (fun c =>
       negb (has_consultation_id consultationId c)
       || match c_capacity_cap_minutes c with
          | Some m => (int4_min <=? m) && (m + n <=? int4_max)
          | None => true
          end)
    (consultations st).

(** A consultation row with another status. *)
Definition set_status (s : consultation_status) (c : consultation)
  : consultation :=
  {| c_id := c_id c; c_patient_id := c_patient_id c;
     c_provider_id := c_provider_id c; c_status := s;
     c_consultation_notes := c_consultation_notes c;
     c_started_at := c_started_at c; c_ended_at := c_ended_at c;
     c_duration_minutes := c_duration_minutes c;
     c_capacity_cap_minutes := c_capacity_cap_minutes c;
     c_referral_extension_applied := c_referral_extension_applied c;
     c_updated_at := c_updated_at c |}.

(** The store with the status of every consultation chosen anew. *)
Definition restatus (f : consultation -> consultation_status) (st : Store)
  : Store :=
  set_consultations (map (fun c => set_status (f c) c) (consultations st)) st.

(** The store with the contact data of its users rewritten by [h]. *)
Definition with_users (h : user -> user) (st : Store) : Store :=
  set_users (map h (users st)) st.

Definition set_prescribing_provider (id : uuid) (p : prescription)
  : prescription :=
  {| rx_id := rx_id p; rx_consultation_id := rx_consultation_id p;
     rx_prescribing_provider_id := id;
     rx_patient_id := rx_patient_id p;
     rx_prescription_data := rx_prescription_data p;
     rx_qr_code_data := rx_qr_code_data p; rx_qr_enabled := rx_qr_enabled p;
     rx_pdf_url := rx_pdf_url p;
     rx_pdf_downloaded_at := rx_pdf_downloaded_at p;
     rx_status := rx_status p; rx_fulfilled_at := rx_fulfilled_at p;
     rx_fulfilling_pharmacy_id := rx_fulfilling_pharmacy_id p;
     rx_expires_at := rx_expires_at p; rx_created_at := rx_created_at p |}.

(** The store with the prescriber of every prescription replaced by [g]. *)
Definition with_prescribers (g : prescription -> uuid) (st : Store) : Store :=
  set_prescriptions
    (map (fun p => set_prescribing_provider (g p) p) (prescriptions st)) st.

(** ** Sample data *)

Local Open Scope string_scope.

(** A test double for the collaborators: the hash is the salt followed by the
    plain text, and a code matches a hash that ends with it. *)
Definition ends_with (suffix s : string) : bool :=
  String.eqb
    (substring (String.length s - String.length suffix)
       (String.length suffix) s)
    suffix.

(** [encodeURIComponent] on UTF-8 text: letters, digits and the marks
    [- _ . ! ~ * ' ( )] stay, every other byte becomes a percent sign and
    its two hexadecimal digits. *)
Definition hex_digit (n : nat) : Ascii.ascii :=
  match String.get n "0123456789ABCDEF" with
  | Some c => c
  | None => "0"%char
  end.

Definition is_unreserved (c : Ascii.ascii) : bool :=
  let n := Ascii.nat_of_ascii c in
  ((48 <=? n) && (n <=? 57) || (65 <=? n) && (n <=? 90)
   || (97 <=? n) && (n <=? 122))%nat
  || existsb (Ascii.eqb c) (list_ascii_of_string "-_.!~*'()").

Fixpoint percent_encode (s : string) : string :=
  match s with
  | EmptyString => EmptyString
  | String c s' =>
      if is_unreserved c then String c (percent_encode s')
      else
        let n := Ascii.nat_of_ascii c in
        String "%" (String (hex_digit (n / 16)%nat)
                      (String (hex_digit (n mod 16)%nat) (percent_encode s')))
  end.

(** Minutes of an interval of [ms] milliseconds as an [INTEGER] column of
    PostgreSQL takes the [numeric] quotient: rounded to the nearest integer,
    halves away from zero. *)
Definition rounded_minutes (ms : Z) : Z :=
  (if 0 <=? ms then (ms + 30000) / 60000 else - ((- ms + 30000) / 60000))%Z.

Definition test_collaborators : Collaborators :=
  {| bcrypt_hash := fun salt plain => salt ++ plain;
     bcrypt_compare := fun code hash => ends_with code hash;
     jwt_sign := fun payload => userId payload ++ "." ++ sessionId payload;
     encodeURIComponent := percent_encode;
     GP_WHATSAPP_NUMBER := "254700000000";
     interval_minutes := rounded_minutes |}.

(** A pending challenge for [+254700000001] with five failed attempts, its
    code [123456], expiring at instant 300000. *)
Definition locked_challenge : wa_auth_code :=
  {| ac_id := "otp-1"; ac_phone_number := "+254700000001";
     ac_code_hash := "$2a$10$123456"; ac_attempts := Some 5;
     ac_status := otp_pending; ac_wa_message_id := Some "wamid.1";
     ac_ttl_expires_at := 300000; ac_verified_at := None |}.

Definition locked_store : Store :=
  set_wa_auth_codes [locked_challenge] empty_store.

(** The same challenge after two failed attempts only. *)
Definition tried_challenge : wa_auth_code :=
  set_attempts (Some 2) locked_challenge.

Definition tried_store : Store :=
  set_wa_auth_codes [tried_challenge] empty_store.

Definition patient_P1 : user :=
  {| u_id := "P1"; u_phone_number := "+254700000001";
     u_phone_verified_at := Some 0; u_full_name := Some "Amina Wanjiru";
     u_preferred_language := Some "en"; u_role := role_patient |}.

Definition gp_C1 : provider :=
  {| pr_id := "3f2b8c1e-5d6a-4c7b-9e8f-0a1b2c3d4e5f"; pr_user_id := Some "U-C1";
     pr_provider_type := "gp"; pr_max_concurrent_sessions := Some 2;
     pr_is_active := Some true |}.

(** A general practitioner whose capacity is set to 0. *)
Definition gp_C0 : provider :=
  {| pr_id := "C0"; pr_user_id := Some "U-C0"; pr_provider_type := "gp";
     pr_max_concurrent_sessions := Some 0; pr_is_active := Some true |}.

(** Encounter [E1] of patient [P1]. *)
Definition encounter_E1 (provider_id : option uuid) (s : consultation_status)
  (cap : option Z) (flag : option bool) : consultation :=
  {| c_id := "E1"; c_patient_id := "P1"; c_provider_id := provider_id;
     c_status := s; c_consultation_notes := None; c_started_at := None;
     c_ended_at := None; c_duration_minutes := None;
     c_capacity_cap_minutes := cap; c_referral_extension_applied := flag;
     c_updated_at := None |}.

Definition clinic (gps : list provider) (e : consultation) : Store :=
  {| users := [patient_P1]; wa_auth_codes := []; providers := gps;
     consultations := [e]; video_call_events := []; prescriptions := [];
     prescription_items := []; partners := []; pharmacy_claims := [];
     audit_events := [] |}.

(** [E1] just requested, the only practitioner having capacity 0. *)
Definition zero_capacity_store : Store :=
  clinic [gp_C0] (encounter_E1 None requested (Some 15) (Some false)).

(** [E1] completed by [C1]. *)
Definition completed_store : Store :=
  clinic [gp_C1]
    (encounter_E1 (Some (pr_id gp_C1)) completed (Some 15) (Some false)).

(** [E1] extended once already: cap 25, flag set. *)
Definition extended_store : Store :=
  clinic [gp_C1]
    (encounter_E1 (Some (pr_id gp_C1)) extended (Some 25) (Some true)).

(** [E1] still requested, [C1] free. *)
Definition requested_store : Store :=
  clinic [gp_C1] (encounter_E1 None requested (Some 15) (Some false)).

Definition amoxicillin : medication :=
  {| med_name := "Amoxicillin"; med_strength := Some "500mg";
     med_form := Some "capsule"; med_quantity := Some "21";
     med_instructions := Some "1 capsule 3 times daily";
     med_substitution_allowed := None |}.

(** Prescription [Rx1] of encounter [E1], token [T], issued at instant 0. *)
Definition prescription_Rx1 (enabled : option bool) (s : prescription_status)
  : prescription :=
  {| rx_id := "Rx1"; rx_consultation_id := "E1";
     rx_prescribing_provider_id := pr_id gp_C1; rx_patient_id := "P1";
     rx_prescription_data := [amoxicillin]; rx_qr_code_data := "T";
     rx_qr_enabled := enabled; rx_pdf_url := None;
     rx_pdf_downloaded_at := None; rx_status := s; rx_fulfilled_at := None;
     rx_fulfilling_pharmacy_id := None; rx_expires_at := thirty_days;
     rx_created_at := 0 |}.

Definition claim_on_Rx1 (id pharmacy : uuid) (s : claim_status)
  : pharmacy_claim :=
  {| pc_id := id; pc_prescription_id := "Rx1"; pc_pharmacy_id := pharmacy;
     pc_status := s; pc_dispensed_items := None; pc_created_at := 500 |}.

Definition pharmacy_store (rx : prescription) (claims : list pharmacy_claim)
  : Store :=
  {| users := [patient_P1]; wa_auth_codes := []; providers := [gp_C1];
     consultations :=
       [encounter_E1 (Some (pr_id gp_C1)) completed (Some 15) (Some false)];
     video_call_events := []; prescriptions := [rx];
     prescription_items := [item_of_medication "Rx1" amoxicillin];
     partners :=
       [{| pt_id := "PH-A"; pt_partner_type := "pharmacy" |};
        {| pt_id := "PH-B"; pt_partner_type := "pharmacy" |}];
     pharmacy_claims := claims; audit_events := [] |}.

(** [Rx1] issued and not yet presented. *)
Definition issued_store : Store :=
  pharmacy_store (prescription_Rx1 (Some true) rx_active) [].

(** [Rx1] presented at two pharmacies, each holding a ready claim. *)
Definition redeemed_twice_store : Store :=
  pharmacy_store (prescription_Rx1 (Some true) rx_active)
    [claim_on_Rx1 "claim-A" "PH-A" claim_ready;
     claim_on_Rx1 "claim-B" "PH-B" claim_ready].

(** [Rx1] after the patient downloaded it as a document. *)
Definition downloaded_store : Store :=
  pharmacy_store (prescription_Rx1 (Some false) rx_active) [].

(** A user row with name and phone number blanked. *)
Definition blank_contact (u : user) : user :=
  {| u_id := u_id u; u_phone_number := ""; u_phone_verified_at := None;
     u_full_name := None; u_preferred_language := None; u_role := u_role u |}.

Local Close Scope string_scope.

(** ** Further predicates *)

(** No phone number has two user rows ([users.phone_number] is [UNIQUE]). *)
Definition at_most_one_user_per_phone (st : Store) : Prop :=
  forall phoneNumber,
    (List.length
       (filter (fun u => String.eqb (u_phone_number u) phoneNumber) (users st))
     <= 1)%nat.

(** [verifyOTP] called once for each submitted code, in order, each with the
    instant of the call. *)
Fixpoint verify_each {ext : Collaborators} (st : Store) (phoneNumber : string)
  (tries : list (string * timestamp)) (new_user_id session : uuid) : Store :=
  match tries with
  | [] => st
  | (code, now) :: tries' =>
      verify_each
        (fst (verifyOTP st phoneNumber code now new_user_id session))
        phoneNumber tries' new_user_id session
  end.

(** No provider that has a capacity of at least 1 holds more sessions than
    its capacity. *)
Definition capacity_respected (st : Store) : Prop :=
  forall p m,
    In p (providers st) ->
    pr_max_concurrent_sessions p = Some m ->
    1 <= m ->
    session_count st (pr_id p) <= m.

(** [WHERE status IN ('matched', 'active', 'extended') AND provider_id = q] *)
Definition in_session_with (provider_id : uuid) (c : consultation) : bool :=
  holds_session (c_status c) && assigned_to provider_id c.





(** A call of one of the methods of PrescriptionService. *)
Inductive prescription_call : Type :=
| CreatePrescription (consultationId providerId : uuid)
    (medications : list medication) (qrCodeData : string) (now : timestamp)
    (new_id : uuid) (qrImage : option string)
| VerifyPrescriptionQR (qrCodeData : string) (pharmacyId : uuid)
    (now : timestamp) (new_id : uuid)
| DownloadPrescriptionPDF (prescriptionId userId : uuid) (now : timestamp)
    (pdf upload : result string)
| FulfillPrescription (prescriptionId pharmacyId : uuid)
    (dispensedItems : list string) (now : timestamp).

Definition prescription_step (st : Store) (c : prescription_call) : Store :=
  match c with
  | CreatePrescription consultationId providerId medications qrCodeData now
      new_id qrImage =>
      fst (createPrescription st consultationId providerId medications
             qrCodeData now new_id qrImage)
  | VerifyPrescriptionQR qrCodeData pharmacyId now new_id =>
      fst (verifyPrescriptionQR st qrCodeData pharmacyId now new_id)
  | DownloadPrescriptionPDF prescriptionId userId now pdf upload =>
      fst (downloadPrescriptionPDF st prescriptionId userId now pdf upload)
  | FulfillPrescription prescriptionId pharmacyId dispensedItems now =>
      fst (fulfillPrescription st prescriptionId pharmacyId dispensedItems now)
  end.

(** A prescription whose token [verifyPrescriptionQR] refuses at any
    instant: the QR code is disabled or the prescription is fulfilled. *)
Definition token_is_dead (p : prescription) : bool :=
  qr_disabled p || prescription_status_eqb (rx_status p) rx_fulfilled.

(** The claim [verifyPrescriptionQR] inserts. *)
Definition ready_claim (new_id prescription_id pharmacyId : uuid)
  (now : timestamp) : pharmacy_claim :=
  {| pc_id := new_id; pc_prescription_id := prescription_id;
     pc_pharmacy_id := pharmacyId; pc_status := claim_ready;
     pc_dispensed_items := None; pc_created_at := now |}.

(** A call of one of the lifecycle methods of ConsultationService. *)
Inductive consultation_call : Type :=
| AssignGP (consultationId : uuid) (now : timestamp)
    (notification : result unit)
| StartConsultation (consultationId providerId : uuid) (now : timestamp)
| EndConsultation (consultationId : uuid) (notes : string) (now : timestamp)
| ExtendConsultation (consultationId : uuid) (reason : string).

Definition consultation_step {ext : Collaborators} (st : Store)
  (c : consultation_call) : Store :=
  match c with
  | AssignGP consultationId now notification =>
      fst (assignGP st consultationId now notification)
  | StartConsultation consultationId providerId now =>
      fst (startConsultation st consultationId providerId now)
  | EndConsultation consultationId notes now =>
      fst (endConsultation st consultationId notes now)
  | ExtendConsultation consultationId reason =>
      fst (extendConsultation st consultationId reason)
  end.

(** A call of any method of the three services that works on the store. *)
Inductive service_call : Type :=
| AuthCall (c : auth_call)
| Logout (user_id : uuid) (timestamp : string)
| ConsultationCall (c : consultation_call)
| PrescriptionCall (c : prescription_call).

Definition service_step {ext : Collaborators} (st : Store) (c : service_call)
  : Store :=
  match c with
  | AuthCall c => auth_step st c
  | Logout user_id timestamp => logout st user_id timestamp
  | ConsultationCall c => consultation_step st c
  | PrescriptionCall c => prescription_step st c
  end.

(** [l'] is [l] with rows added at the end, as far as [key] shows. *)
Definition extends {row key : Type} (k : row -> key) (l l' : list row) : Prop :=
  exists more, map k l' = map k l ++ more.

(** From [st] to [st'] no row was deleted and no id changed: the audit
    records and the line items are the old ones followed by new ones, the
    ids of users, challenges, consultations, prescriptions and claims
    likewise, the providers and partners are the same and no video call
    event has gone. *)
Definition retains (st st' : Store) : Prop :=
  extends (fun e => e) (audit_events st) (audit_events st')
  /\ extends (fun i => i) (prescription_items st) (prescription_items st')
  /\ extends u_id (users st) (users st')
  /\ extends ac_id (wa_auth_codes st) (wa_auth_codes st')
  /\ extends c_id (consultations st) (consultations st')
  /\ extends rx_id (prescriptions st) (prescriptions st')
  /\ extends pc_id (pharmacy_claims st) (pharmacy_claims st')
  /\ extends vc_consultation_id (video_call_events st) (video_call_events st')
  /\ providers st' = providers st
  /\ partners st' = partners st.

(** ** Lists and statements *)

Lemma filter_update_where_le {row : Type} (f cond : row -> bool)
  (set : row -> row) (t : list row) :
  (forall r, f (set r) = true -> f r = true) ->
  (List.length (filter f (update_where cond set t))
   <= List.length (filter f t))%nat.
Proof.
  intros Hset. unfold update_where.
  induction t as [|r t IH]; simpl; [lia|].
  destruct (cond r).
  - destruct (f (set r)) eqn:E.
    + rewrite (Hset r E). simpl. lia.
    + destruct (f r); simpl; lia.
  - destruct (f r); simpl; lia.
Qed.

Lemma length_update_where {row : Type} (cond : row -> bool) (set : row -> row)
  (t : list row) :
  List.length (update_where cond set t) = List.length t.
Proof. unfold update_where. apply length_map. Qed.

Lemma filter_head_of_find {row : Type} (f : row -> bool) (t : list row)
  (r : row) :
  find f t = Some r -> exists rest, filter f t = r :: rest.
Proof.
  induction t as [|x t IH]; simpl; [discriminate|].
  destruct (f x).
  - intros E. injection E as ->. eauto.
  - exact IH.
Qed.

Lemma filter_conj {row : Type} (f g : row -> bool) (t : list row) :
  filter (fun r => f r && g r) t = filter g (filter f t).
Proof.
  induction t as [|x t IH]; simpl; [reflexivity|].
  destruct (f x); simpl; [destruct (g x)|]; rewrite IH; reflexivity.
Qed.

(** ** AuthService *)

Section AuthProperties.
Context {ext : Collaborators}.

(** [requestOTP] by cases: the guard's refusal, or the refusal of the
    upsert; the store is returned as it was. *)
Lemma requestOTP_outcome st phoneNumber otp salt now new_id response :
  requestOTP st phoneNumber otp salt now new_id response
  = (st,
     Throw
       (if match filter (is_live_pending_for phoneNumber now)
                    (wa_auth_codes st) with
           | [] => false
           | r :: _ => attempts_ge_5 r
           end
        then AppError "Too many OTP attempts. Please try again later." 429
        else DatabaseError no_arbiter_index)).
Proof.
  unfold requestOTP.
  destruct (match filter _ _ with [] => false | r :: _ => attempts_ge_5 r end);
    reflexivity.
Qed.

Lemma requestOTP_store st phoneNumber otp salt now new_id response :
  fst (requestOTP st phoneNumber otp salt now new_id response) = st.
Proof. rewrite requestOTP_outcome. reflexivity. Qed.

Lemma update_where_preserves st cond set :
  (forall q r, is_pending_for q (set r) = true -> is_pending_for q r = true) ->
  at_most_one_pending st ->
  at_most_one_pending
    (set_wa_auth_codes (update_where cond set (wa_auth_codes st)) st).
Proof.
  intros Hset Hinv q. unfold pending_count. simpl.
  eapply Nat.le_trans; [apply filter_update_where_le, Hset|apply Hinv].
Qed.

Lemma requestOTP_preserves st phoneNumber otp salt now new_id response :
  at_most_one_pending st ->
  at_most_one_pending
    (fst (requestOTP st phoneNumber otp salt now new_id response)).
Proof. rewrite requestOTP_store. exact (fun Hinv => Hinv). Qed.

Lemma verifyOTP_preserves st phoneNumber code now new_user_id session :
  at_most_one_pending st ->
  at_most_one_pending
    (fst (verifyOTP st phoneNumber code now new_user_id session)).
Proof.
  intros Hinv. unfold verifyOTP.
  destruct (filter (is_pending_for phoneNumber) (wa_auth_codes st))
    as [|otpRecord rest]; [exact Hinv|].
  destruct (ac_ttl_expires_at otpRecord <? now).
  { simpl. apply update_where_preserves; [|exact Hinv].
    intros q r. unfold is_pending_for. simpl.
    rewrite andb_false_r. discriminate. }
  destruct (negb (bcrypt_compare code (ac_code_hash otpRecord))).
  { unfold increment_attempts.
    destruct (existsb _ (wa_auth_codes st)); simpl; [exact Hinv|].
    apply update_where_preserves; [|exact Hinv].
    intros q r. destruct (int4_add (ac_attempts r) 1); exact (fun E => E). }
  assert (H1 : at_most_one_pending
                 (set_wa_auth_codes
                    (update_where (has_auth_code_id (ac_id otpRecord))
                       (set_otp_status otp_verified (Some now))
                       (wa_auth_codes st)) st)).
  { apply update_where_preserves; [|exact Hinv].
    intros q r. unfold is_pending_for. simpl.
    rewrite andb_false_r. discriminate. }
  set (st1 := set_wa_auth_codes _ st) in *.
  destruct (filter _ (users st1)) as [|u us]; simpl; exact H1.
Qed.

Lemma auth_step_preserves st c :
  at_most_one_pending st -> at_most_one_pending (auth_step st c).
Proof.
  destruct c; simpl.
  - apply requestOTP_preserves.
  - apply verifyOTP_preserves.
Qed.

(** C2.  On the tables of 001_initial_schema.sql no [requestOTP] stores or
    supersedes a challenge.  Past the attempt guard, the statement [INSERT
    ... ON CONFLICT (phone_number) WHERE status = 'pending' DO UPDATE ...]
    is refused for want of the unique index it names: every call throws,
    the guard's 429 or the database's error, and returns the store as it
    was.  On the empty store, the first request of a phone number stores no
    pending challenge; on a store with a pending challenge of the phone
    number that has two failed attempts, the challenge is left as it is. *)
Theorem requestOTP_stores_no_challenge (st : Store)
  (phoneNumber otp salt : string) (now : timestamp) (new_id : uuid)
  (response : option string) :
  (requestOTP st phoneNumber otp salt now new_id response
   = (st, Throw (AppError "Too many OTP attempts. Please try again later."
                   429))
   \/ requestOTP st phoneNumber otp salt now new_id response
      = (st, Throw (DatabaseError no_arbiter_index)))
  /\ requestOTP empty_store phoneNumber otp salt now new_id response
     = (empty_store, Throw (DatabaseError no_arbiter_index))
  /\ (wa_auth_codes tried_store = [tried_challenge]
      /\ requestOTP tried_store (ac_phone_number tried_challenge) otp salt 0
           new_id response
         = (tried_store, Throw (DatabaseError no_arbiter_index))).
Proof.
  split; [|split; [|split]]; try reflexivity.
  rewrite requestOTP_outcome.
  destruct (match filter _ _ with [] => false | r :: _ => attempts_ge_5 r end);
    [left|right]; reflexivity.
Qed.

Lemma pending_rows_of_find st phoneNumber r :
  at_most_one_pending st ->
  find (is_pending_for phoneNumber) (wa_auth_codes st) = Some r ->
  filter (is_pending_for phoneNumber) (wa_auth_codes st) = [r].
Proof.
  intros Hinv Hfind.
  destruct (filter_head_of_find _ _ _ Hfind) as [rest E].
  specialize (Hinv phoneNumber). unfold pending_count in Hinv.
  rewrite E in *. destruct rest; [reflexivity|simpl in Hinv; lia].
Qed.

Lemma live_pending_rows st phoneNumber now r :
  at_most_one_pending st ->
  find (is_pending_for phoneNumber) (wa_auth_codes st) = Some r ->
  filter (is_live_pending_for phoneNumber now) (wa_auth_codes st)
  = if now <? ac_ttl_expires_at r then [r] else [].
Proof.
  intros Hinv Hfind.
  change (filter (is_live_pending_for phoneNumber now) (wa_auth_codes st))
    with (filter
            (fun x => is_pending_for phoneNumber x
                      && (now <? ac_ttl_expires_at x))
            (wa_auth_codes st)).
  rewrite filter_conj, (pending_rows_of_find _ _ _ Hinv Hfind). simpl.
  destruct (now <? ac_ttl_expires_at r); reflexivity.
Qed.

Lemma increment_attempts_row t t' r a :
  increment_attempts (ac_id r) t = Some t' ->
  In r t ->
  ac_attempts r = Some a ->
  In (set_attempts (Some (a + 1)) r) t'.
Proof.
  unfold increment_attempts. intros E Hin Ha.
  destruct (existsb _ t) eqn:Ex; [discriminate|]. injection E as <-.
  assert (Hsum : int4_add (ac_attempts r) 1 = SumValue (a + 1)).
  { destruct (int4_add (ac_attempts r) 1) as [|n|] eqn:Es.
    - rewrite Ha in Es. unfold int4_add in Es.
      destruct (int4_in_range (a + 1)); discriminate.
    - rewrite Ha in Es. unfold int4_add in Es.
      destruct (int4_in_range (a + 1)); [congruence|discriminate].
    - exfalso.
      assert (Hex : existsb
                      (fun x =>
                         has_auth_code_id (ac_id r) x
                         && match int4_add (ac_attempts x) 1 with
                            | SumOutOfRange => true
                            | _ => false
                            end) t = true).
      { apply existsb_exists. exists r. split; [exact Hin|].
        unfold has_auth_code_id. rewrite String.eqb_refl, Es. reflexivity. }
      congruence. }
  apply in_map_iff. exists r. split; [|exact Hin].
  unfold has_auth_code_id. rewrite String.eqb_refl, Hsum. reflexivity.
Qed.

Lemma verifyOTP_never_429 st phoneNumber code now new_user_id session msg :
  snd (verifyOTP st phoneNumber code now new_user_id session)
  <> Throw (AppError msg 429).
Proof.
  unfold verifyOTP.
  destruct (filter (is_pending_for phoneNumber) (wa_auth_codes st))
    as [|otpRecord rest]; [discriminate|].
  destruct (ac_ttl_expires_at otpRecord <? now); [discriminate|].
  destruct (negb (bcrypt_compare code (ac_code_hash otpRecord))).
  - destruct (increment_attempts _ _); discriminate.
  - destruct (filter _ (users _)); discriminate.
Qed.

(** C3, as the code has it.  For a pending challenge that has reached five
    failed attempts and has not expired, every [requestOTP] for the phone
    number is refused with status 429 ("Too many OTP attempts") and changes
    nothing.  [verifyOTP] does not read the attempt counter: it never fails
    with 429, it succeeds when the submitted code matches the stored hash,
    and for a code that does not match it fails with "Invalid OTP" (401), or
    with the database's range error when the counter cannot be
    incremented. *)
Theorem attempt_cap_is_checked_by_requestOTP (st : Store)
  (phoneNumber : string) (now : timestamp) (r : wa_auth_code) :
  at_most_one_pending st ->
  find (is_pending_for phoneNumber) (wa_auth_codes st) = Some r ->
  attempts_ge_5 r = true ->
  now < ac_ttl_expires_at r ->
  (forall otp salt new_id response,
      requestOTP st phoneNumber otp salt now new_id response
      = (st, Throw (AppError "Too many OTP attempts. Please try again later."
                      429)))
  /\ (forall code new_user_id session msg,
        snd (verifyOTP st phoneNumber code now new_user_id session)
        <> Throw (AppError msg 429))
  /\ (forall code new_user_id session,
        bcrypt_compare code (ac_code_hash r) = true ->
        exists st' login,
          verifyOTP st phoneNumber code now new_user_id session
          = (st', Ok login))
  /\ (forall code new_user_id session,
        bcrypt_compare code (ac_code_hash r) = false ->
        (exists st',
            verifyOTP st phoneNumber code now new_user_id session
            = (st', Throw (AppError "Invalid OTP" 401))
            /\ forall a, ac_attempts r = Some a ->
                         In (set_attempts (Some (a + 1)) r) (wa_auth_codes st'))
        \/ verifyOTP st phoneNumber code now new_user_id session
           = (st, Throw (DatabaseError "integer out of range"))).
Proof.
  intros Hinv Hfind Hcap Hlive.
  pose proof (pending_rows_of_find _ _ _ Hinv Hfind) as Hrows.
  assert (Hnow : (ac_ttl_expires_at r <? now) = false) by (apply Z.ltb_ge; lia).
  repeat split.
  - intros otp salt new_id response. unfold requestOTP.
    rewrite (live_pending_rows _ _ now _ Hinv Hfind).
    assert (E : (now <? ac_ttl_expires_at r) = true) by (apply Z.ltb_lt; lia).
    rewrite E, Hcap. reflexivity.
  - intros code new_user_id session msg. apply verifyOTP_never_429.
  - intros code new_user_id session Hmatch. unfold verifyOTP.
    rewrite Hrows, Hnow, Hmatch. cbn [negb].
    destruct (filter _ (users _)); eauto.
  - intros code new_user_id session Hmiss.
    unfold verifyOTP. rewrite Hrows, Hnow, Hmiss. cbn [negb].
    destruct (increment_attempts (ac_id r) (wa_auth_codes st)) as [t|] eqn:Ei;
      [left|right; reflexivity].
    eexists. split; [reflexivity|].
    intros a Ha. cbn [wa_auth_codes set_wa_auth_codes].
    apply (increment_attempts_row _ _ _ _ Ei
             (proj1 (find_some _ _ Hfind)) Ha).
Qed.

End AuthProperties.

Local Open Scope string_scope.

(** C10.  On the pending challenge of [+254700000001] that has two failed
    attempts and expires at instant 300000, a [requestOTP] at instant 1000
    passes the attempt guard and resets nothing: its upsert, which would set
    the new hash, the new expiry and [attempts = 0], is refused by the
    database, the call throws that error, and the pending challenge keeps
    its two attempts, its code hash and its expiry. *)
Theorem requestOTP_resets_nothing (otp salt : string) (new_id : uuid)
  (response : option string) :
  let out :=
    requestOTP (ext := test_collaborators) tried_store "+254700000001" otp
      salt 1000 new_id response in
  snd out = Throw (DatabaseError no_arbiter_index)
  /\ find (is_pending_for "+254700000001") (wa_auth_codes (fst out))
     = Some tried_challenge
  /\ ac_attempts tried_challenge = Some 2
  /\ ac_code_hash tried_challenge = "$2a$10$123456"
  /\ ac_ttl_expires_at tried_challenge = 300000.
Proof. repeat split. Qed.

(** C3 as stated fails: on the challenge with five failed attempts, still
    unexpired, [verifyOTP] with the matching code succeeds, and with a wrong
    code it answers "Invalid OTP". *)
Lemma verifyOTP_ignores_attempt_cap :
  snd (verifyOTP (ext := test_collaborators) locked_store "+254700000001"
         "123456" 1000 "user-1" "session-1")
  = Ok {| token := "user-1.session-1";
          login_user :=
            {| u_id := "user-1"; u_phone_number := "+254700000001";
               u_phone_verified_at := Some 1000; u_full_name := None;
               u_preferred_language := Some "en"%string;
               u_role := role_patient |} |}
  /\ snd (verifyOTP (ext := test_collaborators) locked_store "+254700000001"
            "000000" 1000 "user-1" "session-1")
     = Throw (AppError "Invalid OTP" 401).
Proof. split; reflexivity. Qed.

(** C3 as the code has it, on the challenge with five failed attempts. *)
Lemma attempt_cap_is_checked_by_requestOTP_locked :
  requestOTP (ext := test_collaborators) locked_store "+254700000001"
    "654321" "$2a$10$" 1000 "otp-2" (Some "wamid.2"%string)
  = (locked_store,
     Throw (AppError "Too many OTP attempts. Please try again later." 429)).
Proof.
  refine (proj1 (attempt_cap_is_checked_by_requestOTP
                   (ext := test_collaborators) locked_store "+254700000001"
                   1000 locked_challenge _ _ _ _) _ _ _ _).
  - intros q. unfold pending_count. simpl.
    destruct (is_pending_for q locked_challenge); simpl; lia.
  - reflexivity.
  - reflexivity.
  - reflexivity.
Defined.

Local Close Scope string_scope.

(** ** ConsultationService *)

Lemma in_update_where {row : Type} (cond : row -> bool) (set : row -> row)
  (t : list row) (r : row) :
  In r t -> cond r = true -> In (set r) (update_where cond set t).
Proof.
  intros Hin Hc. unfold update_where.
  apply in_map_iff. exists r. rewrite Hc. split; [reflexivity|exact Hin].
Qed.

Lemma update_where_none {row : Type} (cond : row -> bool) (set : row -> row)
  (t : list row) :
  (forall r, In r t -> cond r = false) -> update_where cond set t = t.
Proof.
  unfold update_where. induction t as [|r t IH]; simpl; [reflexivity|].
  intros Hc. rewrite (Hc r (or_introl eq_refl)), IH; [reflexivity|].
  intros x Hx. apply Hc. right. exact Hx.
Qed.

Lemma in_update_where_inv {row : Type} (cond : row -> bool) (set : row -> row)
  (t : list row) (r' : row) :
  In r' (update_where cond set t) ->
  exists r, In r t /\ r' = if cond r then set r else r.
Proof.
  unfold update_where. intros Hin. apply in_map_iff in Hin.
  destruct Hin as [r [E Hin]]. exists r. split; [exact Hin|symmetry; exact E].
Qed.

Lemma int4_add_in_range (m n : Z) :
  int4_min <= m + n <= int4_max -> int4_add (Some m) n = SumValue (m + n).
Proof.
  intros [Hlo Hhi]. unfold int4_add, int4_in_range.
  apply Z.leb_le in Hlo, Hhi. rewrite Hlo, Hhi. reflexivity.
Qed.

Lemma extend_fits (st : Store) (consultationId : uuid) :
  cap_has_room 10 consultationId st = true ->
  existsb
    (fun c =>
       has_consultation_id consultationId c
       && match int4_add (c_capacity_cap_minutes c) 10 with
          | SumOutOfRange => true
          | _ => false
          end) (consultations st) = false.
Proof.
  intros Hroom. unfold cap_has_room in Hroom. rewrite forallb_forall in Hroom.
  destruct (existsb _ _) eqn:E; [|reflexivity].
  apply existsb_exists in E. destruct E as [x [Hx Ex]].
  specialize (Hroom x Hx).
  destruct (has_consultation_id consultationId x); [|discriminate].
  simpl in Hroom, Ex.
  destruct (c_capacity_cap_minutes x) as [m|]; [|discriminate].
  apply andb_prop in Hroom. destruct Hroom as [Hlo Hhi].
  apply Z.leb_le in Hlo, Hhi.
  rewrite int4_add_in_range in Ex; [discriminate|].
  unfold int4_min in *. lia.
Qed.

Lemma cap_has_room_weaken (st : Store) (consultationId : uuid) :
  cap_has_room 20 consultationId st = true ->
  cap_has_room 10 consultationId st = true.
Proof.
  unfold cap_has_room. rewrite !forallb_forall. intros Hroom c Hin.
  specialize (Hroom c Hin).
  destruct (has_consultation_id consultationId c); [|reflexivity].
  simpl in *. destruct (c_capacity_cap_minutes c) as [m|]; [|reflexivity].
  apply andb_prop in Hroom. destruct Hroom as [Hlo Hhi].
  apply Z.leb_le in Hlo, Hhi. apply andb_true_intro.
  split; apply Z.leb_le; lia.
Qed.

Lemma cap_has_room_after_extend (st : Store) (consultationId : uuid) :
  cap_has_room 20 consultationId st = true ->
  cap_has_room 10 consultationId
    (set_consultations
       (update_where (has_consultation_id consultationId) set_extended
          (consultations st)) st) = true.
Proof.
  unfold cap_has_room. rewrite !forallb_forall. intros Hroom c' Hin'.
  cbn [consultations set_consultations] in Hin'.
  apply in_update_where_inv in Hin'. destruct Hin' as [c [Hin ->]].
  specialize (Hroom c Hin).
  destruct (has_consultation_id consultationId c) eqn:Eid.
  - change (has_consultation_id consultationId (set_extended c))
      with (has_consultation_id consultationId c).
    rewrite Eid. simpl in *.
    destruct (c_capacity_cap_minutes c) as [m|]; [|reflexivity].
    apply andb_prop in Hroom. destruct Hroom as [Hlo Hhi].
    apply Z.leb_le in Hlo, Hhi.
    rewrite int4_add_in_range by (unfold int4_min in *; lia).
    apply andb_true_intro. split; apply Z.leb_le; unfold int4_min in *; lia.
  - rewrite Eid. reflexivity.
Qed.

Lemma cap_after_extend (c : consultation) (m : Z) :
  c_capacity_cap_minutes c = Some m ->
  int4_min <= m + 10 <= int4_max ->
  c_capacity_cap_minutes (set_extended c) = Some (m + 10).
Proof.
  intros E Hr. unfold set_extended. simpl.
  rewrite E, (int4_add_in_range _ _ Hr). reflexivity.
Qed.

Section ConsultationProperties.
Context {ext : Collaborators}.

Lemma assigned_to_iff provider_id c :
  assigned_to provider_id c = true <-> c_provider_id c = Some provider_id.
Proof.
  unfold assigned_to. destruct (c_provider_id c) as [p|].
  - rewrite String.eqb_eq. split; [intros ->; reflexivity|congruence].
  - split; discriminate.
Qed.

Lemma has_consultation_id_iff id c :
  has_consultation_id id c = true <-> c_id c = id.
Proof. apply String.eqb_eq. Qed.

(** C4, as the code has it.  No status is read before it is written.
    [startConsultation] throws no [AppError]; it sets to [active] every
    consultation of that id assigned to the calling provider, whatever its
    status was, and leaves the consultations unchanged when the caller is
    not the assigned provider.  [endConsultation] sets [completed],
    [extendConsultation] (within the integer range) sets [extended] and
    [assignGP], when it finds a practitioner, sets [matched], each from any
    status. *)
Theorem status_updates_are_unconditional (st : Store) (consultationId : uuid) :
  (forall providerId now msg code,
      snd (startConsultation st consultationId providerId now)
      <> Throw (AppError msg code))
  /\ (forall providerId now c,
        In c (consultations st) ->
        c_id c = consultationId ->
        c_provider_id c = Some providerId ->
        In (set_active now c)
          (consultations (fst (startConsultation st consultationId providerId now)))
        /\ c_status (set_active now c) = active)
  /\ (forall providerId now,
        (forall c, In c (consultations st) -> c_id c = consultationId ->
                   c_provider_id c <> Some providerId) ->
        consultations (fst (startConsultation st consultationId providerId now))
        = consultations st)
  /\ (forall providerId now c u,
        In c (consultations st) ->
        c_id c = consultationId ->
        In u (users st) ->
        u_id u = c_patient_id c ->
        exists st' started,
          startConsultation st consultationId providerId now
          = (st', Ok started))
  /\ (forall notes now c,
        In c (consultations st) ->
        c_id c = consultationId ->
        In (set_completed notes now c)
          (consultations (fst (endConsultation st consultationId notes now)))
        /\ c_status (set_completed notes now c) = completed)
  /\ (forall reason c,
        In c (consultations st) ->
        c_id c = consultationId ->
        cap_has_room 10 consultationId st = true ->
        In (set_extended c)
          (consultations (fst (extendConsultation st consultationId reason)))
        /\ c_status (set_extended c) = extended)
  /\ (forall now notification gp c,
        In c (consultations st) ->
        c_id c = consultationId ->
        availableGP st = Some gp ->
        In (set_matched (pr_id gp) now c)
          (consultations (fst (assignGP st consultationId now notification)))
        /\ c_status (set_matched (pr_id gp) now c) = matched).
Proof.
  repeat apply conj.
  - intros providerId now msg code. unfold startConsultation.
    destruct (consultation_with_patient _ _) as [|[c u] rest]; discriminate.
  - intros providerId now c Hin Hid Hp. split; [|reflexivity].
    assert (Hrow : In (set_active now c)
                     (update_where
                        (fun c => has_consultation_id consultationId c
                                  && assigned_to providerId c)
                        (set_active now) (consultations st))).
    { apply in_update_where; [exact Hin|].
      apply andb_true_intro. split.
      - apply has_consultation_id_iff, Hid.
      - apply assigned_to_iff, Hp. }
    unfold startConsultation.
    destruct (consultation_with_patient _ _) as [|[c' u] rest]; exact Hrow.
  - intros providerId now Hnot.
    assert (Hsame : update_where
                      (fun c => has_consultation_id consultationId c
                                && assigned_to providerId c)
                      (set_active now) (consultations st)
                    = consultations st).
    { apply update_where_none. intros c Hin.
      destruct (has_consultation_id consultationId c) eqn:Eid; [|reflexivity].
      destruct (assigned_to providerId c) eqn:Ep; [|reflexivity].
      exfalso. apply (Hnot c Hin).
      - apply has_consultation_id_iff, Eid.
      - apply assigned_to_iff, Ep. }
    unfold startConsultation.
    destruct (consultation_with_patient _ _) as [|[c' u] rest]; exact Hsame.
  - intros providerId now c u Hin Hid Hu Hpat. unfold startConsultation.
    set (cond := fun c0 => has_consultation_id consultationId c0
                           && assigned_to providerId c0).
    set (st1 := set_consultations
                  (update_where cond (set_active now) (consultations st)) st).
    assert (Hjoin : In (if cond c then set_active now c else c, u)
                      (consultation_with_patient st1 consultationId)).
    { unfold consultation_with_patient. apply in_flat_map.
      exists (if cond c then set_active now c else c). split.
      - apply filter_In. split.
        + subst st1. cbn [consultations set_consultations].
          unfold update_where. apply in_map_iff. exists c.
          split; [reflexivity|exact Hin].
        + destruct (cond c); apply has_consultation_id_iff; exact Hid.
      - apply in_map. apply filter_In. split; [exact Hu|].
        apply String.eqb_eq. rewrite Hpat. destruct (cond c); reflexivity. }
    destruct (consultation_with_patient st1 consultationId) as [|[c' u'] rest];
      [destruct Hjoin|eauto].
  - intros notes now c Hin Hid. split; [|reflexivity].
    assert (Hrow : In (set_completed notes now c)
                     (update_where (has_consultation_id consultationId)
                        (set_completed notes now) (consultations st))).
    { apply in_update_where; [exact Hin|apply has_consultation_id_iff, Hid]. }
    unfold endConsultation.
    destruct (map _ _); exact Hrow.
  - intros reason c Hin Hid Hroom. split; [|reflexivity].
    unfold extendConsultation.
    pose proof (extend_fits _ _ Hroom) as Hfits. cbv beta in Hfits.
    rewrite Hfits. cbn [fst consultations set_consultations].
    apply in_update_where; [exact Hin|apply has_consultation_id_iff, Hid].
  - intros now notification gp c Hin Hid Hgp. split; [|reflexivity].
    assert (Hrow : In (set_matched (pr_id gp) now c)
                     (update_where (has_consultation_id consultationId)
                        (set_matched (pr_id gp) now) (consultations st))).
    { apply in_update_where; [exact Hin|apply has_consultation_id_iff, Hid]. }
    unfold assignGP. rewrite Hgp.
    destruct (filter _ _); [exact Hrow|].
    destruct notification; exact Hrow.
Qed.

Lemma session_count_nonneg st provider_id : 0 <= session_count st provider_id.
Proof. unfold session_count. lia. Qed.

Lemma count_leb_session_count st a b :
  count_leb (active_count st a) (active_count st b) = true
  <-> session_count st a <= session_count st b.
Proof.
  unfold active_count.
  pose proof (session_count_nonneg st a) as Ha.
  pose proof (session_count_nonneg st b) as Hb.
  destruct (session_count st a =? 0) eqn:Ea;
    destruct (session_count st b =? 0) eqn:Eb; simpl;
    rewrite ?Z.eqb_eq, ?Z.eqb_neq in *.
  - split; [lia|reflexivity].
  - split; [lia|reflexivity].
  - split; [discriminate|lia].
  - apply Z.leb_le.
Qed.

Lemma first_by_count_in st rows p :
  first_by_count st rows = Some p -> In p rows.
Proof.
  revert p. induction rows as [|x rows IH]; simpl; [discriminate|].
  intros p. destruct (first_by_count st rows) as [q|].
  - destruct (count_leb _ _); intros E; injection E as <-.
    + left. reflexivity.
    + right. apply IH. reflexivity.
  - intros E. injection E as <-. left. reflexivity.
Qed.

Lemma first_by_count_none st rows :
  first_by_count st rows = None -> rows = [].
Proof.
  destruct rows as [|x rows]; simpl; [reflexivity|].
  destruct (first_by_count st rows); [destruct (count_leb _ _)|]; discriminate.
Qed.

Lemma first_by_count_least st rows p :
  first_by_count st rows = Some p ->
  forall q, In q rows -> session_count st (pr_id p) <= session_count st (pr_id q).
Proof.
  revert p. induction rows as [|x rows IH]; simpl; [discriminate|].
  intros p. destruct (first_by_count st rows) as [m|] eqn:Em.
  - specialize (IH m eq_refl).
    destruct (count_leb _ _) eqn:E; intros Ep; injection Ep as <-;
      intros q [<-|Hq].
    + lia.
    + apply count_leb_session_count in E. specialize (IH q Hq). lia.
    + assert (~ session_count st (pr_id x) <= session_count st (pr_id m)).
      { intros Hle. apply count_leb_session_count in Hle. congruence. }
      lia.
    + apply IH, Hq.
  - apply first_by_count_none in Em. subst rows.
    intros Ep. injection Ep as <-. intros q [<-|[]]. lia.
Qed.

Lemma is_available_gp_spec st p :
  is_available_gp st p = true ->
  pr_provider_type p = "gp"%string
  /\ pr_is_active p = Some true
  /\ (session_count st (pr_id p) = 0
      \/ exists m, pr_max_concurrent_sessions p = Some m
                   /\ session_count st (pr_id p) < m).
Proof.
  unfold is_available_gp, active_count. intros E.
  apply andb_prop in E. destruct E as [E Hcap].
  apply andb_prop in E. destruct E as [Htype Hact].
  apply String.eqb_eq in Htype.
  split; [exact Htype|]. split.
  - destruct (pr_is_active p) as [[|]|]; try discriminate. reflexivity.
  - destruct (session_count st (pr_id p) =? 0) eqn:E0.
    + left. apply Z.eqb_eq, E0.
    + right. destruct (pr_max_concurrent_sessions p) as [m|]; [|discriminate].
      exists m. split; [reflexivity|apply Z.ltb_lt, Hcap].
Qed.

(** What [assignGP] does on every store.  When it returns a practitioner,
    this is an active provider of type [gp] of the table, with no session
    or with fewer sessions than its capacity, and no available practitioner
    has fewer sessions; the consultations of the given id are then matched
    to it.  Without an available practitioner it fails with status 503 and
    changes nothing; with one, and the notification delivered, it returns
    one. *)
Theorem assignGP_least_loaded (st : Store) (consultationId : uuid)
  (now : timestamp) (notification : result unit) :
  (forall st' gp,
      assignGP st consultationId now notification = (st', Ok gp) ->
      In gp (providers st)
      /\ pr_provider_type gp = "gp"%string
      /\ pr_is_active gp = Some true
      /\ (session_count st (pr_id gp) = 0
          \/ exists m, pr_max_concurrent_sessions gp = Some m
                       /\ session_count st (pr_id gp) < m)
      /\ (forall q, In q (providers st) -> is_available_gp st q = true ->
                    session_count st (pr_id gp) <= session_count st (pr_id q))
      /\ consultations st'
         = update_where (has_consultation_id consultationId)
             (set_matched (pr_id gp) now) (consultations st))
  /\ ((forall p, In p (providers st) -> is_available_gp st p = false) ->
      assignGP st consultationId now notification
      = (st, Throw (AppError "No GP available at the moment" 503)))
  /\ (forall p, In p (providers st) -> is_available_gp st p = true ->
                notification = Ok tt ->
                exists st' gp,
                  assignGP st consultationId now notification = (st', Ok gp)).
Proof.
  repeat apply conj.
  - intros st' gp. unfold assignGP, availableGP.
    destruct (first_by_count st (filter (is_available_gp st) (providers st)))
      as [g|] eqn:Eg; [|discriminate].
    pose proof (first_by_count_in _ _ _ Eg) as Hin.
    apply filter_In in Hin. destruct Hin as [Hin Hav].
    cbn [providers set_consultations].
    destruct (filter (fun p0 => String.eqb (pr_id p0) (pr_id g)) (providers st));
      [discriminate|].
    destruct notification as [u|e]; [|discriminate].
    intros E. injection E as <- <-.
    destruct (is_available_gp_spec _ _ Hav) as [Ht [Ha Hc]].
    repeat split; try assumption.
    intros q Hq Hqa. apply (first_by_count_least _ _ _ Eg).
    apply filter_In. split; assumption.
  - intros Hnone. unfold assignGP, availableGP.
    replace (filter (is_available_gp st) (providers st)) with (@nil provider);
      [reflexivity|].
    symmetry. induction (providers st) as [|x l IH]; simpl; [reflexivity|].
    rewrite (Hnone x (or_introl eq_refl)). apply IH.
    intros p Hp. apply Hnone. right. exact Hp.
  - intros p Hin Hav ->. unfold assignGP, availableGP.
    destruct (first_by_count st (filter (is_available_gp st) (providers st)))
      as [g|] eqn:Eg.
    + pose proof (first_by_count_in _ _ _ Eg) as Hg.
      apply filter_In in Hg. destruct Hg as [Hg _].
      cbn [providers set_consultations].
      destruct (filter (fun p0 => String.eqb (pr_id p0) (pr_id g)) (providers st))
        eqn:Ef; [|eauto].
      exfalso.
      assert (Hgin : In g (filter (fun p0 => String.eqb (pr_id p0) (pr_id g))
                             (providers st))).
      { apply filter_In. split; [exact Hg|apply String.eqb_refl]. }
      rewrite Ef in Hgin. exact Hgin.
    + apply first_by_count_none in Eg.
      assert (Hp : In p (filter (is_available_gp st) (providers st)))
        by (apply filter_In; split; assumption).
      rewrite Eg in Hp. destruct Hp.
Qed.

(** C6, as the code has it.  [extendConsultation] does not read the
    extension flag: while the cap stays within the integer range every call
    succeeds, sets the flag and the status [extended] and adds 10 minutes to
    the cap, so two calls add 20, whether or not the flag was set before. *)
Theorem extendConsultation_adds_ten_each_time (st : Store)
  (consultationId : uuid) (reason1 reason2 : string) :
  cap_has_room 20 consultationId st = true ->
  let out1 := extendConsultation st consultationId reason1 in
  let out2 := extendConsultation (fst out1) consultationId reason2 in
  snd out1 = Ok tt
  /\ snd out2 = Ok tt
  /\ (forall c m,
        In c (consultations st) ->
        c_id c = consultationId ->
        c_capacity_cap_minutes c = Some m ->
        In (set_extended c) (consultations (fst out1))
        /\ c_capacity_cap_minutes (set_extended c) = Some (m + 10)
        /\ c_referral_extension_applied (set_extended c) = Some true
        /\ c_status (set_extended c) = extended
        /\ In (set_extended (set_extended c)) (consultations (fst out2))
        /\ c_capacity_cap_minutes (set_extended (set_extended c))
           = Some (m + 20)).
Proof.
  intros Hroom out1 out2.
  pose proof (extend_fits _ _ (cap_has_room_weaken _ _ Hroom)) as Hfit1.
  pose proof (extend_fits _ _ (cap_has_room_after_extend _ _ Hroom)) as Hfit2.
  cbv beta in Hfit1, Hfit2.
  assert (E1 : out1
               = (set_consultations
                    (update_where (has_consultation_id consultationId)
                       set_extended (consultations st)) st, Ok tt)).
  { subst out1. unfold extendConsultation. rewrite Hfit1. reflexivity. }
  assert (E2 : out2
               = (set_consultations
                    (update_where (has_consultation_id consultationId)
                       set_extended (consultations (fst out1))) (fst out1),
                  Ok tt)).
  { subst out2. rewrite E1. cbn [fst]. unfold extendConsultation.
    rewrite Hfit2. reflexivity. }
  rewrite E2. rewrite E1. cbn [fst snd consultations set_consultations].
  split; [reflexivity|]. split; [reflexivity|].
  intros c m Hin Hid Hcap.
  assert (Hrange : int4_min <= m /\ m + 20 <= int4_max).
  { unfold cap_has_room in Hroom. rewrite forallb_forall in Hroom.
    specialize (Hroom c Hin).
    rewrite (proj2 (has_consultation_id_iff _ _) Hid), Hcap in Hroom.
    simpl in Hroom. apply andb_prop in Hroom. destruct Hroom as [Hlo Hhi].
    apply Z.leb_le in Hlo, Hhi. split; assumption. }
  assert (Hid' : has_consultation_id consultationId c = true)
    by (apply has_consultation_id_iff, Hid).
  assert (Hc1 : c_capacity_cap_minutes (set_extended c) = Some (m + 10)).
  { apply cap_after_extend; [exact Hcap|unfold int4_min in *; lia]. }
  assert (Hin1 : In (set_extended c)
                   (update_where (has_consultation_id consultationId)
                      set_extended (consultations st))).
  { apply in_update_where; assumption. }
  repeat split; try assumption.
  - apply in_update_where; [exact Hin1|exact Hid'].
  - replace (m + 20) with (m + 10 + 10) by lia.
    apply cap_after_extend; [exact Hc1|unfold int4_min in *; lia].
Qed.

End ConsultationProperties.

Local Open Scope string_scope.

(** C4 as stated fails: started by its assigned provider, the completed
    encounter [E1] is active again and the call succeeds. *)
Lemma startConsultation_reopens_completed :
  c_status (encounter_E1 (Some (pr_id gp_C1)) completed (Some 15) (Some false))
  = completed
  /\ map c_status
       (consultations
          (fst (startConsultation (ext := test_collaborators) completed_store
                  "E1" (pr_id gp_C1) 1000)))
     = [active]
  /\ snd (startConsultation (ext := test_collaborators) completed_store "E1"
            (pr_id gp_C1) 1000)
     = Ok {| started_consultation :=
               set_active 1000
                 (encounter_E1 (Some (pr_id gp_C1)) completed (Some 15)
                    (Some false));
             started_phone_number := "+254700000001";
             started_full_name := Some "Amina Wanjiru";
             videoCallLink :=
               "https://wa.me/254700000000?text=Starting%20consultation%20E1" |}.
Proof. repeat split. Qed.

(** C5 fails on a practitioner whose capacity is 0: without a session the
    joined count is [NULL], which passes the capacity test, and [assignGP]
    matches [E1] to a practitioner whose session count, 0, equals its
    capacity. *)
Lemma assignGP_returns_provider_at_capacity :
  session_count zero_capacity_store (pr_id gp_C0) = 0
  /\ pr_max_concurrent_sessions gp_C0 = Some 0
  /\ assignGP zero_capacity_store "E1" 1000 (Ok tt)
     = (clinic [gp_C0]
          (set_matched "C0" 1000
             (encounter_E1 None requested (Some 15) (Some false))),
        Ok gp_C0).
Proof. repeat split. Qed.

(** C6 as stated fails: [E1] has the extension flag set and a cap of 25;
    one more [extendConsultation] succeeds and raises the cap to 35. *)
Lemma extendConsultation_extends_again :
  map c_referral_extension_applied (consultations extended_store) = [Some true]
  /\ map c_capacity_cap_minutes (consultations extended_store) = [Some 25]
  /\ snd (extendConsultation extended_store "E1" "referral") = Ok tt
  /\ map c_capacity_cap_minutes
       (consultations (fst (extendConsultation extended_store "E1" "referral")))
     = [Some 35].
Proof. repeat split. Qed.

(** C6 as the code has it, on [E1] with cap 25: two more calls give 45. *)
Lemma extendConsultation_adds_ten_each_time_E1 :
  cap_has_room 20 "E1" extended_store = true
  /\ c_capacity_cap_minutes
       (set_extended
          (set_extended
             (encounter_E1 (Some (pr_id gp_C1)) extended (Some 25) (Some true))))
     = Some (25 + 20).
Proof.
  split; [reflexivity|].
  refine (proj2 (proj2 (proj2 (proj2 (proj2
            (proj2 (proj2
               (extendConsultation_adds_ten_each_time extended_store "E1"
                  "referral" "referral" _)) _ 25 _ _ _)))))).
  - reflexivity.
  - left. reflexivity.
  - reflexivity.
  - reflexivity.
Defined.

Local Close Scope string_scope.

(** ** PrescriptionService *)

Lemma filter_map_commute {A : Type} (f : A -> bool) (g : A -> A) (l : list A) :
  (forall x, f (g x) = f x) -> filter f (map g l) = map g (filter f l).
Proof.
  intros Hf. induction l as [|x l IH]; simpl; [reflexivity|].
  rewrite Hf. destruct (f x); simpl; rewrite IH; reflexivity.
Qed.

(** *** fulfillPrescription *)

Lemma in_prescription_by_qr (st : Store) (qrCodeData : string)
  (p : prescription) (name : option string) :
  In (p, name) (prescription_by_qr st qrCodeData) -> In p (prescriptions st).
Proof.
  unfold prescription_by_qr. intros Hin.
  apply in_flat_map in Hin. destruct Hin as [x [Hx Hin]].
  apply in_map_iff in Hin. destruct Hin as [u [E _]].
  injection E as -> _. apply filter_In in Hx. apply Hx.
Qed.

(** C1, as the code has it.  [fulfillPrescription] reads no status: every
    call succeeds, none fails as already used.  After a call every
    prescription of that id is [fulfilled] by the calling pharmacy and every
    claim of that prescription and pharmacy is [dispensed] with the items of
    the call; [verifyPrescriptionQR] then refuses the token of such a
    prescription; a further call for the same prescription, by any
    pharmacy, succeeds again and overwrites the fulfilling pharmacy. *)
Theorem fulfillPrescription_is_unconditional (st : Store)
  (prescriptionId pharmacyId : uuid) (dispensedItems : list string)
  (now : timestamp) :
  let out := fulfillPrescription st prescriptionId pharmacyId dispensedItems now in
  snd out = Ok tt
  /\ (forall p, In p (prescriptions (fst out)) -> rx_id p = prescriptionId ->
                rx_status p = rx_fulfilled
                /\ rx_fulfilling_pharmacy_id p = Some pharmacyId)
  /\ (forall c, In c (pharmacy_claims (fst out)) ->
                pc_prescription_id c = prescriptionId ->
                pc_pharmacy_id c = pharmacyId ->
                pc_status c = claim_dispensed
                /\ pc_dispensed_items c = Some dispensedItems)
  /\ (forall qrCodeData pharmacyId' now' new_id p name rest,
        prescription_by_qr (fst out) qrCodeData = (p, name) :: rest ->
        rx_id p = prescriptionId ->
        exists reason,
          verifyPrescriptionQR (fst out) qrCodeData pharmacyId' now' new_id
          = (fst out, Ok (Invalid reason))
          /\ In reason ["pdf_downloaded"; "expired"; "already_used"]%string)
  /\ (forall pharmacyId' dispensedItems' now',
        let out' :=
          fulfillPrescription (fst out) prescriptionId pharmacyId'
            dispensedItems' now' in
        snd out' = Ok tt
        /\ List.length (prescriptions (fst out'))
           = List.length (prescriptions st)
        /\ (forall p, In p (prescriptions (fst out')) ->
                      rx_id p = prescriptionId ->
                      rx_status p = rx_fulfilled
                      /\ rx_fulfilling_pharmacy_id p = Some pharmacyId')).
Proof.
  assert (Hrx : forall s ph t p,
             In p (prescriptions (fst (fulfillPrescription s prescriptionId ph
                                         dispensedItems t))) ->
             rx_id p = prescriptionId ->
             rx_status p = rx_fulfilled
             /\ rx_fulfilling_pharmacy_id p = Some ph).
  { intros s ph t p Hin Hid. cbn -[update_where] in Hin.
    apply in_update_where_inv in Hin. destruct Hin as [p0 [_ ->]].
    destruct (has_prescription_id prescriptionId p0) eqn:E.
    - split; reflexivity.
    - unfold has_prescription_id in E. apply String.eqb_neq in E.
      contradiction. }
  cbv zeta. repeat apply conj.
  - reflexivity.
  - apply Hrx.
  - intros c Hin Hp Hph. cbn -[update_where] in Hin.
    apply in_update_where_inv in Hin. destruct Hin as [c0 [_ ->]].
    destruct (claim_of prescriptionId pharmacyId c0) eqn:E.
    + split; reflexivity.
    + unfold claim_of in E. apply andb_false_iff in E.
      destruct E as [E|E]; apply String.eqb_neq in E; contradiction.
  - intros qrCodeData pharmacyId' now' new_id p name rest Hrow Hid.
    assert (Hs : rx_status p = rx_fulfilled).
    { apply (Hrx st pharmacyId now p); [|exact Hid].
      apply (in_prescription_by_qr _ qrCodeData p name).
      rewrite Hrow. left. reflexivity. }
    unfold verifyPrescriptionQR. rewrite Hrow.
    destruct (qr_disabled p).
    { eexists. split; [reflexivity|simpl; tauto]. }
    destruct (rx_expires_at p <? now').
    { eexists. split; [reflexivity|simpl; tauto]. }
    rewrite Hs. eexists. split; [reflexivity|simpl; tauto].
  - intros pharmacyId' dispensedItems' now'. repeat apply conj.
    + reflexivity.
    + cbn -[update_where]. rewrite !length_update_where. reflexivity.
    + intros p Hin Hid. cbn -[update_where] in Hin.
      apply in_update_where_inv in Hin. destruct Hin as [p0 [_ ->]].
      destruct (has_prescription_id prescriptionId p0) eqn:E.
      * split; reflexivity.
      * unfold has_prescription_id in E. apply String.eqb_neq in E.
        contradiction.
Qed.

(** *** verifyPrescriptionQR and downloadPrescriptionPDF *)

(** The verdict depends on the joined rows through the prescription of the
    first one only. *)
Lemma verifyPrescriptionQR_head (st : Store) (qrCodeData : string)
  (pharmacyId : uuid) (now : timestamp) (new_id : uuid) :
  verifyPrescriptionQR st qrCodeData pharmacyId now new_id
  = match map fst (prescription_by_qr st qrCodeData) with
    | [] => (st, Ok (Invalid "invalid_code"))
    | p :: _ =>
        if qr_disabled p then (st, Ok (Invalid "pdf_downloaded"))
        else if rx_expires_at p <? now then (st, Ok (Invalid "expired"))
        else if prescription_status_eqb (rx_status p) rx_fulfilled
        then (st, Ok (Invalid "already_used"))
        else if negb (existsb (fun x => String.eqb (pt_id x) pharmacyId)
                        (partners st))
        then (st, Throw (DatabaseError "violates foreign key constraint"))
        else
          (set_pharmacy_claims
             (insert_row
                {| pc_id := new_id; pc_prescription_id := rx_id p;
                   pc_pharmacy_id := pharmacyId; pc_status := claim_ready;
                   pc_dispensed_items := None; pc_created_at := now |}
                (pharmacy_claims st)) st,
           Ok (Valid (masked_view st p)))
    end.
Proof.
  unfold verifyPrescriptionQR.
  destruct (prescription_by_qr st qrCodeData) as [|[p name] rest]; reflexivity.
Qed.

(** C7, as the code has it.  A prescription whose [qr_enabled] flag is not
    true is refused by [verifyPrescriptionQR] with the reason
    [pdf_downloaded], the store unchanged and no claim created; the reasons
    the method gives are [invalid_code], [pdf_downloaded], [expired] and
    [already_used].  [downloadPrescriptionPDF] clears the flag of the
    prescription it delivers, and [fulfillPrescription] leaves every flag
    as it was. *)
Theorem disabled_qr_is_refused (st : Store) :
  (forall qrCodeData pharmacyId now new_id p name rest,
      prescription_by_qr st qrCodeData = (p, name) :: rest ->
      rx_qr_enabled p <> Some true ->
      verifyPrescriptionQR st qrCodeData pharmacyId now new_id
      = (st, Ok (Invalid "pdf_downloaded")))
  /\ (forall qrCodeData pharmacyId now new_id reason,
        snd (verifyPrescriptionQR st qrCodeData pharmacyId now new_id)
        = Ok (Invalid reason) ->
        In reason ["invalid_code"; "pdf_downloaded"; "expired"; "already_used"]%string)
  /\ (forall prescriptionId userId now pdf upload st' document,
        downloadPrescriptionPDF st prescriptionId userId now pdf upload
        = (st', Ok document) ->
        forall p, In p (prescriptions st') -> rx_id p = prescriptionId ->
                  rx_qr_enabled p = Some false)
  /\ (forall prescriptionId pharmacyId dispensedItems now,
        map rx_qr_enabled
          (prescriptions
             (fst (fulfillPrescription st prescriptionId pharmacyId
                     dispensedItems now)))
        = map rx_qr_enabled (prescriptions st)).
Proof.
  repeat apply conj.
  - intros qrCodeData pharmacyId now new_id p name rest Hrow Hflag.
    unfold verifyPrescriptionQR. rewrite Hrow.
    assert (E : qr_disabled p = true).
    { unfold qr_disabled. destruct (rx_qr_enabled p) as [[|]|];
        [contradiction|reflexivity|reflexivity]. }
    rewrite E. reflexivity.
  - intros qrCodeData pharmacyId now new_id reason.
    unfold verifyPrescriptionQR.
    destruct (prescription_by_qr st qrCodeData) as [|[p name] rest].
    { intros E. injection E as <-. simpl. tauto. }
    destruct (qr_disabled p).
    { intros E. injection E as <-. simpl. tauto. }
    destruct (rx_expires_at p <? now).
    { intros E. injection E as <-. simpl. tauto. }
    destruct (prescription_status_eqb (rx_status p) rx_fulfilled).
    { intros E. injection E as <-. simpl. tauto. }
    destruct (negb _); discriminate.
  - intros prescriptionId userId now pdf upload st' document.
    unfold downloadPrescriptionPDF.
    destruct (prescription_of_patient st prescriptionId userId) as [|rx rxs];
      [discriminate|].
    destruct pdf as [pdfBuffer|e]; [|discriminate].
    destruct upload as [pdfUrl|e]; [|discriminate].
    intros E. injection E as <- _. intros p Hin Hid.
    cbn -[update_where] in Hin.
    apply in_update_where_inv in Hin. destruct Hin as [p0 [_ ->]].
    destruct (has_prescription_id prescriptionId p0) eqn:E; [reflexivity|].
    unfold has_prescription_id in E. apply String.eqb_neq in E. contradiction.
  - intros prescriptionId pharmacyId dispensedItems now.
    cbn -[update_where]. unfold update_where. rewrite map_map.
    apply map_ext. intros p. destruct (has_prescription_id prescriptionId p);
      reflexivity.
Qed.

(** *** createPrescription *)

Lemma restatus_consultation (f : consultation -> consultation_status)
  (consultationId : uuid) (l : list consultation) :
  filter (fun c => String.eqb (c_id c) consultationId)
    (map (fun c => set_status (f c) c) l)
  = map (fun c => set_status (f c) c)
      (filter (fun c => String.eqb (c_id c) consultationId) l).
Proof. apply filter_map_commute. reflexivity. Qed.

(** C8, as the code has it.  [createPrescription] fails with "Consultation
    not found" (404) exactly when no consultation has the given id, and then
    changes nothing.  The status of the consultation is never read: issuing
    commutes with any change of the statuses, so a prescription is persisted
    for a [requested], [matched] or [cancelled] encounter exactly as for an
    [active] one. *)
Theorem createPrescription_checks_existence_only (st : Store)
  (consultationId providerId : uuid) (medications : list medication)
  (qrCodeData : string) (now : timestamp) (new_id : uuid)
  (qrImage : option string) :
  (existsb (fun c => String.eqb (c_id c) consultationId) (consultations st)
   = false ->
   createPrescription st consultationId providerId medications qrCodeData now
     new_id qrImage
   = (st, Throw (AppError "Consultation not found" 404)))
  /\ (forall msg,
        snd (createPrescription st consultationId providerId medications
               qrCodeData now new_id qrImage)
        = Throw (AppError msg 404) ->
        existsb (fun c => String.eqb (c_id c) consultationId) (consultations st)
        = false)
  /\ (forall f : consultation -> consultation_status,
        createPrescription (restatus f st) consultationId providerId
          medications qrCodeData now new_id qrImage
        = (restatus f
             (fst (createPrescription st consultationId providerId
                     medications qrCodeData now new_id qrImage)),
           snd (createPrescription st consultationId providerId medications
                  qrCodeData now new_id qrImage))).
Proof.
  repeat apply conj.
  - intros Hnone. unfold createPrescription.
    replace (filter (fun c => String.eqb (c_id c) consultationId)
               (consultations st)) with (@nil consultation); [reflexivity|].
    symmetry. induction (consultations st) as [|c l IH]; simpl in *;
      [reflexivity|].
    apply orb_false_elim in Hnone. destruct Hnone as [Hc Hl].
    rewrite Hc. apply IH, Hl.
  - intros msg. unfold createPrescription.
    destruct (filter (fun c => String.eqb (c_id c) consultationId)
                (consultations st)) as [|c rest] eqn:Ef.
    + intros _. destruct (existsb _ (consultations st)) eqn:Ex; [|reflexivity].
      apply existsb_exists in Ex. destruct Ex as [x [Hx Ex]].
      assert (Hin : In x (filter (fun c => String.eqb (c_id c) consultationId)
                            (consultations st)))
        by (apply filter_In; split; assumption).
      rewrite Ef in Hin. destruct Hin.
    + destruct (negb _); [discriminate|].
      destruct (existsb _ (prescriptions st)); [discriminate|].
      destruct qrImage; discriminate.
  - intros f. unfold createPrescription.
    cbn [restatus consultations set_consultations providers prescriptions].
    rewrite restatus_consultation.
    destruct (filter (fun c => String.eqb (c_id c) consultationId)
                (consultations st)) as [|c rest]; [reflexivity|].
    cbn [map].
    destruct (negb _); [reflexivity|].
    destruct (existsb _ (prescriptions st)); [reflexivity|].
    destruct qrImage; reflexivity.
Qed.

(** *** The view returned to the pharmacy *)

Lemma length_substring_le (n : nat) (s : string) :
  (String.length (substring 0 n s) <= n)%nat.
Proof.
  revert s. induction n as [|n IH]; intros [|c s]; simpl; try lia.
  specialize (IH s). lia.
Qed.

Lemma prescription_by_qr_with_users (h : user -> user) (st : Store)
  (qrCodeData : string) :
  (forall u, u_id (h u) = u_id u) ->
  map fst (prescription_by_qr (with_users h st) qrCodeData)
  = map fst (prescription_by_qr st qrCodeData).
Proof.
  intros Hid. unfold prescription_by_qr.
  cbn [with_users users prescriptions set_users].
  induction (filter (fun p => String.eqb (rx_qr_code_data p) qrCodeData)
               (prescriptions st)) as [|p l IH]; simpl; [reflexivity|].
  rewrite !map_app, IH. f_equal.
  rewrite filter_map_commute by (intros u; rewrite Hid; reflexivity).
  rewrite !map_map. reflexivity.
Qed.

Lemma prescription_by_qr_with_prescribers (g : prescription -> uuid)
  (st : Store) (qrCodeData : string) :
  map fst (prescription_by_qr (with_prescribers g st) qrCodeData)
  = map (fun p => set_prescribing_provider (g p) p)
      (map fst (prescription_by_qr st qrCodeData)).
Proof.
  unfold prescription_by_qr.
  cbn [with_prescribers users prescriptions set_prescriptions].
  rewrite filter_map_commute by reflexivity.
  induction (filter (fun p => String.eqb (rx_qr_code_data p) qrCodeData)
               (prescriptions st)) as [|p l IH]; simpl; [reflexivity|].
  rewrite !map_app, IH. f_equal.
  rewrite !map_map. reflexivity.
Qed.

(** C9.  The view a successful [verifyPrescriptionQR] returns is built from
    the prescription's id and issue date, the five item columns of its line
    items, and "Dr. " followed by at most the first 8 characters of the
    prescriber's id.  It holds no patient data: whatever the contact data of
    the users, the view is the same; and it is the same for every prescriber
    id with the same first 8 characters, so the id cannot be read back from
    it. *)
Theorem pharmacy_view_is_masked (st : Store) (qrCodeData : string)
  (pharmacyId : uuid) (now : timestamp) (new_id : uuid) (st' : Store)
  (view : pharmacy_view) :
  verifyPrescriptionQR st qrCodeData pharmacyId now new_id
  = (st', Ok (Valid view)) ->
  (exists p,
      hd_error (map fst (prescription_by_qr st qrCodeData)) = Some p
      /\ view
         = {| pv_id := rx_id p;
              pv_medications :=
                map view_of_item
                  (filter (fun i => String.eqb (pi_prescription_id i) (rx_id p))
                     (prescription_items st));
              pv_prescribing_doctor :=
                ("Dr. " ++ substring 0 8 (rx_prescribing_provider_id p))%string;
              pv_issue_date := rx_created_at p |})
  /\ (String.length (pv_prescribing_doctor view) <= 12)%nat
  /\ (forall h : user -> user,
        (forall u, u_id (h u) = u_id u) ->
        snd (verifyPrescriptionQR (with_users h st) qrCodeData pharmacyId now
               new_id)
        = Ok (Valid view))
  /\ (forall g : prescription -> uuid,
        (forall p, substring 0 8 (g p)
                   = substring 0 8 (rx_prescribing_provider_id p)) ->
        snd (verifyPrescriptionQR (with_prescribers g st) qrCodeData
               pharmacyId now new_id)
        = Ok (Valid view)).
Proof.
  rewrite verifyPrescriptionQR_head.
  destruct (map fst (prescription_by_qr st qrCodeData)) as [|p rest] eqn:Erows;
    [discriminate|].
  destruct (qr_disabled p) eqn:Eq; [discriminate|].
  destruct (rx_expires_at p <? now) eqn:Et; [discriminate|].
  destruct (prescription_status_eqb (rx_status p) rx_fulfilled) eqn:Es;
    [discriminate|].
  destruct (negb (existsb (fun x => String.eqb (pt_id x) pharmacyId)
                    (partners st))) eqn:Ep; [discriminate|].
  intros E. injection E as _ <-.
  repeat apply conj.
  - exists p. split; reflexivity.
  - cbn [pv_prescribing_doctor masked_view String.append String.length].
    pose proof (length_substring_le 8 (rx_prescribing_provider_id p)). lia.
  - intros h Hid. rewrite verifyPrescriptionQR_head.
    rewrite (prescription_by_qr_with_users h st qrCodeData Hid), Erows.
    cbn [with_users partners set_users]. rewrite Eq, Et, Es, Ep.
    reflexivity.
  - intros g Hg. rewrite verifyPrescriptionQR_head.
    rewrite prescription_by_qr_with_prescribers, Erows.
    cbn [map with_prescribers partners set_prescriptions].
    change (qr_disabled (set_prescribing_provider (g p) p))
      with (qr_disabled p).
    cbn [rx_expires_at rx_status set_prescribing_provider].
    rewrite Eq, Et, Es, Ep. cbn [snd].
    unfold masked_view, items_of.
    cbn [rx_id rx_prescribing_provider_id rx_created_at
         set_prescribing_provider prescription_items set_prescriptions].
    rewrite Hg. reflexivity.
Qed.

Local Open Scope string_scope.

(** C1 as stated fails: [Rx1] is fulfilled by pharmacy [PH-A] and then by
    pharmacy [PH-B]; both calls succeed, both claims end up dispensed, and
    the second call replaces the fulfilling pharmacy. *)
Lemma fulfillPrescription_succeeds_twice :
  snd (fulfillPrescription redeemed_twice_store "Rx1" "PH-A"
         ["Amoxicillin 500mg x21"] 1000)
  = Ok tt
  /\ map rx_fulfilling_pharmacy_id
       (prescriptions
          (fst (fulfillPrescription redeemed_twice_store "Rx1" "PH-A"
                  ["Amoxicillin 500mg x21"] 1000)))
     = [Some "PH-A"]
  /\ snd (fulfillPrescription
            (fst (fulfillPrescription redeemed_twice_store "Rx1" "PH-A"
                    ["Amoxicillin 500mg x21"] 1000))
            "Rx1" "PH-B" ["Amoxicillin 500mg x21"] 2000)
     = Ok tt
  /\ map rx_fulfilling_pharmacy_id
       (prescriptions
          (fst (fulfillPrescription
                  (fst (fulfillPrescription redeemed_twice_store "Rx1" "PH-A"
                          ["Amoxicillin 500mg x21"] 1000))
                  "Rx1" "PH-B" ["Amoxicillin 500mg x21"] 2000)))
     = [Some "PH-B"]
  /\ map pc_status
       (pharmacy_claims
          (fst (fulfillPrescription
                  (fst (fulfillPrescription redeemed_twice_store "Rx1" "PH-A"
                          ["Amoxicillin 500mg x21"] 1000))
                  "Rx1" "PH-B" ["Amoxicillin 500mg x21"] 2000)))
     = [claim_dispensed; claim_dispensed].
Proof. repeat split. Qed.

(** C7 as stated fails: for [Rx1] with the flag cleared the reason returned
    is [pdf_downloaded], not [disabled]; and a dispense does not clear the
    flag: after [fulfillPrescription] it is still set, and the token is then
    refused as [already_used]. *)
Lemma disabled_reason_is_pdf_downloaded :
  verifyPrescriptionQR downloaded_store "T" "PH-A" 1000 "claim-1"
  = (downloaded_store, Ok (Invalid "pdf_downloaded"))
  /\ "pdf_downloaded" <> "disabled"
  /\ map rx_qr_enabled
       (prescriptions
          (fst (fulfillPrescription redeemed_twice_store "Rx1" "PH-A"
                  ["Amoxicillin 500mg x21"] 1000)))
     = [Some true]
  /\ snd (verifyPrescriptionQR
            (fst (fulfillPrescription redeemed_twice_store "Rx1" "PH-A"
                    ["Amoxicillin 500mg x21"] 1000))
            "T" "PH-B" 2000 "claim-2")
     = Ok (Invalid "already_used").
Proof. repeat split. discriminate. Qed.

(** C8 as stated fails: a prescription is issued against [E1] while it is
    still [requested]; the call succeeds and the prescription and its line
    item are persisted. *)
Lemma createPrescription_for_requested_encounter :
  map c_status (consultations requested_store) = [requested]
  /\ snd (createPrescription requested_store "E1" (pr_id gp_C1) [amoxicillin]
            "T" 0 "Rx1" (Some "data:image/png;base64,iVBOR"))
     = Ok {| created_row := prescription_Rx1 (Some true) rx_active;
             qr_code_image := "data:image/png;base64,iVBOR" |}
  /\ prescriptions
       (fst (createPrescription requested_store "E1" (pr_id gp_C1)
               [amoxicillin] "T" 0 "Rx1" (Some "data:image/png;base64,iVBOR")))
     = [prescription_Rx1 (Some true) rx_active]
  /\ prescription_items
       (fst (createPrescription requested_store "E1" (pr_id gp_C1)
               [amoxicillin] "T" 0 "Rx1" (Some "data:image/png;base64,iVBOR")))
     = [item_of_medication "Rx1" amoxicillin].
Proof. repeat split. Qed.

(** C9, on [Rx1] presented at pharmacy [PH-A]: with the users' names and
    phone numbers blanked the pharmacy is shown the same view. *)
Lemma pharmacy_view_is_masked_Rx1 :
  snd (verifyPrescriptionQR (with_users blank_contact issued_store) "T" "PH-A"
         1000 "claim-1")
  = Ok (Valid
          {| pv_id := "Rx1";
             pv_medications :=
               [{| iv_drug_name := "Amoxicillin"; iv_strength := Some "500mg";
                   iv_form := Some "capsule"; iv_quantity := Some "21";
                   iv_instructions := Some "1 capsule 3 times daily" |}];
             pv_prescribing_doctor := "Dr. 3f2b8c1e";
             pv_issue_date := 0 |}).
Proof.
  refine (proj1 (proj2 (proj2
            (pharmacy_view_is_masked issued_store "T" "PH-A" 1000 "claim-1"
               _ _ _))) blank_contact _).
  - reflexivity.
  - intros u. reflexivity.
Defined.

Local Close Scope string_scope.

(** * Further properties *)

(** ** AuthService: the life of a challenge *)

Lemma filter_none {A : Type} (f : A -> bool) (l : list A) :
  (forall x, In x l -> f x = false) -> filter f l = [].
Proof.
  induction l as [|x l IH]; simpl; intros Hf; [reflexivity|].
  rewrite (Hf x (or_introl eq_refl)). apply IH.
  intros y Hy. apply Hf. right. exact Hy.
Qed.

Lemma find_update_where_any {row : Type} (f cond : row -> bool)
  (set : row -> row) (t : list row) :
  (forall r, f (set r) = f r) ->
  find f (update_where cond set t)
  = option_map (fun r => if cond r then set r else r) (find f t).
Proof.
  intros Hset. unfold update_where.
  induction t as [|r t IH]; simpl; [reflexivity|].
  destruct (cond r) eqn:Ec.
  - rewrite Hset. destruct (f r); simpl; [rewrite Ec; reflexivity|exact IH].
  - destruct (f r); simpl; [rewrite Ec; reflexivity|exact IH].
Qed.

Lemma NoDup_key_eq {row key : Type} (k : row -> key) (t : list row)
  (x y : row) :
  NoDup (map k t) -> In x t -> In y t -> k x = k y -> x = y.
Proof.
  induction t as [|r t IH]; simpl; intros Hnd Hx Hy E; [destruct Hx|].
  inversion Hnd as [|? ? Hnotin Hnd']; subst.
  destruct Hx as [<-|Hx]; destruct Hy as [<-|Hy].
  - reflexivity.
  - exfalso. apply Hnotin. rewrite E. apply in_map, Hy.
  - exfalso. apply Hnotin. rewrite <- E. apply in_map, Hx.
  - apply IH; assumption.
Qed.

Lemma map_key_update_where {row key : Type} (k : row -> key)
  (cond : row -> bool) (set : row -> row) (t : list row) :
  (forall r, k (set r) = k r) ->
  map k (update_where cond set t) = map k t.
Proof.
  intros Hk. unfold update_where. rewrite map_map. apply map_ext.
  intros r. destruct (cond r); [apply Hk|reflexivity].
Qed.

Section ChallengeLife.
Context {ext : Collaborators}.

Lemma pending_cleared (t : list wa_auth_code) (phoneNumber : string)
  (r : wa_auth_code) (set : wa_auth_code -> wa_auth_code) :
  filter (is_pending_for phoneNumber) t = [r] ->
  (forall x, is_pending_for phoneNumber (set x) = false) ->
  filter (is_pending_for phoneNumber)
    (update_where (has_auth_code_id (ac_id r)) set t) = [].
Proof.
  intros Hrows Hset. apply filter_none. intros y Hy.
  apply in_update_where_inv in Hy. destruct Hy as [x [Hx ->]].
  destruct (has_auth_code_id (ac_id r) x) eqn:Eid; [apply Hset|].
  destruct (is_pending_for phoneNumber x) eqn:Ep; [|reflexivity].
  assert (Hin : In x (filter (is_pending_for phoneNumber) t))
    by (apply filter_In; split; assumption).
  rewrite Hrows in Hin. destruct Hin as [<-|[]].
  unfold has_auth_code_id in Eid. rewrite String.eqb_refl in Eid.
  discriminate.
Qed.

Lemma verifyOTP_without_pending st phoneNumber code now new_user_id session :
  filter (is_pending_for phoneNumber) (wa_auth_codes st) = [] ->
  verifyOTP st phoneNumber code now new_user_id session
  = (st, Throw (AppError "No pending OTP found" 404)).
Proof. intros E. unfold verifyOTP. rewrite E. reflexivity. Qed.

Lemma verifyOTP_success_inv st phoneNumber code now new_user_id session st'
  login :
  verifyOTP st phoneNumber code now new_user_id session = (st', Ok login) ->
  exists r rest,
    filter (is_pending_for phoneNumber) (wa_auth_codes st) = r :: rest
    /\ (ac_ttl_expires_at r <? now) = false
    /\ bcrypt_compare code (ac_code_hash r) = true
    /\ wa_auth_codes st'
       = update_where (has_auth_code_id (ac_id r))
           (set_otp_status otp_verified (Some now)) (wa_auth_codes st).
Proof.
  unfold verifyOTP.
  destruct (filter (is_pending_for phoneNumber) (wa_auth_codes st))
    as [|r rest]; [discriminate|].
  destruct (ac_ttl_expires_at r <? now) eqn:Et; [discriminate|].
  destruct (bcrypt_compare code (ac_code_hash r)) eqn:Ec; cbn [negb].
  - destruct (filter _ (users _)); intros E; injection E as <- _;
      exists r, rest; repeat split; assumption.
  - destruct (increment_attempts _ _); discriminate.
Qed.

(** A verified challenge is used up: after a successful [verifyOTP], every
    further [verifyOTP] for the phone number, whatever the code, fails with
    "No pending OTP found" (404) and changes nothing, until a new challenge
    is requested. *)
Theorem verified_challenge_is_consumed (st : Store) (phoneNumber code : string)
  (now : timestamp) (new_user_id session : uuid) (st' : Store)
  (login : LoginResult) :
  at_most_one_pending st ->
  verifyOTP st phoneNumber code now new_user_id session = (st', Ok login) ->
  forall code' now' new_user_id' session',
    verifyOTP st' phoneNumber code' now' new_user_id' session'
    = (st', Throw (AppError "No pending OTP found" 404)).
Proof.
  intros Hinv Hok code' now' new_user_id' session'.
  destruct (verifyOTP_success_inv _ _ _ _ _ _ _ _ Hok)
    as [r [rest [Hrows [_ [_ Hcodes]]]]].
  assert (rest = []) as ->.
  { specialize (Hinv phoneNumber). unfold pending_count in Hinv.
    rewrite Hrows in Hinv. destruct rest; [reflexivity|simpl in Hinv; lia]. }
  apply verifyOTP_without_pending. rewrite Hcodes.
  apply pending_cleared; [exact Hrows|].
  intros x. unfold is_pending_for. simpl. apply andb_false_r.
Qed.

(** Expiry is enforced on read and uses the challenge up: a [verifyOTP]
    after the expiry instant fails with "OTP has expired" (401) whatever the
    code, marks the challenge [expired] and touches no user; every later
    [verifyOTP] then fails with 404.  At the expiry instant itself the
    challenge is not yet expired. *)
Theorem expired_challenge_is_consumed (st : Store) (phoneNumber : string)
  (r : wa_auth_code) :
  at_most_one_pending st ->
  find (is_pending_for phoneNumber) (wa_auth_codes st) = Some r ->
  (forall code now new_user_id session,
      ac_ttl_expires_at r < now ->
      exists st1,
        verifyOTP st phoneNumber code now new_user_id session
        = (st1, Throw (AppError "OTP has expired" 401))
        /\ In (set_otp_status otp_expired (ac_verified_at r) r)
             (wa_auth_codes st1)
        /\ users st1 = users st
        /\ audit_events st1 = audit_events st
        /\ forall code' now' new_user_id' session',
             verifyOTP st1 phoneNumber code' now' new_user_id' session'
             = (st1, Throw (AppError "No pending OTP found" 404)))
  /\ (forall code now new_user_id session,
        now <= ac_ttl_expires_at r ->
        snd (verifyOTP st phoneNumber code now new_user_id session)
        <> Throw (AppError "OTP has expired" 401)).
Proof.
  intros Hinv Hfind.
  pose proof (pending_rows_of_find _ _ _ Hinv Hfind) as Hrows.
  split.
  - intros code now new_user_id session Hlate.
    assert (Et : (ac_ttl_expires_at r <? now) = true) by (apply Z.ltb_lt; lia).
    assert (E1 : verifyOTP st phoneNumber code now new_user_id session
                 = (set_wa_auth_codes
                      (update_where (has_auth_code_id (ac_id r))
                         (fun x =>
                            set_otp_status otp_expired (ac_verified_at x) x)
                         (wa_auth_codes st)) st,
                    Throw (AppError "OTP has expired" 401))).
    { unfold verifyOTP. rewrite Hrows, Et. reflexivity. }
    rewrite E1. eexists. split; [reflexivity|].
    cbn [wa_auth_codes users audit_events set_wa_auth_codes].
    repeat split.
    + apply (in_update_where (has_auth_code_id (ac_id r))
               (fun x => set_otp_status otp_expired (ac_verified_at x) x)).
      * apply (find_some _ _ Hfind).
      * apply String.eqb_refl.
    + intros code' now' new_user_id' session'.
      apply verifyOTP_without_pending.
      cbn [wa_auth_codes set_wa_auth_codes].
      apply pending_cleared; [exact Hrows|].
      intros x. unfold is_pending_for. simpl. apply andb_false_r.
  - intros code now new_user_id session Hnow.
    assert (Et : (ac_ttl_expires_at r <? now) = false) by (apply Z.ltb_ge; lia).
    unfold verifyOTP. rewrite Hrows, Et.
    destruct (negb (bcrypt_compare code (ac_code_hash r))).
    + destruct (increment_attempts _ _); discriminate.
    + destruct (filter _ (users _)); discriminate.
Qed.

(** Every wrong code counts.  On a store whose challenge ids are unique, a
    series of [verifyOTP] calls with codes that do not match, none after the
    expiry instant, raises the attempt counter of the pending challenge by
    one per call and changes nothing else of it. *)
Lemma wrong_codes_count (tries : list (string * timestamp)) :
  forall (st : Store) (phoneNumber : string) (r : wa_auth_code) (a : Z)
         (new_user_id session : uuid),
    at_most_one_pending st ->
    NoDup (map ac_id (wa_auth_codes st)) ->
    find (is_pending_for phoneNumber) (wa_auth_codes st) = Some r ->
    ac_attempts r = Some a ->
    0 <= a ->
    a + Z.of_nat (List.length tries) <= int4_max ->
    Forall
      (fun try => bcrypt_compare (fst try) (ac_code_hash r) = false
                  /\ snd try <= ac_ttl_expires_at r) tries ->
    let st' := verify_each st phoneNumber tries new_user_id session in
    at_most_one_pending st'
    /\ find (is_pending_for phoneNumber) (wa_auth_codes st')
       = Some (set_attempts (Some (a + Z.of_nat (List.length tries))) r).
Proof.
  induction tries as [|[code now] tries IH];
    intros st phoneNumber r a new_user_id session Hinv Hnd Hfind Ha Hpos Hmax
      Htries; cbn [verify_each List.length].
  - split; [exact Hinv|]. rewrite Hfind. f_equal.
    change (Z.of_nat 0) with 0. rewrite Z.add_0_r.
    destruct r; simpl in Ha; subst; reflexivity.
  - inversion Htries as [|? ? [Hwrong Hlive] Htries']; subst.
    cbn [fst snd] in Hwrong, Hlive. cbn [List.length] in Hmax.
    pose proof (pending_rows_of_find _ _ _ Hinv Hfind) as Hrows.
    assert (Et : (ac_ttl_expires_at r <? now) = false)
      by (apply Z.ltb_ge; lia).
    pose proof (find_some _ _ Hfind) as [Hin _].
    set (bump := fun x : wa_auth_code =>
                   match int4_add (ac_attempts x) 1 with
                   | SumValue n => set_attempts (Some n) x
                   | _ => x
                   end).
    assert (Hsum : int4_add (ac_attempts r) 1 = SumValue (a + 1)).
    { rewrite Ha. apply int4_add_in_range.
      unfold int4_min, int4_max in *. lia. }
    assert (Hinc : increment_attempts (ac_id r) (wa_auth_codes st)
                   = Some (update_where (has_auth_code_id (ac_id r)) bump
                             (wa_auth_codes st))).
    { unfold increment_attempts.
      destruct (existsb _ (wa_auth_codes st)) eqn:Ex; [|reflexivity].
      exfalso. apply existsb_exists in Ex. destruct Ex as [x [Hx Ex]].
      apply andb_prop in Ex. destruct Ex as [Eid Eo].
      apply String.eqb_eq in Eid.
      assert (x = r) as -> by (apply (NoDup_key_eq ac_id _ _ _ Hnd Hx Hin Eid)).
      rewrite Hsum in Eo. discriminate. }
    assert (Hstep : verifyOTP st phoneNumber code now new_user_id session
                    = (set_wa_auth_codes
                         (update_where (has_auth_code_id (ac_id r)) bump
                            (wa_auth_codes st)) st,
                       Throw (AppError "Invalid OTP" 401))).
    { unfold verifyOTP. rewrite Hrows, Et, Hwrong. cbn [negb].
      rewrite Hinc. reflexivity. }
    pose proof (verifyOTP_preserves st phoneNumber code now new_user_id
                  session Hinv) as Hinv1.
    rewrite Hstep in *. cbn [fst] in *.
    set (st1 := set_wa_auth_codes _ st) in *.
    assert (Hbump : forall x q, is_pending_for q (bump x) = is_pending_for q x).
    { intros x q. unfold bump. destruct (int4_add (ac_attempts x) 1);
        reflexivity. }
    assert (Hfind1 : find (is_pending_for phoneNumber) (wa_auth_codes st1)
                     = Some (set_attempts (Some (a + 1)) r)).
    { subst st1. cbn [wa_auth_codes set_wa_auth_codes].
      rewrite find_update_where_any by (intros x; apply Hbump).
      rewrite Hfind. cbn [option_map].
      unfold has_auth_code_id. rewrite String.eqb_refl.
      unfold bump. rewrite Hsum. reflexivity. }
    assert (Hnd1 : NoDup (map ac_id (wa_auth_codes st1))).
    { subst st1. cbn [wa_auth_codes set_wa_auth_codes].
      rewrite map_key_update_where; [exact Hnd|].
      intros x. unfold bump. destruct (int4_add (ac_attempts x) 1);
        reflexivity. }
    specialize (IH st1 phoneNumber (set_attempts (Some (a + 1)) r) (a + 1)
                  new_user_id session Hinv1 Hnd1 Hfind1 eq_refl).
    cbv zeta in IH.
    destruct IH as [Hinv' Hfind']; [lia|lia|exact Htries'|].
    split; [exact Hinv'|]. rewrite Hfind'.
    cbn [set_attempts ac_id ac_phone_number ac_code_hash ac_status
         ac_wa_message_id ac_ttl_expires_at ac_verified_at].
    replace (a + 1 + Z.of_nat (List.length tries))
      with (a + Z.of_nat (S (List.length tries))) by lia.
    reflexivity.
Qed.

(** Five wrong codes close the door on new codes.  Once the wrong codes
    submitted for a pending, unexpired challenge bring its counter to 5 or
    more, [requestOTP] for the phone number is refused with status 429 and
    changes nothing, for as long as the challenge has not expired. *)
Theorem wrong_codes_block_requestOTP (st : Store) (phoneNumber : string)
  (r : wa_auth_code) (a : Z) (tries : list (string * timestamp))
  (new_user_id session : uuid) :
  at_most_one_pending st ->
  NoDup (map ac_id (wa_auth_codes st)) ->
  find (is_pending_for phoneNumber) (wa_auth_codes st) = Some r ->
  ac_attempts r = Some a ->
  0 <= a ->
  a + Z.of_nat (List.length tries) <= int4_max ->
  Forall
    (fun try => bcrypt_compare (fst try) (ac_code_hash r) = false
                /\ snd try <= ac_ttl_expires_at r) tries ->
  5 <= a + Z.of_nat (List.length tries) ->
  let st' := verify_each st phoneNumber tries new_user_id session in
  find (is_pending_for phoneNumber) (wa_auth_codes st')
  = Some (set_attempts (Some (a + Z.of_nat (List.length tries))) r)
  /\ forall otp salt now new_id response,
       now < ac_ttl_expires_at r ->
       requestOTP st' phoneNumber otp salt now new_id response
       = (st', Throw (AppError "Too many OTP attempts. Please try again later."
                        429)).
Proof.
  intros Hinv Hnd Hfind Ha Hpos Hmax Htries Hcap st'.
  destruct (wrong_codes_count tries st phoneNumber r a new_user_id session
              Hinv Hnd Hfind Ha Hpos Hmax Htries) as [Hinv' Hfind'].
  fold st' in Hinv', Hfind'.
  split; [exact Hfind'|].
  intros otp salt now new_id response Hlive. unfold requestOTP.
  rewrite (live_pending_rows _ _ now _ Hinv' Hfind').
  cbn [ac_ttl_expires_at set_attempts].
  assert (E : (now <? ac_ttl_expires_at r) = true) by (apply Z.ltb_lt; lia).
  rewrite E. unfold attempts_ge_5. cbn [ac_attempts set_attempts].
  assert (E5 : (5 <=? a + Z.of_nat (List.length tries)) = true)
    by (apply Z.leb_le; lia).
  rewrite E5. reflexivity.
Qed.

(** One pending challenge per phone number.  Along every sequence of
    [requestOTP] and [verifyOTP] calls from a store in which no phone number
    has two pending challenges, none ever has two: [verifyOTP] only takes
    challenges out of [pending], and [requestOTP] stores none. *)
Theorem pending_challenges_stay_unique (st : Store) (calls : list auth_call) :
  at_most_one_pending st ->
  Forall at_most_one_pending (auth_trace st calls).
Proof.
  revert st. induction calls as [|c calls IH]; intros st Hinv; simpl.
  - constructor; [exact Hinv|constructor].
  - constructor; [exact Hinv|]. apply IH, auth_step_preserves, Hinv.
Qed.

(** Expiry lifts the refusal.  A [requestOTP] at or after the expiry
    instant of the pending challenge is not answered 429, whatever the
    attempt counter: the guard reads unexpired challenges only.  The call
    goes on to its upsert, which the database refuses, and nothing
    changes. *)
Theorem expired_challenge_does_not_block (st : Store)
  (phoneNumber otp salt : string) (now : timestamp) (new_id : uuid)
  (response : option string) (r : wa_auth_code) :
  at_most_one_pending st ->
  find (is_pending_for phoneNumber) (wa_auth_codes st) = Some r ->
  ac_ttl_expires_at r <= now ->
  requestOTP st phoneNumber otp salt now new_id response
  = (st, Throw (DatabaseError no_arbiter_index)).
Proof.
  intros Hinv Hfind Hexp. rewrite requestOTP_outcome.
  rewrite (live_pending_rows _ _ now _ Hinv Hfind).
  assert (E : (now <? ac_ttl_expires_at r) = false) by (apply Z.ltb_ge; lia).
  rewrite E. reflexivity.
Qed.

End ChallengeLife.

(** ** AuthService: users *)

Section LoginUsers.
Context {ext : Collaborators}.

Lemma verifyOTP_users st phoneNumber code now new_user_id session :
  let st' := fst (verifyOTP st phoneNumber code now new_user_id session) in
  users st' = users st
  \/ (filter (fun u => String.eqb (u_phone_number u) phoneNumber) (users st)
      = []
      /\ exists u, u_phone_number u = phoneNumber
                   /\ users st' = users st ++ [u])
  \/ exists id,
       users st'
       = update_where (fun x => String.eqb (u_id x) id)
           (set_phone_verified_at now) (users st).
Proof.
  unfold verifyOTP.
  destruct (filter (is_pending_for phoneNumber) (wa_auth_codes st))
    as [|r rest]; [left; reflexivity|].
  destruct (ac_ttl_expires_at r <? now); [left; reflexivity|].
  destruct (negb (bcrypt_compare code (ac_code_hash r))).
  - destruct (increment_attempts _ _); left; reflexivity.
  - cbn [users set_wa_auth_codes].
    destruct (filter (fun u => String.eqb (u_phone_number u) phoneNumber)
                (users st)) as [|u us] eqn:Eu.
    + right. left. split; [reflexivity|].
      eexists. split; [|reflexivity]. reflexivity.
    + right. right. exists (u_id u). reflexivity.
Qed.

Lemma verifyOTP_keeps_users_unique st phoneNumber code now new_user_id session :
  at_most_one_user_per_phone st ->
  at_most_one_user_per_phone
    (fst (verifyOTP st phoneNumber code now new_user_id session)).
Proof.
  intros Hinv q.
  destruct (verifyOTP_users st phoneNumber code now new_user_id session)
    as [E|[[Enone [u [Hu E]]]|[id E]]]; rewrite E.
  - apply Hinv.
  - rewrite filter_app, length_app. simpl. rewrite Hu.
    destruct (String.eqb phoneNumber q) eqn:Eq; simpl.
    + apply String.eqb_eq in Eq. subst q. rewrite Enone. simpl. lia.
    + specialize (Hinv q). lia.
  - eapply Nat.le_trans; [|apply (Hinv q)].
    apply filter_update_where_le. intros r Hr. exact Hr.
Qed.

(** No second user for a phone number.  Along every sequence of
    [requestOTP] and [verifyOTP] calls from a store in which no phone number
    has two users, no phone number ever has two users: a verification
    creates a user only when the phone number has none. *)
Theorem users_stay_unique_by_phone (st : Store) (calls : list auth_call) :
  at_most_one_user_per_phone st ->
  Forall at_most_one_user_per_phone (auth_trace st calls).
Proof.
  revert st. induction calls as [|c calls IH]; intros st Hinv; simpl.
  - constructor; [exact Hinv|constructor].
  - constructor; [exact Hinv|]. apply IH.
    destruct c as [phoneNumber otp salt now new_id response
                  |phoneNumber code now new_user_id session]; simpl.
    + rewrite requestOTP_store. exact Hinv.
    + apply verifyOTP_keeps_users_unique, Hinv.
Qed.

(** Get or create.  A successful [verifyOTP] returns a user with the
    verified phone number: the first user row of that number, as it was
    before the call, when there is one, and otherwise a new user with role
    [patient] and the given id, appended to [users].  The token signs that
    user's id and role with the session id of the call, the roles and phone
    numbers of the existing users are left as they were, and one
    [auth.login] audit record is appended. *)
Theorem verifyOTP_gets_or_creates_user (st : Store) (phoneNumber code : string)
  (now : timestamp) (new_user_id session : uuid) (st' : Store)
  (login : LoginResult) :
  verifyOTP st phoneNumber code now new_user_id session = (st', Ok login) ->
  u_phone_number (login_user login) = phoneNumber
  /\ token login
     = jwt_sign {| userId := u_id (login_user login);
                   role := u_role (login_user login);
                   sessionId := session |}
  /\ match filter (fun u => String.eqb (u_phone_number u) phoneNumber)
             (users st) with
     | [] =>
         users st' = users st ++ [login_user login]
         /\ u_id (login_user login) = new_user_id
         /\ u_role (login_user login) = role_patient
     | u :: _ =>
         login_user login = u
         /\ map (fun x => (u_id x, u_phone_number x, u_role x)) (users st')
            = map (fun x => (u_id x, u_phone_number x, u_role x)) (users st)
     end
  /\ audit_events st'
     = audit_events st
       ++ [{| ae_user_id := Some (u_id (login_user login));
              ae_event_type := "auth.login"; ae_resource_type := "user";
              ae_resource_id := u_id (login_user login);
              ae_event_data := [("method", "whatsapp_otp")]%string |}].
Proof.
  unfold verifyOTP.
  destruct (filter (is_pending_for phoneNumber) (wa_auth_codes st))
    as [|r rest]; [discriminate|].
  destruct (ac_ttl_expires_at r <? now); [discriminate|].
  destruct (negb (bcrypt_compare code (ac_code_hash r)));
    [destruct (increment_attempts _ _); discriminate|].
  cbn [users set_wa_auth_codes].
  destruct (filter (fun u => String.eqb (u_phone_number u) phoneNumber)
              (users st)) as [|u us] eqn:Eu;
    intros E; injection E as <- <-.
  - repeat split.
  - cbn [login_user token]. repeat split.
    + assert (Hu : In u (u :: us)) by (left; reflexivity).
      rewrite <- Eu in Hu. apply filter_In in Hu. apply String.eqb_eq, Hu.
    + cbn [users log_audit set_audit_events set_users].
      unfold update_where. rewrite map_map. apply map_ext.
      intros x. destruct (String.eqb (u_id x) (u_id u)); reflexivity.
Qed.

End LoginUsers.

Local Open Scope string_scope.

(** The challenge of the sample store, verified at instant 1000 with its
    code, answers 404 to a second verification with the same code. *)
Lemma verified_challenge_is_consumed_tried :
  verifyOTP (ext := test_collaborators)
    (fst (verifyOTP (ext := test_collaborators) tried_store "+254700000001"
            "123456" 1000 "user-1" "session-1"))
    "+254700000001" "123456" 2000 "user-1" "session-2"
  = (fst (verifyOTP (ext := test_collaborators) tried_store "+254700000001"
            "123456" 1000 "user-1" "session-1"),
     Throw (AppError "No pending OTP found" 404)).
Proof.
  refine (verified_challenge_is_consumed (ext := test_collaborators)
            tried_store "+254700000001" "123456" 1000 "user-1" "session-1"
            _ _ _ _ "123456" 2000 "user-1" "session-2").
  - intros q. unfold pending_count. simpl.
    destruct (is_pending_for q tried_challenge); simpl; lia.
  - reflexivity.
Defined.

(** The same challenge, first read at instant 300001, one millisecond after
    its expiry: the matching code is refused as expired. *)
Lemma expired_challenge_is_consumed_tried :
  exists st1,
    verifyOTP (ext := test_collaborators) tried_store "+254700000001" "123456"
      300001 "user-1" "session-1"
    = (st1, Throw (AppError "OTP has expired" 401))
    /\ In (set_otp_status otp_expired None tried_challenge) (wa_auth_codes st1).
Proof.
  destruct (proj1 (expired_challenge_is_consumed (ext := test_collaborators)
                     tried_store "+254700000001" tried_challenge
                     ltac:(intros q; unfold pending_count; simpl;
                           destruct (is_pending_for q tried_challenge);
                           simpl; lia)
                     eq_refl)
              "123456" 300001 "user-1" "session-1" eq_refl)
    as [st1 [E [Hin _]]].
  exists st1. split; [exact E|exact Hin].
Defined.

(** Three wrong codes on the challenge with two failed attempts bring the
    counter to 5, and a new code is then refused. *)
Lemma wrong_codes_block_requestOTP_tried :
  requestOTP (ext := test_collaborators)
    (verify_each (ext := test_collaborators) tried_store "+254700000001"
       [("000000", 1000); ("111111", 2000); ("222222", 3000)]
       "user-1" "session-1")
    "+254700000001" "654321" "$2a$10$" 4000 "otp-2" (Some "wamid.2")
  = (verify_each (ext := test_collaborators) tried_store "+254700000001"
       [("000000", 1000); ("111111", 2000); ("222222", 3000)]
       "user-1" "session-1",
     Throw (AppError "Too many OTP attempts. Please try again later." 429)).
Proof.
  refine (proj2 (wrong_codes_block_requestOTP (ext := test_collaborators)
                   tried_store "+254700000001" tried_challenge 2
                   [("000000", 1000); ("111111", 2000); ("222222", 3000)]
                   "user-1" "session-1" _ _ _ _ _ _ _ _)
            "654321" "$2a$10$" 4000 "otp-2" (Some "wamid.2") _).
  - intros q. unfold pending_count. simpl.
    destruct (is_pending_for q tried_challenge); simpl; lia.
  - simpl. apply NoDup_cons; [intros []|apply NoDup_nil].
  - reflexivity.
  - reflexivity.
  - lia.
  - unfold int4_max. simpl. lia.
  - repeat constructor; simpl; lia.
  - simpl. lia.
  - simpl. lia.
Defined.

(** The challenge with five failed attempts, at its expiry instant: a new
    request is no longer answered 429. *)
Lemma expired_challenge_does_not_block_locked :
  requestOTP (ext := test_collaborators) locked_store "+254700000001"
    "654321" "$2a$10$" 300000 "otp-2" (Some "wamid.2")
  = (locked_store, Throw (DatabaseError no_arbiter_index)).
Proof.
  refine (expired_challenge_does_not_block (ext := test_collaborators)
            locked_store "+254700000001" "654321" "$2a$10$" 300000
            "otp-2" (Some "wamid.2") locked_challenge _ _ _).
  - intros q. unfold pending_count. simpl.
    destruct (is_pending_for q locked_challenge); simpl; lia.
  - reflexivity.
  - simpl. lia.
Defined.

(** A run from the store with one pending challenge: a new request, a
    wrong code, the right code and a request again. *)
Lemma pending_challenges_stay_unique_run :
  at_most_one_pending tried_store
  /\ Forall at_most_one_pending
       (auth_trace (ext := test_collaborators) tried_store
          [RequestOTP "+254700000001" "654321" "$2a$10$" 1000 "otp-2"
             (Some "wamid.2");
           VerifyOTP "+254700000001" "000000" 2000 "user-1" "session-1";
           VerifyOTP "+254700000001" "123456" 3000 "user-1" "session-2";
           RequestOTP "+254700000001" "654321" "$2a$10$" 4000 "otp-3"
             (Some "wamid.3")]).
Proof.
  assert (E : at_most_one_pending tried_store).
  { intros q. unfold pending_count. simpl.
    destruct (is_pending_for q tried_challenge); simpl; lia. }
  split; [exact E|].
  apply (pending_challenges_stay_unique (ext := test_collaborators)
           tried_store), E.
Defined.

(** A run from the store with one pending challenge: a wrong code, the
    right code, which creates the user of the phone number, a new request
    and the same code once more.  One user at most all along. *)
Lemma users_stay_unique_by_phone_run :
  at_most_one_user_per_phone tried_store
  /\ Forall at_most_one_user_per_phone
       (auth_trace (ext := test_collaborators) tried_store
          [VerifyOTP "+254700000001" "000000" 1000 "user-1" "session-1";
           VerifyOTP "+254700000001" "123456" 2000 "user-1" "session-2";
           RequestOTP "+254700000001" "654321" "$2a$10$" 3000 "otp-2"
             (Some "wamid.2");
           VerifyOTP "+254700000001" "123456" 4000 "user-2" "session-3"]).
Proof.
  assert (E : at_most_one_user_per_phone tried_store).
  { intros q. simpl. lia. }
  split; [exact E|].
  apply (users_stay_unique_by_phone (ext := test_collaborators) tried_store),
    E.
Defined.

(** The first login of a phone number creates its user, a patient. *)
Lemma verifyOTP_gets_or_creates_user_tried :
  u_phone_number
    {| u_id := "user-1"; u_phone_number := "+254700000001";
       u_phone_verified_at := Some 1000; u_full_name := None;
       u_preferred_language := Some "en"; u_role := role_patient |}
  = "+254700000001".
Proof.
  refine (proj1 (verifyOTP_gets_or_creates_user (ext := test_collaborators)
                   tried_store "+254700000001" "123456" 1000 "user-1"
                   "session-1" _
                   {| token := "user-1.session-1";
                      login_user :=
                        {| u_id := "user-1";
                           u_phone_number := "+254700000001";
                           u_phone_verified_at := Some 1000;
                           u_full_name := None;
                           u_preferred_language := Some "en";
                           u_role := role_patient |} |} _)).
  reflexivity.
Defined.

Local Close Scope string_scope.

(** ** ConsultationService: load and capacity *)

(** An [UPDATE ... WHERE id = $1] on a table with unique ids changes the
    number of rows that satisfy [P] by what it does to the one row of that
    id. *)
Lemma count_update_by_id (P : consultation -> bool)
  (set : consultation -> consultation) (k : uuid) (t : list consultation)
  (c : consultation) :
  NoDup (map c_id t) ->
  In c t ->
  c_id c = k ->
  (List.length (filter P (update_where (has_consultation_id k) set t))
   + (if P c then 1 else 0)
   = List.length (filter P t) + (if P (set c) then 1 else 0))%nat.
Proof.
  intros Hnd Hin Hk. induction t as [|x t IH]; [destruct Hin|].
  cbn [update_where map filter].
  destruct (has_consultation_id k x) eqn:Ex.
  - assert (x = c) as ->.
    { apply (NoDup_key_eq c_id (x :: t) x c Hnd); [left; reflexivity|exact Hin|].
      apply String.eqb_eq in Ex. congruence. }
    assert (Hrest : map (fun r => if has_consultation_id k r then set r else r) t
                    = t).
    { apply (update_where_none (has_consultation_id k) set t).
      intros r Hr. destruct (has_consultation_id k r) eqn:Er; [|reflexivity].
      exfalso. apply String.eqb_eq in Er.
      inversion Hnd as [|? ? Hnotin _]; subst. apply Hnotin.
      rewrite <- Er. apply in_map, Hr. }
    rewrite Hrest.
    destruct (P (set c)); destruct (P c); simpl; lia.
  - inversion Hnd as [|? ? Hnotin Hnd']; subst.
    destruct Hin as [->|Hin].
    { unfold has_consultation_id in Ex. rewrite String.eqb_refl in Ex.
      discriminate. }
    specialize (IH Hnd' Hin). unfold update_where in IH.
    destruct (P x); simpl; lia.
Qed.

Lemma count_update_by_id_le (P : consultation -> bool)
  (set : consultation -> consultation) (k : uuid) (t : list consultation) :
  NoDup (map c_id t) ->
  (List.length (filter P (update_where (has_consultation_id k) set t))
   <= List.length (filter P t) + 1)%nat.
Proof.
  intros Hnd.
  destruct (existsb (has_consultation_id k) t) eqn:Ex.
  - apply existsb_exists in Ex. destruct Ex as [c [Hin Hc]].
    apply String.eqb_eq in Hc.
    pose proof (count_update_by_id P set k t c Hnd Hin Hc).
    destruct (P c); destruct (P (set c)); lia.
  - rewrite update_where_none; [lia|].
    intros r Hr. destruct (has_consultation_id k r) eqn:Er; [|reflexivity].
    assert (existsb (has_consultation_id k) t = true)
      by (apply existsb_exists; exists r; split; assumption).
    congruence.
Qed.

Lemma session_count_filter (st : Store) (q : uuid) :
  session_count st q
  = Z.of_nat (List.length (filter (in_session_with q) (consultations st))).
Proof. reflexivity. Qed.

(** Assignment keeps within capacity.  On a store with unique consultation
    and provider ids in which no provider of capacity 1 or more holds more
    sessions than its capacity, the store after [assignGP] is such a store
    again, whatever the outcome of the call. *)
Theorem assignGP_respects_capacity (st : Store) (consultationId : uuid)
  (now : timestamp) (notification : result unit) :
  NoDup (map c_id (consultations st)) ->
  NoDup (map pr_id (providers st)) ->
  capacity_respected st ->
  capacity_respected (fst (assignGP st consultationId now notification)).
Proof.
  intros Hcs Hps Hcap. unfold assignGP.
  destruct (availableGP st) as [gp|] eqn:Egp; [|exact Hcap].
  set (st1 := set_consultations
                (update_where (has_consultation_id consultationId)
                   (set_matched (pr_id gp) now) (consultations st)) st).
  assert (H1 : capacity_respected st1).
  { unfold availableGP in Egp.
    pose proof (first_by_count_in _ _ _ Egp) as Hgp.
    apply filter_In in Hgp. destruct Hgp as [Hgp Hav].
    destruct (is_available_gp_spec _ _ Hav) as [_ [_ Hroom]].
    intros p m Hp Hm Hpos. change (providers st1) with (providers st) in Hp.
    rewrite session_count_filter.
    change (consultations st1)
      with (update_where (has_consultation_id consultationId)
              (set_matched (pr_id gp) now) (consultations st)).
    specialize (Hcap p m Hp Hm Hpos). rewrite session_count_filter in Hcap.
    destruct (String.eqb (pr_id gp) (pr_id p)) eqn:Eid.
    - apply String.eqb_eq in Eid.
      assert (p = gp) as ->
        by (apply (NoDup_key_eq pr_id _ _ _ Hps Hp Hgp); congruence).
      pose proof (count_update_by_id_le (in_session_with (pr_id gp))
                    (set_matched (pr_id gp) now) consultationId
                    (consultations st) Hcs) as Hle.
      rewrite session_count_filter in Hroom.
      destruct Hroom as [H0|[m' [Hm' Hlt]]].
      + lia.
      + assert (m' = m) by congruence. subst m'. lia.
    - pose proof (filter_update_where_le (in_session_with (pr_id p))
                    (has_consultation_id consultationId)
                    (set_matched (pr_id gp) now) (consultations st)) as Hle.
      assert (Hnot : forall r,
                 in_session_with (pr_id p) (set_matched (pr_id gp) now r) = true ->
                 in_session_with (pr_id p) r = true).
      { intros r. unfold in_session_with, assigned_to. simpl.
        rewrite Eid. discriminate. }
      specialize (Hle Hnot). lia. }
  destruct (filter (fun p => String.eqb (pr_id p) (pr_id gp)) (providers st1));
    [exact H1|].
  destruct notification; exact H1.
Qed.

Section ConsultationLife.
Context {ext : Collaborators}.

(** Ending a consultation.  After [endConsultation] no video call event of
    the consultation is left open.  Without a consultation of that id the
    call throws a [TypeError] and the consultations are unchanged; with one,
    it resolves, the duration it reports being the minutes between now and
    the start instant of the first such row, and [NULL] for a consultation
    that was never started. *)
Theorem endConsultation_closes_the_call (st : Store) (consultationId : uuid)
  (notes : string) (now : timestamp) :
  let out := endConsultation st consultationId notes now in
  (forall e, In e (video_call_events (fst out)) ->
             vc_consultation_id e = consultationId ->
             vc_ended_at e <> None)
  /\ (existsb (has_consultation_id consultationId) (consultations st) = false ->
      snd out = Throw (TypeError "Cannot read properties of undefined")
      /\ consultations (fst out) = consultations st)
  /\ (forall c rest,
        filter (has_consultation_id consultationId) (consultations st)
        = c :: rest ->
        snd out
        = Ok (option_map (fun started => interval_minutes (now - started))
                (c_started_at c))).
Proof.
  cbv zeta. unfold endConsultation. repeat apply conj.
  - intros e Hin Hid.
    assert (Hev : In e
                    (update_where
                       (fun e0 =>
                          String.eqb (vc_consultation_id e0) consultationId
                          && match vc_ended_at e0 with
                             | None => true
                             | Some _ => false
                             end)
                       (set_call_ended now) (video_call_events st))).
    { destruct (map (set_completed notes now) _); exact Hin. }
    apply in_update_where_inv in Hev. destruct Hev as [x [_ ->]].
    destruct (String.eqb (vc_consultation_id x) consultationId) eqn:Ex;
      destruct (vc_ended_at x) eqn:Ee; simpl in *;
      rewrite ?Ee; try discriminate.
    apply String.eqb_neq in Ex. contradiction.
  - intros Hnone.
    assert (Hrows : filter (has_consultation_id consultationId)
                      (consultations st) = []).
    { apply filter_none. intros x Hx.
      destruct (has_consultation_id consultationId x) eqn:E; [|reflexivity].
      assert (existsb (has_consultation_id consultationId) (consultations st)
              = true)
        by (apply existsb_exists; exists x; split; assumption).
      congruence. }
    rewrite Hrows. cbn [map fst snd consultations set_video_call_events
                          set_consultations].
    split; [reflexivity|].
    apply update_where_none. intros x Hx.
    destruct (has_consultation_id consultationId x) eqn:E; [|reflexivity].
    assert (Hin : In x (filter (has_consultation_id consultationId)
                          (consultations st)))
      by (apply filter_In; split; assumption).
    rewrite Hrows in Hin. destruct Hin.
  - intros c rest Hrows. rewrite Hrows. reflexivity.
Qed.

(** Ending frees the slot.  On a store with unique consultation ids, ending
    a consultation that holds a session of a provider lowers the session
    count of that provider by one and leaves the counts of the other
    providers as they were; a provider that was within its capacity is then
    available to [assignGP]. *)
Theorem endConsultation_frees_a_session (st : Store) (consultationId : uuid)
  (notes : string) (now : timestamp) (c : consultation) (q : uuid) :
  NoDup (map c_id (consultations st)) ->
  In c (consultations st) ->
  c_id c = consultationId ->
  holds_session (c_status c) = true ->
  c_provider_id c = Some q ->
  let st' := fst (endConsultation st consultationId notes now) in
  session_count st' q = session_count st q - 1
  /\ (forall q', q' <> q -> session_count st' q' = session_count st q')
  /\ (forall p m,
        In p (providers st) ->
        pr_id p = q ->
        pr_provider_type p = "gp"%string ->
        pr_is_active p = Some true ->
        pr_max_concurrent_sessions p = Some m ->
        session_count st q <= m ->
        is_available_gp st' p = true).
Proof.
  intros Hnd Hin Hid Hholds Hq st'.
  assert (Hcons : consultations st'
                  = update_where (has_consultation_id consultationId)
                      (set_completed notes now) (consultations st)).
  { subst st'. unfold endConsultation.
    destruct (map (set_completed notes now) _); reflexivity. }
  assert (Hcount : forall x,
             (List.length (filter (in_session_with x) (consultations st'))
              + (if in_session_with x c then 1 else 0)
              = List.length (filter (in_session_with x) (consultations st)))%nat).
  { intros x. rewrite Hcons.
    pose proof (count_update_by_id (in_session_with x)
                  (set_completed notes now) consultationId (consultations st)
                  c Hnd Hin Hid) as Hc.
    change (in_session_with x (set_completed notes now c)) with false in Hc.
    cbv iota in Hc. lia. }
  assert (Hmine : in_session_with q c = true).
  { unfold in_session_with. rewrite Hholds.
    apply (proj2 (assigned_to_iff q c) Hq). }
  assert (Hdown : session_count st' q = session_count st q - 1).
  { rewrite !session_count_filter. specialize (Hcount q).
    rewrite Hmine in Hcount. lia. }
  split; [exact Hdown|]. split.
  - intros q' Hne. rewrite !session_count_filter. specialize (Hcount q').
    assert (Hother : in_session_with q' c = false).
    { unfold in_session_with, assigned_to. rewrite Hq.
      assert (E : String.eqb q q' = false)
        by (apply String.eqb_neq; congruence).
      rewrite E. apply andb_false_r. }
    rewrite Hother in Hcount. lia.
  - intros p m Hp Hpid Htype Hact Hmax Hle.
    unfold is_available_gp, active_count.
    rewrite Htype, Hact, Hmax, Hpid, Hdown. cbn [String.eqb andb].
    change (String.eqb "gp" "gp") with true. cbn [andb].
    destruct (session_count st q - 1 =? 0); [reflexivity|].
    apply Z.ltb_lt. lia.
Qed.

Lemma started_rows (cond : consultation -> bool) (consultationId : uuid)
  (t0 : timestamp) (t : list consultation) :
  (forall x, In x t -> cond x = has_consultation_id consultationId x) ->
  filter (has_consultation_id consultationId)
    (update_where cond (set_active t0) t)
  = map (set_active t0) (filter (has_consultation_id consultationId) t).
Proof.
  unfold update_where.
  induction t as [|x l IH]; intros Hcond; [reflexivity|].
  cbn [map filter]. rewrite (Hcond x (or_introl eq_refl)).
  destruct (has_consultation_id consultationId x) eqn:E.
  - change (has_consultation_id consultationId (set_active t0 x))
      with (has_consultation_id consultationId x).
    rewrite E. cbn [map]. f_equal. apply IH.
    intros y Hy. apply Hcond. right. exact Hy.
  - rewrite E. apply IH. intros y Hy. apply Hcond. right. exact Hy.
Qed.

(** Start, then end.  When every consultation of the id is assigned to the
    provider and there is one, [startConsultation] at [t0] by that provider
    followed by [endConsultation] at [t1] reports the minutes of [t1 - t0]
    and leaves a row of that id [completed] with that duration. *)
Theorem start_then_end_reports_duration (st : Store)
  (consultationId providerId : uuid) (notes : string) (t0 t1 : timestamp)
  (c : consultation) :
  In c (consultations st) ->
  c_id c = consultationId ->
  (forall x, In x (consultations st) -> c_id x = consultationId ->
             c_provider_id x = Some providerId) ->
  let started := fst (startConsultation st consultationId providerId t0) in
  let out := endConsultation started consultationId notes t1 in
  snd out = Ok (Some (interval_minutes (t1 - t0)))
  /\ In (set_completed notes t1 (set_active t0 c)) (consultations (fst out))
  /\ c_duration_minutes (set_completed notes t1 (set_active t0 c))
     = Some (interval_minutes (t1 - t0)).
Proof.
  intros Hin Hid Hall started out.
  set (cond := fun x => has_consultation_id consultationId x
                        && assigned_to providerId x).
  assert (Hstarted : consultations started
                     = update_where cond (set_active t0) (consultations st)).
  { subst started. unfold startConsultation.
    destruct (consultation_with_patient _ _) as [|[c' u] r]; reflexivity. }
  assert (Hcond : forall x, In x (consultations st) ->
                            cond x = has_consultation_id consultationId x).
  { intros x Hx. unfold cond.
    destruct (has_consultation_id consultationId x) eqn:E; [|reflexivity].
    apply (proj2 (assigned_to_iff providerId x)).
    apply Hall; [exact Hx|apply has_consultation_id_iff, E]. }
  assert (Hrows : filter (has_consultation_id consultationId)
                    (consultations started)
                  = map (set_active t0)
                      (filter (has_consultation_id consultationId)
                         (consultations st))).
  { rewrite Hstarted. apply started_rows, Hcond. }
  assert (Hne : exists c0 rest,
             filter (has_consultation_id consultationId) (consultations st)
             = c0 :: rest).
  { destruct (filter (has_consultation_id consultationId) (consultations st))
      as [|c0 rest] eqn:E; [|eauto].
    exfalso.
    assert (Hc : In c (filter (has_consultation_id consultationId)
                         (consultations st))).
    { apply filter_In. split; [exact Hin|].
      apply has_consultation_id_iff, Hid. }
    rewrite E in Hc. destruct Hc. }
  destruct Hne as [c0 [rest Hc0]].
  split; [|split; [|reflexivity]].
  - subst out. unfold endConsultation. rewrite Hrows, Hc0. reflexivity.
  - assert (Hcons : consultations (fst out)
                    = update_where (has_consultation_id consultationId)
                        (set_completed notes t1) (consultations started)).
    { subst out. unfold endConsultation.
      destruct (map (set_completed notes t1) _); reflexivity. }
    rewrite Hcons. apply in_update_where.
    + rewrite Hstarted.
      apply (in_update_where cond (set_active t0)); [exact Hin|].
      rewrite (Hcond c Hin). apply has_consultation_id_iff, Hid.
    + apply has_consultation_id_iff, Hid.
Qed.

End ConsultationLife.

(** ** ConsultationService: createConsultation *)

Lemma session_count_ext (st st' : Store) :
  (forall q, session_count st' q = session_count st q) ->
  forall rows, first_by_count st' rows = first_by_count st rows.
Proof.
  intros Hc rows. induction rows as [|p rows IH]; [reflexivity|].
  cbn [first_by_count]. rewrite IH. unfold active_count.
  destruct (first_by_count st rows) as [q|]; [|reflexivity].
  rewrite !Hc. reflexivity.
Qed.

Lemma availableGP_ext (st st' : Store) :
  providers st' = providers st ->
  (forall q, session_count st' q = session_count st q) ->
  availableGP st' = availableGP st
  /\ forall p, is_available_gp st' p = is_available_gp st p.
Proof.
  intros Hp Hc.
  assert (Hav : forall p, is_available_gp st' p = is_available_gp st p).
  { intros p. unfold is_available_gp, active_count. rewrite Hc. reflexivity. }
  split; [|exact Hav].
  unfold availableGP. rewrite Hp, (session_count_ext st st' Hc).
  f_equal. apply filter_ext. exact Hav.
Qed.

Lemma session_count_insert_requested (st : Store) (row : consultation)
  (q : uuid) :
  holds_session (c_status row) = false ->
  session_count
    (set_consultations (insert_row row (consultations st)) st) q
  = session_count st q.
Proof.
  intros Hrow. unfold session_count, insert_row.
  cbn [consultations set_consultations].
  rewrite filter_app, length_app. cbn [filter]. rewrite Hrow. simpl. lia.
Qed.

Lemma availableGP_none (st : Store) :
  (forall p, In p (providers st) -> is_available_gp st p = false) ->
  availableGP st = None.
Proof.
  intros Hnone. unfold availableGP.
  rewrite (filter_none (is_available_gp st) (providers st) Hnone).
  reflexivity.
Qed.

(** The intake rows the database accepts: no symptom and no red flag
    listed, a duration of at most 100 characters and a severity from 1 to
    10, where given. *)
Lemma ai_intake_refusal_none (aiSummary : ai_summary)
  (intakeData : intake_data) :
  ai_intake_refusal aiSummary intakeData = None
  <-> intake_symptoms intakeData = []
      /\ red_flags_of aiSummary = []
      /\ duration_fits (intake_duration intakeData) = true
      /\ severity_allowed (intake_severity intakeData) = true.
Proof.
  unfold ai_intake_refusal, jsonb_accepts_array, severity_allowed.
  destruct (intake_symptoms intakeData) as [|s ss];
    [|split; [discriminate|intros [E _]; discriminate]].
  cbn [negb].
  destruct (intake_severity intakeData) as [n|].
  - unfold int4_in_range, int4_min, int4_max.
    destruct (red_flags_of aiSummary) as [|f fs];
      destruct (duration_fits (intake_duration intakeData));
      destruct (1 <=? n) eqn:E1; destruct (n <=? 10) eqn:E10;
      destruct (-2147483648 <=? n) eqn:Emin;
      destruct (n <=? 2147483647) eqn:Emax; cbn;
      try (split; [discriminate|intros (_ & A & B & C); discriminate]);
      try (split; [intros _; repeat split|reflexivity]);
      exfalso; lia.
  - destruct (red_flags_of aiSummary) as [|f fs];
      destruct (duration_fits (intake_duration intakeData)); cbn;
      try (split; [discriminate|intros (_ & A & B & C); discriminate]).
    split; [intros _; repeat split|reflexivity].
Qed.

(** A request nobody can take is left behind.  With the patient known, an
    intake row the database accepts and the intake summarised,
    [createConsultation] on a store without an available practitioner fails
    with status 503, yet the consultation, still [requested] and without a
    provider, and its intake row stay in the database. *)
Theorem createConsultation_without_gp_leaves_the_request (st : Store)
  (ai_intake : list ai_intake_row) (patientId : uuid)
  (intakeData : intake_data) (aiSummary : ai_summary) (new_id : uuid)
  (now : timestamp) (gp_notification patient_notification : result unit) :
  existsb (fun u => String.eqb (u_id u) patientId) (users st) = true ->
  intake_symptoms intakeData = [] ->
  red_flags_of aiSummary = [] ->
  duration_fits (intake_duration intakeData) = true ->
  severity_allowed (intake_severity intakeData) = true ->
  (forall p, In p (providers st) -> is_available_gp st p = false) ->
  exists row,
    createConsultation st ai_intake patientId intakeData (Ok aiSummary) new_id
      now gp_notification patient_notification
    = ((set_consultations
          (consultations st ++ [requested_consultation new_id patientId now])
          st,
        ai_intake ++ [row]),
       Throw (AppError "No GP available at the moment" 503))
    /\ ai_consultation_id row = new_id.
Proof.
  intros Hpatient Hsym Hflags Hdur Hsev Hnone. unfold createConsultation.
  rewrite Hpatient. cbn [negb].
  rewrite (proj2 (ai_intake_refusal_none aiSummary intakeData)
             (conj Hsym (conj Hflags (conj Hdur Hsev)))).
  set (st1 := set_consultations
                (insert_row (requested_consultation new_id patientId now)
                   (consultations st)) st).
  assert (Hgp : availableGP st1 = None).
  { destruct (availableGP_ext st st1 eq_refl
                (fun q =>
                   session_count_insert_requested st
                     (requested_consultation new_id patientId now) q eq_refl))
      as [E _].
    rewrite E. apply availableGP_none, Hnone. }
  unfold assignGP. rewrite Hgp.
  eexists. split; reflexivity.
Qed.

(** An intake that lists a symptom is refused.  The symptoms go to a
    [JSONB] column as an array literal, which is no JSON: with the patient
    known, [createConsultation] throws the database's error after its first
    [INSERT], so the consultation stays in the database, [requested] and
    without a provider, no intake row is stored and no practitioner is
    looked for. *)
Theorem createConsultation_with_symptoms_is_refused (st : Store)
  (ai_intake : list ai_intake_row) (patientId : uuid)
  (intakeData : intake_data) (aiSummary : ai_summary) (new_id : uuid)
  (now : timestamp) (gp_notification patient_notification : result unit) :
  existsb (fun u => String.eqb (u_id u) patientId) (users st) = true ->
  intake_symptoms intakeData <> [] ->
  createConsultation st ai_intake patientId intakeData (Ok aiSummary) new_id
    now gp_notification patient_notification
  = ((set_consultations
        (consultations st ++ [requested_consultation new_id patientId now])
        st,
      ai_intake),
     Throw (DatabaseError "invalid input syntax for type json")).
Proof.
  intros Hpatient Hsym. unfold createConsultation.
  rewrite Hpatient. cbn [negb]. unfold ai_intake_refusal.
  destruct (intake_symptoms intakeData) as [|s ss]; [contradiction|].
  reflexivity.
Qed.

(** A stale answer.  When [createConsultation] succeeds with an id no
    consultation had, the consultation it returns is the inserted row, still
    [requested] and without a provider, while the row it stored is
    [matched] to a practitioner that was available, whose session count
    has gone up by one.  The intake of such a call listed no symptom. *)
Theorem createConsultation_returns_the_requested_row (st : Store)
  (ai_intake : list ai_intake_row) (patientId : uuid)
  (intakeData : intake_data) (processed : result ai_summary) (new_id : uuid)
  (now : timestamp) (gp_notification patient_notification : result unit)
  (st' : Store) (ai_intake' : list ai_intake_row) (c : consultation) :
  (forall x, In x (consultations st) -> c_id x <> new_id) ->
  createConsultation st ai_intake patientId intakeData processed new_id now
    gp_notification patient_notification
  = ((st', ai_intake'), Ok c) ->
  c = requested_consultation new_id patientId now
  /\ c_status c = requested
  /\ c_provider_id c = None
  /\ exists gp,
       In gp (providers st)
       /\ is_available_gp st gp = true
       /\ consultations st'
          = consultations st ++ [set_matched (pr_id gp) now c]
       /\ session_count st' (pr_id gp) = session_count st (pr_id gp) + 1
       /\ List.length ai_intake' = S (List.length ai_intake)
       /\ intake_symptoms intakeData = [].
Proof.
  intros Hfresh. unfold createConsultation.
  destruct processed as [aiSummary|e]; [|discriminate].
  destruct (negb (existsb _ (users st))); [discriminate|].
  destruct (ai_intake_refusal aiSummary intakeData) as [e|] eqn:Eref;
    [discriminate|].
  apply ai_intake_refusal_none in Eref. destruct Eref as [Hsym _].
  set (row := requested_consultation new_id patientId now).
  set (st1 := set_consultations (insert_row row (consultations st)) st).
  destruct (availableGP_ext st st1 eq_refl
              (fun q => session_count_insert_requested st row q eq_refl))
    as [Egp Hav].
  unfold assignGP. rewrite Egp.
  destruct (availableGP st) as [gp|] eqn:Eav; [|discriminate].
  assert (Hrows : update_where (has_consultation_id new_id)
                    (set_matched (pr_id gp) now) (consultations st1)
                  = consultations st ++ [set_matched (pr_id gp) now row]).
  { subst st1. cbn [consultations set_consultations]. unfold insert_row.
    unfold update_where. rewrite map_app. cbn [map].
    unfold has_consultation_id at 2. cbn [c_id row requested_consultation].
    rewrite String.eqb_refl. f_equal.
    apply (update_where_none (has_consultation_id new_id)).
    intros x Hx. apply String.eqb_neq. apply Hfresh, Hx. }
  destruct (filter (fun p => String.eqb (pr_id p) (pr_id gp)) _);
    [discriminate|].
  destruct gp_notification as [u|e]; [|discriminate].
  destruct patient_notification as [u'|e]; [|discriminate].
  intros E. injection E as <- <- <-.
  split; [reflexivity|]. split; [reflexivity|]. split; [reflexivity|].
  exists gp.
  unfold availableGP in Eav. pose proof (first_by_count_in _ _ _ Eav) as Hin.
  apply filter_In in Hin. destruct Hin as [Hin Havail].
  split; [exact Hin|]. split; [exact Havail|].
  split; [exact Hrows|]. split.
  - assert (Hs : forall s,
               consultations s
               = consultations st ++ [set_matched (pr_id gp) now row] ->
               session_count s (pr_id gp) = session_count st (pr_id gp) + 1).
    { intros s Es. unfold session_count.
      rewrite Es, filter_app, length_app. cbn [filter].
      assert (Hnew : holds_session (c_status (set_matched (pr_id gp) now row))
                     && assigned_to (pr_id gp)
                          (set_matched (pr_id gp) now row)
                     = true).
      { unfold assigned_to. cbn. apply String.eqb_refl. }
      rewrite Hnew. cbn [List.length]. lia. }
    apply Hs. exact Hrows.
  - split; [|exact Hsym]. unfold insert_row. rewrite length_app. simpl. lia.
Qed.

Local Open Scope string_scope.

(** A clinic whose only practitioner, of capacity 2, is free stays within
    capacity when [E1] is assigned to it. *)
Lemma assignGP_respects_capacity_requested :
  capacity_respected (fst (assignGP requested_store "E1" 1000 (Ok tt))).
Proof.
  apply (assignGP_respects_capacity requested_store "E1" 1000 (Ok tt)).
  - simpl. apply NoDup_cons; [intros []|apply NoDup_nil].
  - simpl. apply NoDup_cons; [intros []|apply NoDup_nil].
  - intros p m [<-|[]] Hm _. injection Hm as <-. vm_compute. discriminate.
Defined.

(** Ending the extended encounter [E1] frees the slot it held. *)
Lemma endConsultation_frees_a_session_E1 :
  session_count
    (fst (endConsultation (ext := test_collaborators) extended_store "E1"
            "done" 2000))
    (pr_id gp_C1)
  = session_count extended_store (pr_id gp_C1) - 1.
Proof.
  refine (proj1 (endConsultation_frees_a_session (ext := test_collaborators)
                   extended_store "E1" "done" 2000
                   (encounter_E1 (Some (pr_id gp_C1)) extended (Some 25)
                      (Some true))
                   (pr_id gp_C1) _ _ _ _ _)).
  - simpl. apply NoDup_cons; [intros []|apply NoDup_nil].
  - left. reflexivity.
  - reflexivity.
  - reflexivity.
  - reflexivity.
Defined.

(** [E1], started at instant 60000 and ended at instant 960000, lasted 15
    minutes. *)
Lemma start_then_end_reports_duration_E1 :
  snd (endConsultation (ext := test_collaborators)
         (fst (startConsultation (ext := test_collaborators) extended_store
                 "E1" (pr_id gp_C1) 60000))
         "E1" "done" 960000)
  = Ok (Some 15).
Proof.
  refine (proj1 (start_then_end_reports_duration (ext := test_collaborators)
                   extended_store "E1" (pr_id gp_C1) "done" 60000 960000
                   (encounter_E1 (Some (pr_id gp_C1)) extended (Some 25)
                      (Some true)) _ _ _)).
  - left. reflexivity.
  - reflexivity.
  - intros x [<-|[]] _. reflexivity.
Defined.

(** A request by [P1], with no symptom listed, when the only practitioner
    has left the service. *)
Lemma createConsultation_without_gp_leaves_the_request_P1 :
  exists row,
    createConsultation (clinic [] (encounter_E1 None completed None None)) []
      "P1"
      {| intake_symptoms := []; intake_duration := Some "2 days";
         intake_severity := Some 4 |}
      (Ok {| summary_text := "unwell, 2 days"; redFlags := None |})
      "E2" 1000 (Ok tt) (Ok tt)
    = ((set_consultations
          (consultations (clinic [] (encounter_E1 None completed None None))
             ++ [requested_consultation "E2" "P1" 1000])%list
          (clinic [] (encounter_E1 None completed None None)),
        ([] ++ [row])%list),
       Throw (AppError "No GP available at the moment" 503))
    /\ ai_consultation_id row = "E2".
Proof.
  apply (createConsultation_without_gp_leaves_the_request
           (clinic [] (encounter_E1 None completed None None))).
  - reflexivity.
  - reflexivity.
  - reflexivity.
  - reflexivity.
  - reflexivity.
  - intros p [].
Defined.

(** A request by [P1] that names a fever: the consultation [E2] is stored
    and the call fails; [C1], who is free, is not asked. *)
Lemma createConsultation_with_symptoms_is_refused_P1 :
  createConsultation completed_store [] "P1"
    {| intake_symptoms := ["fever"]; intake_duration := Some "2 days";
       intake_severity := Some 4 |}
    (Ok {| summary_text := "fever, 2 days"; redFlags := None |})
    "E2" 1000 (Ok tt) (Ok tt)
  = ((set_consultations
        (consultations completed_store
           ++ [requested_consultation "E2" "P1" 1000])%list
        completed_store,
      []),
     Throw (DatabaseError "invalid input syntax for type json")).
Proof.
  apply (createConsultation_with_symptoms_is_refused completed_store [] "P1").
  - reflexivity.
  - discriminate.
Defined.

(** A request by [P1], with no symptom listed, that [C1] takes: it is
    answered as [requested] while the stored row is [matched]. *)
Lemma createConsultation_returns_the_requested_row_P1 :
  snd (createConsultation completed_store [] "P1"
         {| intake_symptoms := []; intake_duration := None;
            intake_severity := None |}
         (Ok {| summary_text := "unwell"; redFlags := Some [] |})
         "E2" 1000 (Ok tt) (Ok tt))
  = Ok (requested_consultation "E2" "P1" 1000)
  /\ c_status (requested_consultation "E2" "P1" 1000) = requested
  /\ map c_status
       (consultations
          (fst (fst (createConsultation completed_store [] "P1"
                       {| intake_symptoms := []; intake_duration := None;
                          intake_severity := None |}
                       (Ok {| summary_text := "unwell";
                              redFlags := Some [] |})
                       "E2" 1000 (Ok tt) (Ok tt)))))
     = [completed; matched].
Proof.
  split; [reflexivity|]. split; [|reflexivity].
  refine (proj1 (proj2
            (createConsultation_returns_the_requested_row completed_store []
               "P1"
               {| intake_symptoms := []; intake_duration := None;
                  intake_severity := None |}
               (Ok {| summary_text := "unwell"; redFlags := Some [] |})
               "E2" 1000 (Ok tt) (Ok tt) _ _ _ _ _))).
  - intros x [<-|[]]. discriminate.
  - reflexivity.
Defined.

Local Close Scope string_scope.

(** ** ConsultationService: messages *)









Lemma in_with_sender_name st m row :
  In row (with_sender_name st m) -> fst row = m.
Proof.
  unfold with_sender_name.
  destruct (filter _ (users st)) as [|u us].
  - intros [<-|[]]. reflexivity.
  - intros Hin. apply in_map_iff in Hin. destruct Hin as [x [<- _]].
    reflexivity.
Qed.

Lemma with_sender_name_head st m :
  exists name rest, with_sender_name st m = (m, name) :: rest.
Proof.
  unfold with_sender_name.
  destruct (filter _ (users st)) as [|u us]; simpl; eauto.
Qed.


Lemma newest_stays_first (earlier : list (message * option string))
  (b : message * option string) (sorted : list (message * option string)) :
  (forall a, In a earlier -> m_created_at (fst a) < m_created_at (fst b)) ->
  exists rest, fold_right insert_by_recency (b :: sorted) earlier = b :: rest.
Proof.
  induction earlier as [|a earlier IH]; intros Hlt; simpl; [eauto|].
  destruct IH as [rest E].
  { intros x Hx. apply Hlt. right. exact Hx. }
  rewrite E. simpl.
  assert (Ea : (m_created_at (fst b) <=? m_created_at (fst a)) = false).
  { apply Z.leb_gt. apply Hlt. left. reflexivity. }
  rewrite Ea. eauto.
Qed.

Lemma same_instant_keep_order (m : message) (b : message * option string)
  (rows : list (message * option string)) :
  fst b = m ->
  (forall x, In x rows -> fst x = m) ->
  exists rest, most_recent_first (b :: rows) = b :: rest.
Proof.
  revert b. induction rows as [|y rows IH]; intros b Hb Hall; simpl; [eauto|].
  destruct (IH y) as [rest E].
  { apply Hall. left. reflexivity. }
  { intros x Hx. apply Hall. right. exact Hx. }
  simpl in E. rewrite E. simpl.
  assert (Ey : (m_created_at (fst y) <=? m_created_at (fst b)) = true).
  { apply Z.leb_le. rewrite Hb, (Hall y (or_introl eq_refl)). lia. }
  rewrite Ey. eauto.
Qed.

(** Send, then read.  A message that [sendMessage] stored is a [text]
    message with the given content, sender and consultation; when it is later
    than every earlier message of the consultation, [getMessages] with a
    limit of at least 1 returns it first. *)
Theorem sent_message_is_read_first (st : Store) (messages : list message)
  (consultationId senderId : uuid) (content senderRole : string)
  (new_id : uuid) (now : timestamp) (messages' : list message) (m : message)
  (limit : option Z) :
  sendMessage st messages consultationId senderId content senderRole new_id now
  = (messages', Ok m) ->
  (forall x, In x messages -> m_consultation_id x = consultationId ->
             m_created_at x < now) ->
  1 <= match limit with Some n => n | None => 50 end ->
  messages' = messages ++ [m]
  /\ m_consultation_id m = consultationId
  /\ m_sender_id m = Some senderId
  /\ m_content m = Some content
  /\ m_message_type m = "text"%string
  /\ user_role_of_string senderRole = Some (m_sender_role m)
  /\ exists name rest,
       getMessages st messages' consultationId limit = Ok ((m, name) :: rest).
Proof.
  intros Hsend Hlater Hlimit. unfold sendMessage in Hsend.
  destruct (user_role_of_string senderRole) as [sender_role|]; [|discriminate].
  destruct (negb _ || negb _); [discriminate|].
  injection Hsend as <- <-. unfold insert_row.
  repeat split.
  set (m := {| m_id := new_id; m_consultation_id := consultationId;
               m_sender_id := Some senderId; m_sender_role := sender_role;
               m_message_type := "text"; m_content := Some content;
               m_created_at := now |}).
  set (n := match limit with Some n => n | None => 50 end) in *.
  unfold getMessages. fold n.
  assert (E : (n <? 0) = false) by (apply Z.ltb_ge; lia).
  rewrite E. rewrite filter_app, flat_map_app. cbn [filter].
  change (m_consultation_id m) with consultationId.
  rewrite String.eqb_refl. cbn [flat_map]. rewrite app_nil_r.
  destruct (with_sender_name_head st m) as [name [more Hhead]].
  unfold most_recent_first. rewrite fold_right_app.
  destruct (same_instant_keep_order m (m, name) more eq_refl) as [rest1 E1].
  { intros x Hx. apply (in_with_sender_name st m).
    rewrite Hhead. right. exact Hx. }
  rewrite Hhead. unfold most_recent_first in E1. rewrite E1.
  destruct (newest_stays_first
              (flat_map (with_sender_name st)
                 (filter
                    (fun x => String.eqb (m_consultation_id x) consultationId)
                    messages))
              (m, name) rest1) as [rest2 E2].
  { intros a Ha. apply in_flat_map in Ha. destruct Ha as [x [Hx Ha]].
    apply in_with_sender_name in Ha. rewrite Ha.
    apply filter_In in Hx. destruct Hx as [Hx Hid].
    apply Hlater; [exact Hx|apply String.eqb_eq, Hid]. }
  rewrite E2.
  destruct (Z.to_nat n) as [|k] eqn:Ek; [lia|].
  exists name. eexists. reflexivity.
Qed.

(** ** The authentication routes *)

Section Routes.
Context {ext : Collaborators}.




End Routes.

Local Open Scope string_scope.

(** A first message in [E1], read back. *)
Lemma sent_message_is_read_first_E1 :
  exists name rest,
    getMessages completed_store
      ([] ++ [{| m_id := "M1"; m_consultation_id := "E1";
                 m_sender_id := Some "P1"; m_sender_role := role_patient;
                 m_message_type := "text"; m_content := Some "Hello doctor";
                 m_created_at := 1000 |}])%list
      "E1" None
    = Ok (({| m_id := "M1"; m_consultation_id := "E1";
              m_sender_id := Some "P1"; m_sender_role := role_patient;
              m_message_type := "text"; m_content := Some "Hello doctor";
              m_created_at := 1000 |}, name) :: rest).
Proof.
  refine (proj2 (proj2 (proj2 (proj2 (proj2 (proj2
            (sent_message_is_read_first completed_store [] "E1" "P1"
               "Hello doctor" "patient" "M1" 1000 _ _ None _ _ _))))))).
  - reflexivity.
  - intros x [].
  - lia.
Defined.


Local Close Scope string_scope.

(** ** PrescriptionService: issue, redeem, dispense *)



Lemma createPrescription_ok_inv (st : Store) (consultationId providerId : uuid)
  (medications : list medication) (qrCodeData : string) (now : timestamp)
  (new_id : uuid) (qrImage : option string) (st1 : Store)
  (created : CreatedPrescription) :
  createPrescription st consultationId providerId medications qrCodeData now
    new_id qrImage = (st1, Ok created) ->
  exists c rest,
    filter (fun c => String.eqb (c_id c) consultationId) (consultations st)
    = c :: rest
    /\ existsb (fun p => String.eqb (rx_qr_code_data p) qrCodeData)
         (prescriptions st) = false
    /\ rx_id (created_row created) = new_id
    /\ rx_qr_code_data (created_row created) = qrCodeData
    /\ rx_patient_id (created_row created) = c_patient_id c
    /\ rx_prescribing_provider_id (created_row created) = providerId
    /\ rx_qr_enabled (created_row created) = Some true
    /\ rx_status (created_row created) = rx_active
    /\ rx_expires_at (created_row created) = now + thirty_days
    /\ rx_created_at (created_row created) = now
    /\ users st1 = users st
    /\ partners st1 = partners st
    /\ pharmacy_claims st1 = pharmacy_claims st
    /\ prescriptions st1 = prescriptions st ++ [created_row created]
    /\ prescription_items st1
       = prescription_items st ++ map (item_of_medication new_id) medications
    /\ List.length (audit_events st1) = S (List.length (audit_events st)).
Proof.
  unfold createPrescription.
  destruct (filter (fun c => String.eqb (c_id c) consultationId)
              (consultations st)) as [|c rest]; [discriminate|].
  destruct (negb _); [discriminate|].
  destruct (existsb _ (prescriptions st)) eqn:Eq; [discriminate|].
  destruct qrImage as [image|]; [|discriminate].
  intros E. injection E as <- <-.
  exists c, rest. cbn. unfold insert_row. rewrite length_app.
  repeat split. simpl. lia.
Qed.


(** Verification is repeatable.  [verifyPrescriptionQR] changes the store
    only when it answers [valid], and then only by appending one ready
    claim of the calling pharmacy; the prescription itself is not touched,
    so the same token is accepted again, with the same view, for any
    registered pharmacy at the same instant, each time with one more
    claim. *)
Theorem verifyPrescriptionQR_is_repeatable (st : Store) (qrCodeData : string)
  (pharmacyId : uuid) (now : timestamp) (new_id : uuid) :
  let out := verifyPrescriptionQR st qrCodeData pharmacyId now new_id in
  match snd out with
  | Ok (Valid view) =>
      fst out
      = set_pharmacy_claims
          (pharmacy_claims st
             ++ [ready_claim new_id (pv_id view) pharmacyId now]) st
      /\ forall pharmacyId' new_id',
           existsb (fun p => String.eqb (pt_id p) pharmacyId') (partners st)
           = true ->
           verifyPrescriptionQR (fst out) qrCodeData pharmacyId' now new_id'
           = (set_pharmacy_claims
                (pharmacy_claims (fst out)
                   ++ [ready_claim new_id' (pv_id view) pharmacyId' now])
                (fst out),
              Ok (Valid view))
  | _ => fst out = st
  end.
Proof.
  cbv zeta. rewrite verifyPrescriptionQR_head.
  destruct (map fst (prescription_by_qr st qrCodeData)) as [|p rest] eqn:Erows;
    [reflexivity|].
  destruct (qr_disabled p) eqn:Eq; [reflexivity|].
  destruct (rx_expires_at p <? now) eqn:Et; [reflexivity|].
  destruct (prescription_status_eqb (rx_status p) rx_fulfilled) eqn:Es;
    [reflexivity|].
  destruct (negb (existsb (fun x => String.eqb (pt_id x) pharmacyId)
                    (partners st))); [reflexivity|].
  cbn [fst snd]. split; [reflexivity|].
  intros pharmacyId' new_id' Hph.
  rewrite verifyPrescriptionQR_head.
  change (prescription_by_qr (set_pharmacy_claims _ st) qrCodeData)
    with (prescription_by_qr st qrCodeData).
  rewrite Erows, Eq, Et, Es. cbn [partners set_pharmacy_claims].
  rewrite Hph. reflexivity.
Qed.

(** Dispensing asks for nothing.  [fulfillPrescription] for a prescription
    and pharmacy without a claim succeeds, leaves the claims as they were
    and appends one audit record; when no prescription has the id either,
    the prescriptions are unchanged as well. *)
Theorem fulfillPrescription_needs_no_claim (st : Store)
  (prescriptionId pharmacyId : uuid) (dispensedItems : list string)
  (now : timestamp) :
  (forall c, In c (pharmacy_claims st) ->
             claim_of prescriptionId pharmacyId c = false) ->
  let out :=
    fulfillPrescription st prescriptionId pharmacyId dispensedItems now in
  snd out = Ok tt
  /\ pharmacy_claims (fst out) = pharmacy_claims st
  /\ audit_events (fst out)
     = audit_events st
       ++ [{| ae_user_id := None; ae_event_type := "prescription.fulfilled";
              ae_resource_type := "prescription";
              ae_resource_id := prescriptionId;
              ae_event_data := [("pharmacy_id"%string, pharmacyId)] |}]
  /\ ((forall p, In p (prescriptions st) -> rx_id p <> prescriptionId) ->
      prescriptions (fst out) = prescriptions st)
  /\ (forall p, In p (prescriptions st) -> rx_id p = prescriptionId ->
                In (set_fulfilled pharmacyId now p) (prescriptions (fst out))).
Proof.
  intros Hnone. cbv zeta. unfold fulfillPrescription.
  cbn [fst snd pharmacy_claims audit_events prescriptions log_audit
       set_audit_events set_prescriptions set_pharmacy_claims].
  repeat apply conj.
  - reflexivity.
  - apply update_where_none, Hnone.
  - reflexivity.
  - intros Hnorx. apply update_where_none. intros p Hp.
    apply String.eqb_neq. apply Hnorx, Hp.
  - intros p Hp Hid. apply in_update_where; [exact Hp|].
    apply String.eqb_eq, Hid.
Qed.

(** Only the patient.  [downloadPrescriptionPDF] by a user who is not the
    patient of a prescription of that id fails with "Prescription not found"
    (404) and changes nothing; when it succeeds, the caller is the patient
    of such a prescription, the document returned is the one rendered and
    uploaded, and one audit record is appended. *)
Theorem downloadPrescriptionPDF_only_by_the_patient (st : Store)
  (prescriptionId userId : uuid) (now : timestamp) (pdf upload : result string) :
  ((forall p, In p (prescriptions st) -> rx_id p = prescriptionId ->
              rx_patient_id p <> userId) ->
   downloadPrescriptionPDF st prescriptionId userId now pdf upload
   = (st, Throw (AppError "Prescription not found" 404)))
  /\ (forall st' document,
        downloadPrescriptionPDF st prescriptionId userId now pdf upload
        = (st', Ok document) ->
        (exists p, In p (prescriptions st) /\ rx_id p = prescriptionId
                   /\ rx_patient_id p = userId)
        /\ pdf = Ok (buffer document)
        /\ upload = Ok (url document)
        /\ List.length (audit_events st') = S (List.length (audit_events st))).
Proof.
  split.
  - intros Hother. unfold downloadPrescriptionPDF, prescription_of_patient.
    rewrite (filter_none _ (prescriptions st)); [reflexivity|].
    intros p Hp.
    destruct (has_prescription_id prescriptionId p) eqn:Eid; [|reflexivity].
    destruct (String.eqb (rx_patient_id p) userId) eqn:Eu; [|reflexivity].
    exfalso. apply (Hother p Hp).
    + apply String.eqb_eq, Eid.
    + apply String.eqb_eq, Eu.
  - intros st' document. unfold downloadPrescriptionPDF.
    destruct (prescription_of_patient st prescriptionId userId) as [|p ps] eqn:E;
      [discriminate|].
    destruct pdf as [pdfBuffer|e]; [|discriminate].
    destruct upload as [pdfUrl|e]; [|discriminate].
    intros H. injection H as <- <-.
    assert (Hp : In p (prescription_of_patient st prescriptionId userId))
      by (rewrite E; left; reflexivity).
    apply filter_In in Hp. destruct Hp as [Hp Hc].
    apply andb_prop in Hc. destruct Hc as [Hc _].
    apply andb_prop in Hc. destruct Hc as [Hc _].
    apply andb_prop in Hc. destruct Hc as [Hid Hu].
    repeat split.
    + exists p. split; [exact Hp|].
      split; [apply String.eqb_eq, Hid|apply String.eqb_eq, Hu].
    + cbn. unfold insert_row. rewrite length_app. simpl. lia.
Qed.

(** All or nothing.  When [createPrescription] or [downloadPrescriptionPDF]
    throws, at whatever step, the store is as it was before the call; when
    [createPrescription] succeeds, the prescription, all of its line items
    and one audit record have been added together. *)
Theorem transactions_are_all_or_nothing (st : Store) :
  (forall consultationId providerId medications qrCodeData now new_id qrImage
          st' e,
      createPrescription st consultationId providerId medications qrCodeData
        now new_id qrImage = (st', Throw e) ->
      st' = st)
  /\ (forall prescriptionId userId now pdf upload st' e,
        downloadPrescriptionPDF st prescriptionId userId now pdf upload
        = (st', Throw e) ->
        st' = st)
  /\ (forall consultationId providerId medications qrCodeData now new_id
             qrImage st' created,
        createPrescription st consultationId providerId medications
          qrCodeData now new_id qrImage = (st', Ok created) ->
        prescriptions st' = prescriptions st ++ [created_row created]
        /\ prescription_items st'
           = prescription_items st
             ++ map (item_of_medication (rx_id (created_row created)))
                  medications
        /\ List.length (audit_events st') = S (List.length (audit_events st))).
Proof.
  repeat apply conj.
  - intros consultationId providerId medications qrCodeData now new_id qrImage
      st' e. unfold createPrescription.
    destruct (filter _ (consultations st)) as [|c rest].
    { intros H. injection H as <- _. reflexivity. }
    destruct (negb _). { intros H. injection H as <- _. reflexivity. }
    destruct (existsb _ (prescriptions st)).
    { intros H. injection H as <- _. reflexivity. }
    destruct qrImage; [discriminate|].
    intros H. injection H as <- _. reflexivity.
  - intros prescriptionId userId now pdf upload st' e.
    unfold downloadPrescriptionPDF.
    destruct (prescription_of_patient st prescriptionId userId) as [|p ps].
    { intros H. injection H as <- _. reflexivity. }
    destruct pdf as [pdfBuffer|e1].
    + destruct upload as [pdfUrl|e2]; [discriminate|].
      intros H. injection H as <- _. reflexivity.
    + intros H. injection H as <- _. reflexivity.
  - intros consultationId providerId medications qrCodeData now new_id qrImage
      st' created Hcreate.
    destruct (createPrescription_ok_inv _ _ _ _ _ _ _ _ _ _ Hcreate)
      as (c & rest & _ & _ & Hid & _ & _ & _ & _ & _ & _ & _ & _ & _ & _
          & Hrx & Hit & Ha).
    rewrite Hid. repeat split; assumption.
Qed.

(** *** What no call of the service undoes *)

Lemma prescription_by_qr_evolves (st st' : Store)
  (g : prescription -> prescription) (extra : list prescription)
  (qrCodeData : string) :
  users st' = users st ->
  prescriptions st' = map g (prescriptions st) ++ extra ->
  (forall p, rx_qr_code_data (g p) = rx_qr_code_data p
             /\ rx_patient_id (g p) = rx_patient_id p) ->
  exists more,
    map fst (prescription_by_qr st' qrCodeData)
    = map g (map fst (prescription_by_qr st qrCodeData)) ++ more.
Proof.
  intros Hu Hp Hg. unfold prescription_by_qr.
  rewrite Hp, Hu, filter_app, flat_map_app, map_app.
  eexists. f_equal.
  rewrite filter_map_commute
    by (intros p; rewrite (proj1 (Hg p)); reflexivity).
  induction (filter (fun p => String.eqb (rx_qr_code_data p) qrCodeData)
               (prescriptions st)) as [|p l IH]; simpl; [reflexivity|].
  rewrite !map_app, IH. f_equal.
  rewrite (proj2 (Hg p)), !map_map. reflexivity.
Qed.

Lemma prescription_step_evolves (st : Store) (c : prescription_call) :
  exists g extra,
    users (prescription_step st c) = users st
    /\ prescriptions (prescription_step st c)
       = map g (prescriptions st) ++ extra
    /\ forall p,
         rx_qr_code_data (g p) = rx_qr_code_data p
         /\ rx_patient_id (g p) = rx_patient_id p
         /\ (token_is_dead p = true -> token_is_dead (g p) = true).
Proof.
  assert (Hsame : forall st0 : Store,
             users st0 = users st -> prescriptions st0 = prescriptions st ->
             exists g extra,
               users st0 = users st
               /\ prescriptions st0 = map g (prescriptions st) ++ extra
               /\ forall p,
                    rx_qr_code_data (g p) = rx_qr_code_data p
                    /\ rx_patient_id (g p) = rx_patient_id p
                    /\ (token_is_dead p = true -> token_is_dead (g p) = true)).
  { intros st0 Hu Hp. exists (fun p => p), [].
    rewrite map_id, app_nil_r. repeat split; auto. }
  destruct c as [consultationId providerId medications qrCodeData now new_id
                   qrImage
                |qrCodeData pharmacyId now new_id
                |prescriptionId userId now pdf upload
                |prescriptionId pharmacyId dispensedItems now];
    cbn [prescription_step].
  - unfold createPrescription.
    destruct (filter _ (consultations st)) as [|c rest];
      [apply Hsame; reflexivity|].
    destruct (negb _); [apply Hsame; reflexivity|].
    destruct (existsb _ (prescriptions st)); [apply Hsame; reflexivity|].
    destruct qrImage as [image|]; [|apply Hsame; reflexivity].
    eexists (fun p => p), _. cbn. unfold insert_row. rewrite map_id.
    repeat split; auto.
  - rewrite verifyPrescriptionQR_head.
    destruct (map fst (prescription_by_qr st qrCodeData)) as [|p rest];
      [apply Hsame; reflexivity|].
    destruct (qr_disabled p); [apply Hsame; reflexivity|].
    destruct (rx_expires_at p <? now); [apply Hsame; reflexivity|].
    destruct (prescription_status_eqb (rx_status p) rx_fulfilled);
      [apply Hsame; reflexivity|].
    destruct (negb _); apply Hsame; reflexivity.
  - unfold downloadPrescriptionPDF.
    destruct (prescription_of_patient st prescriptionId userId) as [|p ps];
      [apply Hsame; reflexivity|].
    destruct pdf as [pdfBuffer|e]; [|apply Hsame; reflexivity].
    destruct upload as [pdfUrl|e]; [|apply Hsame; reflexivity].
    exists (fun p => if has_prescription_id prescriptionId p
                     then set_pdf_downloaded pdfUrl now p else p), [].
    rewrite app_nil_r. split; [reflexivity|]. split; [reflexivity|].
    intros x. destruct (has_prescription_id prescriptionId x);
      repeat split; auto.
  - exists (fun p => if has_prescription_id prescriptionId p
                     then set_fulfilled pharmacyId now p else p), [].
    rewrite app_nil_r. split; [reflexivity|]. split; [reflexivity|].
    intros x. destruct (has_prescription_id prescriptionId x);
      repeat split; auto.
    intros _. unfold token_is_dead. cbn. apply orb_true_r.
Qed.

Lemma dead_head_is_kept (st : Store) (c : prescription_call)
  (qrCodeData : string) :
  (exists p rest,
      map fst (prescription_by_qr st qrCodeData) = p :: rest
      /\ token_is_dead p = true) ->
  exists p rest,
    map fst (prescription_by_qr (prescription_step st c) qrCodeData) = p :: rest
    /\ token_is_dead p = true.
Proof.
  intros [p [rest [Hrows Hdead]]].
  destruct (prescription_step_evolves st c) as [g [extra [Hu [Hp Hg]]]].
  destruct (prescription_by_qr_evolves st (prescription_step st c) g extra
              qrCodeData Hu Hp) as [more Hmore].
  { intros x. split; apply (Hg x). }
  rewrite Hmore, Hrows. cbn [map app].
  exists (g p). eexists. split; [reflexivity|]. apply (Hg p), Hdead.
Qed.

(** A dead token stays dead.  Once the prescription a token leads to has
    its QR code disabled or is fulfilled, [verifyPrescriptionQR] refuses the
    token, at every instant and for every pharmacy, after any sequence of
    calls of the service: no method enables a QR code again or takes a
    prescription out of [fulfilled]. *)
Theorem dead_tokens_stay_dead (calls : list prescription_call) (st : Store)
  (qrCodeData : string) (p : prescription) (name : option string)
  (rest : list (prescription * option string)) :
  prescription_by_qr st qrCodeData = (p, name) :: rest ->
  token_is_dead p = true ->
  forall pharmacyId now new_id,
  exists reason,
    verifyPrescriptionQR (fold_left prescription_step calls st) qrCodeData
      pharmacyId now new_id
    = (fold_left prescription_step calls st, Ok (Invalid reason))
    /\ In reason ["pdf_downloaded"; "expired"; "already_used"]%string.
Proof.
  intros Hrow Hdead pharmacyId now new_id.
  assert (Hhead : exists q tail,
             map fst (prescription_by_qr st qrCodeData) = q :: tail
             /\ token_is_dead q = true).
  { rewrite Hrow. cbn [map fst]. eauto. }
  clear Hrow Hdead. revert st Hhead.
  induction calls as [|c calls IH]; intros st Hhead; cbn [fold_left].
  - destruct Hhead as [q [tail [Hrows Hq]]].
    rewrite verifyPrescriptionQR_head, Hrows.
    unfold token_is_dead in Hq.
    destruct (qr_disabled q).
    { eexists. split; [reflexivity|simpl; tauto]. }
    destruct (rx_expires_at q <? now).
    { eexists. split; [reflexivity|simpl; tauto]. }
    cbn [orb] in Hq. rewrite Hq.
    eexists. split; [reflexivity|simpl; tauto].
  - apply IH, dead_head_is_kept, Hhead.
Qed.

Local Open Scope string_scope.


(** [Rx1] dispensed by a pharmacy that never presented it. *)
Lemma fulfillPrescription_needs_no_claim_Rx1 :
  snd (fulfillPrescription issued_store "Rx1" "PH-A" ["Amoxicillin"] 1000)
  = Ok tt.
Proof.
  refine (proj1 (fulfillPrescription_needs_no_claim issued_store "Rx1" "PH-A"
                   ["Amoxicillin"] 1000 _)).
  intros c [].
Defined.

(** [Rx1] downloaded by the patient: the token is refused, also after a
    pharmacy has dispensed it and a further prescription has been issued. *)
Lemma dead_tokens_stay_dead_Rx1 :
  exists reason,
    verifyPrescriptionQR
      (fold_left prescription_step
         [FulfillPrescription "Rx1" "PH-A" ["Amoxicillin"] 1000;
          CreatePrescription "E1" (pr_id gp_C1) [amoxicillin] "T2" 2000 "Rx2"
            (Some "data:image/png;base64,iVBOR")]
         downloaded_store)
      "T" "PH-B" 3000 "claim-1"
    = (fold_left prescription_step
         [FulfillPrescription "Rx1" "PH-A" ["Amoxicillin"] 1000;
          CreatePrescription "E1" (pr_id gp_C1) [amoxicillin] "T2" 2000 "Rx2"
            (Some "data:image/png;base64,iVBOR")]
         downloaded_store,
       Ok (Invalid reason))
    /\ In reason ["pdf_downloaded"; "expired"; "already_used"].
Proof.
  refine (dead_tokens_stay_dead
            [FulfillPrescription "Rx1" "PH-A" ["Amoxicillin"] 1000;
             CreatePrescription "E1" (pr_id gp_C1) [amoxicillin] "T2" 2000
               "Rx2" (Some "data:image/png;base64,iVBOR")]
            downloaded_store "T" (prescription_Rx1 (Some false) rx_active)
            (Some "Amina Wanjiru") [] _ _ "PH-B" 3000 "claim-1").
  - reflexivity.
  - reflexivity.
Defined.

Local Close Scope string_scope.

(** ** Nothing is deleted *)

Lemma extends_refl {row key : Type} (k : row -> key) (l : list row) :
  extends k l l.
Proof. exists []. rewrite app_nil_r. reflexivity. Qed.

Lemma extends_trans {row key : Type} (k : row -> key) (l1 l2 l3 : list row) :
  extends k l1 l2 -> extends k l2 l3 -> extends k l1 l3.
Proof.
  intros [m1 E1] [m2 E2]. exists (m1 ++ m2).
  rewrite E2, E1, app_assoc. reflexivity.
Qed.

Lemma extends_update_where {row key : Type} (k : row -> key)
  (cond : row -> bool) (set : row -> row) (l l' : list row) :
  (forall r, k (set r) = k r) ->
  extends k l l' -> extends k l (update_where cond set l').
Proof.
  intros Hk [m E]. exists m. rewrite map_key_update_where; assumption.
Qed.

Lemma extends_insert_row {row key : Type} (k : row -> key) (x : row)
  (l l' : list row) :
  extends k l l' -> extends k l (insert_row x l').
Proof.
  intros [m E]. exists (m ++ [k x]). unfold insert_row.
  rewrite map_app, E, app_assoc. reflexivity.
Qed.

Lemma extends_app {row key : Type} (k : row -> key) (l l' more : list row) :
  extends k l l' -> extends k l (l' ++ more).
Proof.
  intros [m E]. exists (m ++ map k more).
  rewrite map_app, E, app_assoc. reflexivity.
Qed.

Lemma retains_refl (st : Store) : retains st st.
Proof. repeat split; apply extends_refl. Qed.

Lemma retains_trans (st1 st2 st3 : Store) :
  retains st1 st2 -> retains st2 st3 -> retains st1 st3.
Proof.
  intros (A1 & B1 & C1 & D1 & E1 & F1 & G1 & H1 & I1 & J1)
         (A2 & B2 & C2 & D2 & E2 & F2 & G2 & H2 & I2 & J2).
  repeat split; try (eapply extends_trans; eassumption); congruence.
Qed.

(** One table after one statement: unchanged, updated in place with the
    key kept, or longer. *)
Ltac table_kept :=
  repeat first
    [ apply extends_refl
    | apply extends_insert_row
    | apply extends_app
    | apply extends_update_where;
      [ intros ?;
        repeat match goal with
               | |- context [match ?x with _ => _ end] => destruct x
               end;
        reflexivity
      | ] ].

Ltac store_kept :=
  unfold retains;
  cbn [fst audit_events prescription_items users wa_auth_codes consultations
       prescriptions pharmacy_claims video_call_events providers partners
       set_users set_wa_auth_codes set_consultations set_video_call_events
       set_prescriptions set_prescription_items set_pharmacy_claims
       set_audit_events log_audit];
  repeat split; table_kept.

Section Retention.
Context {ext : Collaborators}.

Lemma auth_step_retains (st : Store) (c : auth_call) :
  retains st (auth_step st c).
Proof.
  destruct c as [phoneNumber otp salt now new_id response
                |phoneNumber code now new_user_id session]; cbn [auth_step].
  - rewrite requestOTP_store. apply retains_refl.
  - unfold verifyOTP.
    destruct (filter (is_pending_for phoneNumber) (wa_auth_codes st))
      as [|r rest]; [apply retains_refl|].
    destruct (ac_ttl_expires_at r <? now); [store_kept|].
    destruct (negb (bcrypt_compare code (ac_code_hash r))).
    + unfold increment_attempts.
      destruct (existsb _ (wa_auth_codes st)); store_kept.
    + destruct (filter (fun u => String.eqb (u_phone_number u) phoneNumber)
                  (users _)); store_kept.
Qed.

Lemma consultation_step_retains (st : Store) (c : consultation_call) :
  retains st (consultation_step st c).
Proof.
  destruct c as [consultationId now notification
                |consultationId providerId now
                |consultationId notes now
                |consultationId reason]; cbn [consultation_step].
  - unfold assignGP. destruct (availableGP st); [|apply retains_refl].
    destruct (filter _ (providers _)); [store_kept|].
    destruct notification; store_kept.
  - unfold startConsultation.
    destruct (consultation_with_patient _ _) as [|[c u] rest]; store_kept.
  - unfold endConsultation.
    destruct (map (set_completed notes now) _); store_kept.
  - unfold extendConsultation.
    destruct (existsb _ (consultations st)); store_kept.
Qed.

Lemma prescription_step_retains (st : Store) (c : prescription_call) :
  retains st (prescription_step st c).
Proof.
  destruct c as [consultationId providerId medications qrCodeData now new_id
                   qrImage
                |qrCodeData pharmacyId now new_id
                |prescriptionId userId now pdf upload
                |prescriptionId pharmacyId dispensedItems now];
    cbn [prescription_step].
  - unfold createPrescription.
    destruct (filter _ (consultations st)); [apply retains_refl|].
    destruct (negb _); [apply retains_refl|].
    destruct (existsb _ (prescriptions st)); [apply retains_refl|].
    destruct qrImage; [store_kept|apply retains_refl].
  - rewrite verifyPrescriptionQR_head.
    destruct (map fst (prescription_by_qr st qrCodeData)) as [|p rest];
      [apply retains_refl|].
    destruct (qr_disabled p); [apply retains_refl|].
    destruct (rx_expires_at p <? now); [apply retains_refl|].
    destruct (prescription_status_eqb (rx_status p) rx_fulfilled);
      [apply retains_refl|].
    destruct (negb _); [apply retains_refl|store_kept].
  - unfold downloadPrescriptionPDF.
    destruct (prescription_of_patient st prescriptionId userId);
      [apply retains_refl|].
    destruct pdf; [|apply retains_refl].
    destruct upload; [store_kept|apply retains_refl].
  - unfold fulfillPrescription. store_kept.
Qed.

(** Nothing is deleted.  After any sequence of calls of the methods of
    AuthService, ConsultationService and PrescriptionService, the audit
    records and the prescription line items of the initial store are still
    there, unchanged and in place, followed by the new ones; every user,
    challenge, consultation, prescription and claim of the initial store is
    still there under its id; and the providers and partners are the
    same. *)
Theorem services_delete_nothing (calls : list service_call) (st : Store) :
  retains st (fold_left service_step calls st).
Proof.
  revert st. induction calls as [|c calls IH]; intros st; cbn [fold_left].
  - apply retains_refl.
  - apply (retains_trans st (service_step st c)); [|apply IH].
    destruct c as [c|user_id|c|c]; cbn [service_step].
    + apply auth_step_retains.
    + unfold logout. store_kept.
    + apply consultation_step_retains.
    + apply prescription_step_retains.
Qed.

End Retention.
